(** * Backtesting engine of TradingAgents (webapp/backtesting_engine.py)

    A shallow embedding of the simulated portfolio, the momentum signal
    rule, the daily loop, the trade statistics and the run registry, with
    the properties the specification states about them.

    Conventions of the embedding.
    - A Python [float] is read as an exact rational ([Q]); equalities
      between computed amounts are stated with [==] ([Qeq]).  Rounding
      is outside the model.  Where a property depends on overflow, on
      an infinity or on NaN, the amounts are values of [pyfloat] with
      the operations of [PyFloat], and the portfolio is
      [FloatPortfolio].
    - A Python [int] is a [Z]; [quantity * execution_price] converts the
      integer with [inject_Z].
    - A [datetime] is a [Z] (a day or second count); only equality and
      order of dates are used by the engine.
    - A [dict] whose iteration order is irrelevant to the result is a
      [gmap]; the [data] dictionary of price frames, whose iteration order
      fixes the order of the signals, is an association list.
    - Objects that are shared between the registry and its worker threads
      live in an explicit heap, addressed by their index. *)

From Stdlib Require Import QArith Qabs Qminmax Lqa ZArith Lia Sorted.
From stdpp Require Import gmap strings list fin_maps pretty.

Local Open Scope string_scope.
Local Open Scope Z_scope.

(** A [datetime] value. *)
Definition datetime := Z.

(** ** Trade (dataclass, lines 46-58) *)
Module Trade.
Record t := mk {
  symbol : string;
  entry_date : datetime;
  exit_date : option datetime;
  entry_price : Q;
  exit_price : option Q;
  quantity : Z;
  side : string;
  pnl : option Q;          (* default None *)
  commission : Q;          (* default 0.0 *)
  reason : string          (* default "" *)
}.
End Trade.

(** ** BacktestPortfolio (lines 487-571) *)
Module BacktestPortfolio.
Record t := mk {
  initial_capital : Q;
  cash : Q;
  commission : Q;
  slippage : Q;
  positions : gmap string Z;
  current_prices : gmap string Q;
  total_value : Q;
  positions_value : Q
}.

(** [__init__] *)
Definition init (initial_capital commission slippage : Q) : t :=
  {| initial_capital := initial_capital;
     cash := initial_capital;
     commission := commission;
     slippage := slippage;
     positions := ∅;
     current_prices := ∅;
     total_value := initial_capital;
     positions_value := 0 |}.

(** [self.positions.get(symbol, 0)] *)
Definition position_of (positions : gmap string Z) (symbol : string) : Z :=
  default 0 (positions !! symbol).

(** The generator summed at lines 506-509. *)
Definition value_of_positions (positions : gmap string Z)
    (prices : gmap string Q) : Q :=
  map_fold (fun symbol price acc =>
              (acc + inject_Z (position_of positions symbol) * price)%Q)
           0%Q prices.

(** [update_prices]: [dict.update] lets the new prices win. *)
Definition update_prices (self : t) (date : datetime)
    (prices : gmap string Q) : t :=
  let current_prices' := prices ∪ current_prices self in
  let positions_value' := value_of_positions (positions self) current_prices' in
  {| initial_capital := initial_capital self;
     cash := cash self;
     commission := commission self;
     slippage := slippage self;
     positions := positions self;
     current_prices := current_prices';
     total_value := (cash self + positions_value')%Q;
     positions_value := positions_value' |}.

Definition set_cash_positions (self : t) (cash' : Q)
    (positions' : gmap string Z) : t :=
  {| initial_capital := initial_capital self;
     cash := cash';
     commission := commission self;
     slippage := slippage self;
     positions := positions';
     current_prices := current_prices self;
     total_value := total_value self;
     positions_value := positions_value self |}.

(** Line 518-521. *)
Definition execution_price (self : t) (side : string) (price : Q) : Q :=
  if decide (side = "BUY") then (price * (1 + slippage self))%Q
  else (price * (1 - slippage self))%Q.

(** [execute_trade]: the new portfolio and the returned [Optional[Trade]].
    Nothing in the body raises on rationals, so the [except] branch is
    never taken. *)
Definition execute_trade (self : t) (symbol side : string) (quantity : Z)
    (price : Q) (date : datetime) (reason : string) : t * option Trade.t :=
  let execution_price := execution_price self side price in
  let trade_value := (inject_Z quantity * execution_price)%Q in
  let commission_cost := (trade_value * commission self)%Q in
  if decide (side = "BUY") then
    let total_cost := (trade_value + commission_cost)%Q in
    if Qle_bool total_cost (cash self) then
      (set_cash_positions self (cash self - total_cost)%Q
         (<[symbol := position_of (positions self) symbol + quantity]>
            (positions self)),
       Some {| Trade.symbol := symbol;
               Trade.entry_date := date;
               Trade.exit_date := None;
               Trade.entry_price := execution_price;
               Trade.exit_price := None;
               Trade.quantity := quantity;
               Trade.side := side;
               Trade.pnl := None;
               Trade.commission := commission_cost;
               Trade.reason := reason |})
    else (self, None)
  else if decide (side = "SELL") then
    let current_position := position_of (positions self) symbol in
    if (quantity <=? current_position)%Z then
      let positions1 :=
        <[symbol := current_position - quantity]> (positions self) in
      let positions2 :=
        if (current_position - quantity =? 0)%Z
        then delete symbol positions1 else positions1 in
      (set_cash_positions self
         (cash self + (trade_value - commission_cost))%Q positions2,
       Some {| Trade.symbol := symbol;
               Trade.entry_date := date;
               Trade.exit_date := Some date;
               Trade.entry_price := execution_price;
               Trade.exit_price := Some execution_price;
               Trade.quantity := quantity;
               Trade.side := side;
               Trade.pnl := None;
               Trade.commission := commission_cost;
               Trade.reason := reason |})
    else (self, None)
  else (self, None).
End BacktestPortfolio.


(** ** BacktestConfig (dataclass, lines 31-44) *)
Module BacktestConfig.
Record t := mk {
  name : string;
  description : string;
  symbols : list string;
  start_date : string;
  end_date : string;
  initial_capital : Q;
  trading_config : list (string * string);   (* opaque to the engine *)
  risk_config : list (string * string);      (* opaque to the engine *)
  benchmark : string;                        (* default "SPY" *)
  commission : Q;                            (* default 0.001 *)
  slippage : Q                               (* default 0.0005 *)
}.
End BacktestConfig.

(** ** Price frames

    The engine reads a [pandas.DataFrame] only through its index and its
    [Close] column: a frame is the list of its rows [(index, Close)], in
    row order.  The index of a frame has no duplicate (one row per day). *)
Definition DataFrame := list (datetime * Q).

(** The [data] dictionary, in insertion order. *)
Definition Data := list (string * DataFrame).

Module Frame.
(** [current_date in symbol_data.index] *)
Definition index_contains (df : DataFrame) (d : datetime) : bool :=
  existsb (fun row => (fst row =? d)%Z) df.

(** [symbol_data.loc[current_date, 'Close']] *)
Fixpoint loc_close (df : DataFrame) (d : datetime) : option Q :=
  match df with
  | [] => None
  | (d', c) :: rest => if (d' =? d)%Z then Some c else loc_close rest d
  end.

(** [symbol_data.index.get_loc(current_date)] *)
Fixpoint get_loc (df : DataFrame) (d : datetime) : option nat :=
  match df with
  | [] => None
  | (d', _) :: rest =>
      if (d' =? d)%Z then Some 0%nat else S <$> get_loc rest d
  end.

(** [symbol_data.iloc[lo:hi]], for [0 <= lo]. *)
Definition iloc (df : DataFrame) (lo hi : nat) : DataFrame :=
  take (hi - lo) (drop lo df).

(** The [Close] column. *)
Definition close (df : DataFrame) : list Q := map snd df.
End Frame.

(** [sum] and [mean] of a list of floats. *)
Definition Qsum (l : list Q) : Q := fold_left Qplus l 0%Q.
Definition Qmean (l : list Q) : Q := (Qsum l / inject_Z (Z.of_nat (length l)))%Q.

(** [x < y] on floats. *)
Definition Qlt_bool (x y : Q) : bool := negb (Qle_bool y x).

(** [dict.get] / [in] / item assignment on an insertion-ordered dict. *)
Fixpoint dict_get {V} (d : list (string * V)) (k : string) : option V :=
  match d with
  | [] => None
  | (k', v) :: rest => if decide (k' = k) then Some v else dict_get rest k
  end.

Fixpoint dict_set {V} (d : list (string * V)) (k : string) (v : V)
    : list (string * V) :=
  match d with
  | [] => [(k, v)]
  | (k', v') :: rest =>
      if decide (k' = k) then (k, v) :: rest else (k', v') :: dict_set rest k v
  end.

(** ** Trading signals (the dictionaries built at lines 319-333) *)
Module Signal.
Record t := mk {
  symbol : string;
  side : string;
  quantity : Z;
  price : Q;
  reason : string
}.
End Signal.

(** ** EquityPoint (the dictionary built at lines 255-260) *)
Module EquityPoint.
Record t := mk {
  date : datetime;           (* isoformat string in the source *)
  equity : Q;
  cash : Q;
  positions_value : Q
}.
End EquityPoint.

(** [_simulate_trading_signals] (lines 295-335): 20-day momentum. *)
Definition symbol_signals (current_date : datetime)
    (entry : string * DataFrame) : list Signal.t :=
  let '(symbol, symbol_data) := entry in
  if negb (Frame.index_contains symbol_data current_date) then []
  else
    match Frame.get_loc symbol_data current_date with
    | None => []
    | Some end_idx =>
        if (end_idx <? 20)%nat then []
        else
          let recent_data :=
            Frame.iloc symbol_data (end_idx - 19) (end_idx + 1) in
          let current_price := List.last (Frame.close recent_data) 0%Q in
          let avg_price := Qmean (Frame.close recent_data) in
          if Qlt_bool (avg_price * 1.02)%Q current_price then
            [ {| Signal.symbol := symbol; Signal.side := "BUY";
                 Signal.quantity := 100; Signal.price := current_price;
                 Signal.reason := "Momentum positif" |} ]
          else if Qlt_bool current_price (avg_price * 0.98)%Q then
            [ {| Signal.symbol := symbol; Signal.side := "SELL";
                 Signal.quantity := 100; Signal.price := current_price;
                 Signal.reason := "Momentum négatif" |} ]
          else []
    end.

Definition _simulate_trading_signals (config : BacktestConfig.t)
    (current_date : datetime) (data : Data) (day_index : nat)
    : list Signal.t :=
  if (day_index <? 20)%nat then []
  else flat_map (symbol_signals current_date) data.

(** ** The daily loop of [_run_backtest] (lines 217-261) *)

(** [sorted(list(all_dates))] for the set [all_dates] of every index. *)
Fixpoint insert_date (d : datetime) (l : list datetime) : list datetime :=
  match l with
  | [] => [d]
  | x :: rest =>
      if (d <? x)%Z then d :: l
      else if (d =? x)%Z then l
      else x :: insert_date d rest
  end.

Definition trading_dates (data : Data) : list datetime :=
  fold_left (fun acc entry =>
               fold_left (fun acc' row => insert_date (fst row) acc')
                         (snd entry) acc)
            data [].

(** Lines 229-232. *)
Definition current_prices_at (data : Data) (current_date : datetime)
    : gmap string Q :=
  fold_left (fun prices entry =>
               match Frame.loc_close (snd entry) current_date with
               | Some c => <[fst entry := c]> prices
               | None => prices
               end)
            data ∅.

(** Lines 241-252: the trades are appended in the order of the signals. *)
Definition execute_signals (current_date : datetime)
    (st : BacktestPortfolio.t * list Trade.t) (signals : list Signal.t)
    : BacktestPortfolio.t * list Trade.t :=
  fold_left (fun st signal =>
               let '(portfolio, trades) := st in
               let '(portfolio', trade) :=
                 BacktestPortfolio.execute_trade portfolio
                   (Signal.symbol signal) (Signal.side signal)
                   (Signal.quantity signal) (Signal.price signal)
                   current_date (Signal.reason signal) in
               match trade with
               | Some t => (portfolio', (trades ++ [t])%list)
               | None => (portfolio', trades)
               end)
            signals st.

(** Lines 255-260. *)
Definition equity_point (current_date : datetime)
    (portfolio : BacktestPortfolio.t) : EquityPoint.t :=
  {| EquityPoint.date := current_date;
     EquityPoint.equity := BacktestPortfolio.total_value portfolio;
     EquityPoint.cash := BacktestPortfolio.cash portfolio;
     EquityPoint.positions_value :=
       BacktestPortfolio.positions_value portfolio |}.

(** The state the loop threads: the portfolio and the two lists of the
    run record it appends to. *)
Record LoopState := mkLoop {
  loop_portfolio : BacktestPortfolio.t;
  loop_trades : list Trade.t;
  loop_equity_curve : list EquityPoint.t
}.

(** One iteration of the loop body, for index [i] and [current_date]. *)
Definition simulate_day (config : BacktestConfig.t) (data : Data)
    (st : LoopState) (i : nat) (current_date : datetime) : LoopState :=
  let current_prices := current_prices_at data current_date in
  let portfolio1 :=
    BacktestPortfolio.update_prices (loop_portfolio st) current_date
      current_prices in
  let signals := _simulate_trading_signals config current_date data i in
  let '(portfolio2, trades2) :=
    execute_signals current_date (portfolio1, loop_trades st) signals in
  {| loop_portfolio := portfolio2;
     loop_trades := trades2;
     loop_equity_curve :=
       (loop_equity_curve st ++ [equity_point current_date portfolio2])%list |}.

(** [for i, current_date in enumerate(trading_dates)], from index [i]. *)
Fixpoint simulate_from (config : BacktestConfig.t) (data : Data)
    (i : nat) (dates : list datetime) (st : LoopState) : LoopState :=
  match dates with
  | [] => st
  | current_date :: rest =>
      simulate_from config data (S i) rest
        (simulate_day config data st i current_date)
  end.

Definition simulate (config : BacktestConfig.t) (data : Data)
    (trades : list Trade.t) (equity_curve : list EquityPoint.t) : LoopState :=
  let portfolio :=
    BacktestPortfolio.init (BacktestConfig.initial_capital config)
      (BacktestConfig.commission config) (BacktestConfig.slippage config) in
  simulate_from config data 0 (trading_dates data)
    {| loop_portfolio := portfolio;
       loop_trades := trades;
       loop_equity_curve := equity_curve |}.

(** ** BacktestMetrics (dataclass, lines 60-79) *)

(** The value of a float-typed metric: the statistics may be [inf], and
    what [pandas] returns may be [-inf] or [nan]. *)
Inductive pyfloat := Finite (q : Q) | PosInf | NegInf | NaN.

Module BacktestMetrics.
Record t := mk {
  total_return : pyfloat;
  annual_return : pyfloat;
  volatility : pyfloat;
  sharpe_ratio : pyfloat;
  max_drawdown : pyfloat;
  win_rate : pyfloat;
  profit_factor : pyfloat;
  total_trades : nat;
  winning_trades : nat;
  losing_trades : nat;
  avg_win : pyfloat;
  avg_loss : pyfloat;
  largest_win : pyfloat;
  largest_loss : pyfloat;
  benchmark_return : pyfloat;
  alpha : pyfloat;
  beta : pyfloat
}.

(** [BacktestMetrics(0, 0, ..., 0)] of the [except] branch (line 428). *)
Definition zero : t :=
  mk (Finite 0) (Finite 0) (Finite 0) (Finite 0) (Finite 0) (Finite 0)
     (Finite 0) 0 0 0 (Finite 0) (Finite 0) (Finite 0) (Finite 0)
     (Finite 0) (Finite 0) (Finite 0).
End BacktestMetrics.

(** ** The trade statistics of [_calculate_metrics] (lines 371-387)

    A computation that may raise is an [option]: [None] is the raised
    exception.  [/] raises [ZeroDivisionError] on a zero divisor. *)
Definition py_truediv (a b : Q) : option Q :=
  if Qeq_bool b 0 then None else Some (a / b)%Q.

Definition Qlen {A} (l : list A) : Q := inject_Z (Z.of_nat (length l)).

(** [t.exit_date is not None] *)
Definition is_completed (t : Trade.t) : bool :=
  match Trade.exit_date t with Some _ => true | None => false end.

(** [t.pnl and t.pnl > 0]: [None] and [0.0] are falsy. *)
Definition is_winning (t : Trade.t) : bool :=
  match Trade.pnl t with
  | Some x => negb (Qeq_bool x 0) && Qlt_bool 0 x
  | None => false
  end.

(** [t.pnl and t.pnl < 0] *)
Definition is_losing (t : Trade.t) : bool :=
  match Trade.pnl t with
  | Some x => negb (Qeq_bool x 0) && Qlt_bool x 0
  | None => false
  end.

(** [[t.pnl for t in l]] for trades whose [pnl] is set. *)
Definition pnls (l : list Trade.t) : list Q := omap Trade.pnl l.

(** [max(l)] and [min(l)] of a list (0 stands for the empty case, which
    the guards exclude). *)
Definition Qmaximum (l : list Q) : Q :=
  match l with [] => 0%Q | x :: rest => fold_left Qmax rest x end.
Definition Qminimum (l : list Q) : Q :=
  match l with [] => 0%Q | x :: rest => fold_left Qmin rest x end.

Definition nonempty {A} (l : list A) : bool :=
  match l with [] => false | _ => true end.

Module TradeStats.
Record t := mk {
  win_rate : pyfloat;
  profit_factor : pyfloat;
  total_trades : nat;
  winning_trades : nat;
  losing_trades : nat;
  avg_win : pyfloat;
  avg_loss : pyfloat;
  largest_win : pyfloat;
  largest_loss : pyfloat
}.
End TradeStats.

Definition trade_statistics (trades : list Trade.t) : option TradeStats.t :=
  let completed_trades := filter (fun t => is_completed t = true) trades in
  let winning_trades := filter (fun t => is_winning t = true) completed_trades in
  let losing_trades := filter (fun t => is_losing t = true) completed_trades in
  win_rate ←
    (if nonempty completed_trades
     then py_truediv (Qlen winning_trades) (Qlen completed_trades)
     else Some 0%Q);
  let avg_win :=
    if nonempty winning_trades then Qmean (pnls winning_trades) else 0%Q in
  let avg_loss :=
    if nonempty losing_trades then Qmean (pnls losing_trades) else 0%Q in
  let largest_win :=
    if nonempty winning_trades then Qmaximum (pnls winning_trades) else 0%Q in
  let largest_loss :=
    if nonempty losing_trades then Qminimum (pnls losing_trades) else 0%Q in
  let total_wins :=
    if nonempty winning_trades then Qsum (pnls winning_trades) else 0%Q in
  let total_losses :=
    if nonempty losing_trades then Qabs (Qsum (pnls losing_trades)) else 0%Q in
  profit_factor ←
    (if Qlt_bool 0 total_losses
     then Finite <$> py_truediv total_wins total_losses
     else Some PosInf);
  Some {| TradeStats.win_rate := Finite win_rate;
          TradeStats.profit_factor := profit_factor;
          TradeStats.total_trades := length completed_trades;
          TradeStats.winning_trades := length winning_trades;
          TradeStats.losing_trades := length losing_trades;
          TradeStats.avg_win := Finite avg_win;
          TradeStats.avg_loss := Finite avg_loss;
          TradeStats.largest_win := Finite largest_win;
          TradeStats.largest_loss := Finite largest_loss |}.

(** ** BacktestResult and the run registry *)
Inductive BacktestStatus := PENDING | RUNNING | COMPLETED | FAILED | CANCELLED.

Global Instance BacktestStatus_eq_dec : EqDecision BacktestStatus.
Proof. solve_decision. Defined.

Module BacktestResult.
Record t := mk {
  id : string;
  config : BacktestConfig.t;
  status : BacktestStatus;
  metrics : option BacktestMetrics.t;
  trades : list Trade.t;
  equity_curve : list EquityPoint.t;
  created_at : datetime;
  started_at : option datetime;
  completed_at : option datetime;
  error_message : option string
}.
End BacktestResult.

(** A trade that some call of [execute_trade] returned. *)
Definition made_by_execute_trade (t : Trade.t) : Prop :=
  exists self symbol side quantity price date reason self',
    BacktestPortfolio.execute_trade self symbol side quantity price date
      reason = (self', Some t).

(** ** BacktestEngine (lines 140-485)

    The numeric work delegated to [pandas] and [numpy] is a parameter of
    the development; the control flow around it is the engine's own. *)
Module BacktestEngine.
Section WithPandas.

(** Lines 345-369 on the [equity] column and the initial capital:
    total return, annual return, volatility, Sharpe ratio and maximum
    drawdown; [None] when the library raises. *)
Variable pandas_equity_stats :
  list Q -> Q -> option (pyfloat * pyfloat * pyfloat * pyfloat * pyfloat).

(** Lines 396-398 on the benchmark frame: [(end / start) - 1];
    [None] when [iloc] raises on an empty frame. *)
Variable pandas_benchmark_return : DataFrame -> option pyfloat.

(** [total_return - benchmark_return] on [numpy] floats. *)
Variable numpy_sub : pyfloat -> pyfloat -> pyfloat.

(** The body of the [try] of [_calculate_metrics] (lines 341-423). *)
Definition _calculate_metrics_try (result : BacktestResult.t)
    (config : BacktestConfig.t) (data : Data) : option BacktestMetrics.t :=
  if negb (nonempty (BacktestResult.equity_curve result)) then None
  else
    '(total_return, annual_return, volatility, sharpe_ratio, max_drawdown) ←
      pandas_equity_stats
        (map EquityPoint.equity (BacktestResult.equity_curve result))
        (BacktestConfig.initial_capital config);
    stats ← trade_statistics (BacktestResult.trades result);
    '(benchmark_return, alpha, beta) ←
      match dict_get data (BacktestConfig.benchmark config) with
      | Some benchmark_data =>
          benchmark_return ← pandas_benchmark_return benchmark_data;
          Some (benchmark_return,
                numpy_sub total_return benchmark_return,
                Finite 1)
      | None => Some (Finite 0, Finite 0, Finite 0)
      end;
    Some {| BacktestMetrics.total_return := total_return;
            BacktestMetrics.annual_return := annual_return;
            BacktestMetrics.volatility := volatility;
            BacktestMetrics.sharpe_ratio := sharpe_ratio;
            BacktestMetrics.max_drawdown := max_drawdown;
            BacktestMetrics.win_rate := TradeStats.win_rate stats;
            BacktestMetrics.profit_factor := TradeStats.profit_factor stats;
            BacktestMetrics.total_trades := TradeStats.total_trades stats;
            BacktestMetrics.winning_trades := TradeStats.winning_trades stats;
            BacktestMetrics.losing_trades := TradeStats.losing_trades stats;
            BacktestMetrics.avg_win := TradeStats.avg_win stats;
            BacktestMetrics.avg_loss := TradeStats.avg_loss stats;
            BacktestMetrics.largest_win := TradeStats.largest_win stats;
            BacktestMetrics.largest_loss := TradeStats.largest_loss stats;
            BacktestMetrics.benchmark_return := benchmark_return;
            BacktestMetrics.alpha := alpha;
            BacktestMetrics.beta := beta |}.

(** [_calculate_metrics]: any exception yields the all-zero record. *)
Definition _calculate_metrics (result : BacktestResult.t)
    (config : BacktestConfig.t) (data : Data) : BacktestMetrics.t :=
  default BacktestMetrics.zero (_calculate_metrics_try result config data).

(** A worker thread running [_run_backtest(backtest_id)]. *)
Inductive Thread :=
| Spawned (backtest_id : string)
    (* started, line 196 not yet executed *)
| Entered (backtest_id : string) (result : nat)
    (* lines 196-201 done: [result] bound, status RUNNING written *)
| Finished.

Record t := mk {
  heap : list BacktestResult.t;          (* the run records, by address *)
  active_backtests : gmap string nat;
  completed_backtests : gmap string nat;
  executor_threads : gmap string nat;    (* backtest_id -> thread handle *)
  threads : list Thread                  (* every thread, by handle *)
}.

(** [__init__] *)
Definition init : t :=
  {| heap := []; active_backtests := ∅; completed_backtests := ∅;
     executor_threads := ∅; threads := [] |}.

(** [create_backtest]; [now] is [int(datetime.now().timestamp())]. *)
Definition create_backtest (self : t) (now : Z) (config : BacktestConfig.t)
    : t * string :=
  let backtest_id := "backtest_" +:+ pretty now in
  let result :=
    {| BacktestResult.id := backtest_id;
       BacktestResult.config := config;
       BacktestResult.status := PENDING;
       BacktestResult.metrics := None;
       BacktestResult.trades := [];
       BacktestResult.equity_curve := [];
       BacktestResult.created_at := now;
       BacktestResult.started_at := None;
       BacktestResult.completed_at := None;
       BacktestResult.error_message := None |} in
  ({| heap := (heap self ++ [result])%list;
      active_backtests :=
        <[backtest_id := length (heap self)]> (active_backtests self);
      completed_backtests := completed_backtests self;
      executor_threads := executor_threads self;
      threads := threads self |},
   backtest_id).

(** [start_backtest]: the thread is created and started; its body runs
    later, in the steps [thread_enter] and [thread_finish]. *)
Definition start_backtest (self : t) (backtest_id : string) : t * bool :=
  match active_backtests self !! backtest_id with
  | None => (self, false)
  | Some addr =>
      match heap self !! addr with
      | None => (self, false)
      | Some result =>
          if decide (BacktestResult.status result ≠ PENDING)
          then (self, false)
          else
            ({| heap := heap self;
                active_backtests := active_backtests self;
                completed_backtests := completed_backtests self;
                executor_threads :=
                  <[backtest_id := length (threads self)]>
                    (executor_threads self);
                threads := (threads self ++ [Spawned backtest_id])%list |},
             true)
      end
  end.

(** Lines 196-201 of [_run_backtest], run by thread [h].  A missing key
    at line 196 is a [KeyError] outside the [try]: the thread ends. *)
Definition thread_enter (self : t) (h : nat) (now : datetime) : t :=
  match threads self !! h with
  | Some (Spawned backtest_id) =>
      match active_backtests self !! backtest_id with
      | None =>
          {| heap := heap self;
             active_backtests := active_backtests self;
             completed_backtests := completed_backtests self;
             executor_threads := executor_threads self;
             threads := <[h := Finished]> (threads self) |}
      | Some addr =>
          {| heap :=
               alter (fun result =>
                 {| BacktestResult.id := BacktestResult.id result;
                    BacktestResult.config := BacktestResult.config result;
                    BacktestResult.status := RUNNING;
                    BacktestResult.metrics := BacktestResult.metrics result;
                    BacktestResult.trades := BacktestResult.trades result;
                    BacktestResult.equity_curve :=
                      BacktestResult.equity_curve result;
                    BacktestResult.created_at :=
                      BacktestResult.created_at result;
                    BacktestResult.started_at := Some now;
                    BacktestResult.completed_at :=
                      BacktestResult.completed_at result;
                    BacktestResult.error_message :=
                      BacktestResult.error_message result |})
                 addr (heap self);
             active_backtests := active_backtests self;
             completed_backtests := completed_backtests self;
             executor_threads := executor_threads self;
             threads := <[h := Entered backtest_id addr]> (threads self) |}
      end
  | _ => self
  end.

(** [DataProvider.get_multiple_symbols]; [fetch] is what
    [get_historical_data] answers for the dates of the run. *)
Definition get_multiple_symbols (fetch : string -> option DataFrame)
    (symbols : list string) : Data :=
  fold_left (fun data symbol =>
               match fetch symbol with
               | Some symbol_data => dict_set data symbol symbol_data
               | None => data
               end)
            symbols [].

(** The [except] branch (lines 283-288) on the record [result]. *)
Definition fail_with (result : BacktestResult.t) (e : string)
    (now : datetime) : BacktestResult.t :=
  {| BacktestResult.id := BacktestResult.id result;
     BacktestResult.config := BacktestResult.config result;
     BacktestResult.status := FAILED;
     BacktestResult.metrics := BacktestResult.metrics result;
     BacktestResult.trades := BacktestResult.trades result;
     BacktestResult.equity_curve := BacktestResult.equity_curve result;
     BacktestResult.created_at := BacktestResult.created_at result;
     BacktestResult.started_at := BacktestResult.started_at result;
     BacktestResult.completed_at := Some now;
     BacktestResult.error_message := Some e |}.

(** Lines 203-293 of [_run_backtest], run by thread [h]. *)
Definition thread_finish (self : t) (h : nat)
    (fetch : string -> option DataFrame) (now : datetime) : t :=
  match threads self !! h with
  | Some (Entered backtest_id addr) =>
      match heap self !! addr with
      | None => self
      | Some result =>
          let config := BacktestResult.config result in
          let data :=
            get_multiple_symbols fetch (BacktestConfig.symbols config) in
          let '(result', active', completed') :=
            if negb (nonempty data) then
              (fail_with result "Aucune donnée historique disponible" now,
               active_backtests self, completed_backtests self)
            else
              let st :=
                simulate config data (BacktestResult.trades result)
                  (BacktestResult.equity_curve result) in
              let result1 :=
                {| BacktestResult.id := BacktestResult.id result;
                   BacktestResult.config := config;
                   BacktestResult.status := BacktestResult.status result;
                   BacktestResult.metrics := BacktestResult.metrics result;
                   BacktestResult.trades := loop_trades st;
                   BacktestResult.equity_curve := loop_equity_curve st;
                   BacktestResult.created_at :=
                     BacktestResult.created_at result;
                   BacktestResult.started_at :=
                     BacktestResult.started_at result;
                   BacktestResult.completed_at :=
                     BacktestResult.completed_at result;
                   BacktestResult.error_message :=
                     BacktestResult.error_message result |} in
              let result2 :=
                {| BacktestResult.id := BacktestResult.id result;
                   BacktestResult.config := config;
                   BacktestResult.status := COMPLETED;
                   BacktestResult.metrics :=
                     Some (_calculate_metrics result1 config data);
                   BacktestResult.trades := loop_trades st;
                   BacktestResult.equity_curve := loop_equity_curve st;
                   BacktestResult.created_at :=
                     BacktestResult.created_at result;
                   BacktestResult.started_at :=
                     BacktestResult.started_at result;
                   BacktestResult.completed_at := Some now;
                   BacktestResult.error_message :=
                     BacktestResult.error_message result |} in
              let completed' :=
                <[backtest_id := addr]> (completed_backtests self) in
              match active_backtests self !! backtest_id with
              | Some _ =>
                  (result2, delete backtest_id (active_backtests self),
                   completed')
              | None =>
                  (* [del] raises KeyError(backtest_id) *)
                  (fail_with result2 ("'" +:+ backtest_id +:+ "'") now,
                   active_backtests self, completed')
              end in
          {| heap := <[addr := result']> (heap self);
             active_backtests := active';
             completed_backtests := completed';
             executor_threads := delete backtest_id (executor_threads self);
             threads := <[h := Finished]> (threads self) |}
      end
  | _ => self
  end.

(** The run record behind an identifier, in a map of the registry. *)
Definition deref (self : t) (m : gmap string nat) (backtest_id : string)
    : option BacktestResult.t :=
  addr ← m !! backtest_id; heap self !! addr.

(** [get_backtest_results] *)
Definition get_backtest_results (self : t) (backtest_id : string)
    : option BacktestResult.t :=
  deref self (completed_backtests self) backtest_id.

(** [get_backtest_status], reduced to the [status] entry of the summary. *)
Definition get_backtest_status (self : t) (backtest_id : string)
    : option BacktestStatus :=
  match deref self (active_backtests self) backtest_id with
  | Some result => Some (BacktestResult.status result)
  | None =>
      BacktestResult.status <$>
        deref self (completed_backtests self) backtest_id
  end.

(** The steps the registry and its worker threads can take. *)
Inductive step : t -> t -> Prop :=
| step_create self now config :
    step self (fst (create_backtest self now config))
| step_start self backtest_id :
    step self (fst (start_backtest self backtest_id))
| step_enter self h now :
    step self (thread_enter self h now)
| step_finish self h fetch now :
    step self (thread_finish self h fetch now).

Inductive reachable : t -> Prop :=
| reachable_init : reachable init
| reachable_step self self' :
    reachable self -> step self self' -> reachable self'.

(** Every trade of every run record was returned by [execute_trade]. *)
Definition trades_made (self : t) : Prop :=
  Forall (fun result =>
            Forall made_by_execute_trade (BacktestResult.trades result))
         (heap self).

End WithPandas.
End BacktestEngine.

(** ** Sequences of portfolio operations *)
Inductive PortfolioOp :=
| UpdatePrices (date : datetime) (prices : gmap string Q)
| ExecuteTrade (symbol side : string) (quantity : Z) (price : Q)
    (date : datetime) (reason : string).

Definition apply_op (self : BacktestPortfolio.t) (op : PortfolioOp)
    : BacktestPortfolio.t :=
  match op with
  | UpdatePrices date prices => BacktestPortfolio.update_prices self date prices
  | ExecuteTrade symbol side quantity price date reason =>
      fst (BacktestPortfolio.execute_trade self symbol side quantity price
             date reason)
  end.

Definition run_ops (self : BacktestPortfolio.t) (ops : list PortfolioOp)
    : BacktestPortfolio.t :=
  fold_left apply_op ops self.

(** ** Binary64 amounts

    The operations of Python's [float] on the values of [pyfloat]: the
    result of an operation is its exact result when that lies in the
    range of binary64, and an infinity beyond; the infinities and NaN
    combine as IEEE 754 has them.  Rounding within the range is not
    modelled. *)
Module PyFloat.
(** Exact results of this magnitude or more round to an infinity:
    [2^1024 - 2^970], half an ulp above the largest float. *)
Definition overflow_threshold : Q := inject_Z (2 ^ 1024 - 2 ^ 970).

Definition round (q : Q) : pyfloat :=
  if Qle_bool overflow_threshold q then PosInf
  else if Qle_bool q (- overflow_threshold) then NegInf
  else Finite q.

Definition neg (a : pyfloat) : pyfloat :=
  match a with
  | Finite x => Finite (- x)
  | PosInf => NegInf
  | NegInf => PosInf
  | NaN => NaN
  end.

Definition add (a b : pyfloat) : pyfloat :=
  match a, b with
  | Finite x, Finite y => round (x + y)
  | Finite _, PosInf | PosInf, Finite _ | PosInf, PosInf => PosInf
  | Finite _, NegInf | NegInf, Finite _ | NegInf, NegInf => NegInf
  | PosInf, NegInf | NegInf, PosInf => NaN
  | NaN, _ | _, NaN => NaN
  end.

Definition sub (a b : pyfloat) : pyfloat := add a (neg b).

(** An infinity times the finite [x]. *)
Definition scale_inf (inf : pyfloat) (x : Q) : pyfloat :=
  if Qeq_bool x 0 then NaN
  else if Qlt_bool 0 x then inf else neg inf.

Definition mul (a b : pyfloat) : pyfloat :=
  match a, b with
  | Finite x, Finite y => round (x * y)
  | Finite x, PosInf | PosInf, Finite x => scale_inf PosInf x
  | Finite x, NegInf | NegInf, Finite x => scale_inf NegInf x
  | PosInf, PosInf | NegInf, NegInf => PosInf
  | PosInf, NegInf | NegInf, PosInf => NegInf
  | NaN, _ | _, NaN => NaN
  end.

(** [a >= b] *)
Definition ge (a b : pyfloat) : bool :=
  match a, b with
  | Finite x, Finite y => Qle_bool y x
  | PosInf, Finite _ | PosInf, PosInf | PosInf, NegInf => true
  | Finite _, NegInf | NegInf, NegInf => true
  | Finite _, PosInf | NegInf, Finite _ | NegInf, PosInf => false
  | NaN, _ | _, NaN => false
  end.

(** The conversion of an [int] operand; [None] is the [OverflowError]
    of an integer too large for a float. *)
Definition of_int (z : Z) : option pyfloat :=
  if Qle_bool overflow_threshold (Qabs (inject_Z z)) then None
  else Some (Finite (inject_Z z)).

Definition is_finite (a : pyfloat) : bool :=
  match a with Finite _ => true | _ => false end.

(** A value of [pyfloat] that is a float: a finite one lies in the range. *)
Definition representable (a : pyfloat) : Prop :=
  match a with
  | Finite q => (Qabs q < overflow_threshold)%Q
  | _ => True
  end.

(** A number that is not negative; a number that is at most 1. *)
Definition nonneg (a : pyfloat) : Prop :=
  exists q, a = Finite q /\ (0 <= q)%Q.

Definition at_most_one (a : pyfloat) : Prop :=
  exists q, a = Finite q /\ (q <= 1)%Q.
End PyFloat.

(** ** Trade and BacktestPortfolio over binary64 amounts

    [execute_trade] once more, with the amounts as [float] has them: an
    amount can overflow to an infinity, an infinity can turn into NaN,
    and the conversion of [quantity] can raise, which the [except] of
    lines 569-571 turns into a refusal.  The record holds the fields
    [execute_trade] reads or assigns. *)
Module FloatTrade.
Record t := mk {
  symbol : string;
  entry_date : datetime;
  exit_date : option datetime;
  entry_price : pyfloat;
  exit_price : option pyfloat;
  quantity : Z;
  side : string;
  pnl : option pyfloat;    (* default None *)
  commission : pyfloat;
  reason : string
}.
End FloatTrade.

Module FloatPortfolio.
Record t := mk {
  cash : pyfloat;
  commission : pyfloat;
  slippage : pyfloat;
  positions : gmap string Z
}.

(** [__init__] *)
Definition init (initial_capital commission slippage : pyfloat) : t :=
  {| cash := initial_capital;
     commission := commission;
     slippage := slippage;
     positions := ∅ |}.

(** Lines 518-521. *)
Definition execution_price (self : t) (side : string) (price : pyfloat)
    : pyfloat :=
  if decide (side = "BUY")
  then PyFloat.mul price (PyFloat.add (Finite 1) (slippage self))
  else PyFloat.mul price (PyFloat.sub (Finite 1) (slippage self)).

(** [execute_trade]: the new portfolio and the returned [Optional[Trade]]. *)
Definition execute_trade (self : t) (symbol side : string) (quantity : Z)
    (price : pyfloat) (date : datetime) (reason : string)
    : t * option FloatTrade.t :=
  let execution_price := execution_price self side price in
  match PyFloat.of_int quantity with
  | None => (self, None)   (* line 523 raises; lines 569-571 return None *)
  | Some quantity_as_float =>
      let trade_value := PyFloat.mul quantity_as_float execution_price in
      let commission_cost := PyFloat.mul trade_value (commission self) in
      if decide (side = "BUY") then
        let total_cost := PyFloat.add trade_value commission_cost in
        if PyFloat.ge (cash self) total_cost then
          ({| cash := PyFloat.sub (cash self) total_cost;
              commission := commission self;
              slippage := slippage self;
              positions :=
                <[symbol := BacktestPortfolio.position_of (positions self)
                              symbol + quantity]> (positions self) |},
           Some {| FloatTrade.symbol := symbol;
                   FloatTrade.entry_date := date;
                   FloatTrade.exit_date := None;
                   FloatTrade.entry_price := execution_price;
                   FloatTrade.exit_price := None;
                   FloatTrade.quantity := quantity;
                   FloatTrade.side := side;
                   FloatTrade.pnl := None;
                   FloatTrade.commission := commission_cost;
                   FloatTrade.reason := reason |})
        else (self, None)
      else if decide (side = "SELL") then
        let current_position :=
          BacktestPortfolio.position_of (positions self) symbol in
        if (quantity <=? current_position)%Z then
          let positions1 :=
            <[symbol := current_position - quantity]> (positions self) in
          let positions2 :=
            if (current_position - quantity =? 0)%Z
            then delete symbol positions1 else positions1 in
          ({| cash :=
                PyFloat.add (cash self)
                  (PyFloat.sub trade_value commission_cost);
              commission := commission self;
              slippage := slippage self;
              positions := positions2 |},
           Some {| FloatTrade.symbol := symbol;
                   FloatTrade.entry_date := date;
                   FloatTrade.exit_date := Some date;
                   FloatTrade.entry_price := execution_price;
                   FloatTrade.exit_price := Some execution_price;
                   FloatTrade.quantity := quantity;
                   FloatTrade.side := side;
                   FloatTrade.pnl := None;
                   FloatTrade.commission := commission_cost;
                   FloatTrade.reason := reason |})
        else (self, None)
      else (self, None)
  end.

(** The amounts of a call of [execute_trade], in the order of the
    source: those computed before the guard of its side, then those
    computed when the guard passes; [None] when the conversion of
    [quantity] raises. *)
Definition computed_amounts (self : t) (side : string) (quantity : Z)
    (price : pyfloat) : option (list pyfloat) :=
  let execution_price := execution_price self side price in
  quantity_as_float ← PyFloat.of_int quantity;
  let trade_value := PyFloat.mul quantity_as_float execution_price in
  let commission_cost := PyFloat.mul trade_value (commission self) in
  Some ([execution_price; trade_value; commission_cost] ++
        if decide (side = "BUY") then
          let total_cost := PyFloat.add trade_value commission_cost in
          [total_cost; PyFloat.sub (cash self) total_cost]
        else if decide (side = "SELL") then
          [PyFloat.sub trade_value commission_cost;
           PyFloat.add (cash self) (PyFloat.sub trade_value commission_cost)]
        else [])%list.

(** [update_prices] assigns [current_prices], [positions_value] and
    [total_value] only (lines 503-511): whether its sum returns or
    raises, it leaves the fields kept here as they are. *)
Definition update_prices (self : t) (date : datetime)
    (prices : gmap string pyfloat) : t :=
  self.

(** Sequences of operations. *)
Inductive Op :=
| UpdatePrices (date : datetime) (prices : gmap string pyfloat)
| ExecuteTrade (symbol side : string) (quantity : Z) (price : pyfloat)
    (date : datetime) (reason : string).

Definition apply_op (self : t) (op : Op) : t :=
  match op with
  | UpdatePrices date prices => update_prices self date prices
  | ExecuteTrade symbol side quantity price date reason =>
      fst (execute_trade self symbol side quantity price date reason)
  end.

Definition run_ops (self : t) (ops : list Op) : t :=
  fold_left apply_op ops self.

(** No amount computed by the operation overflows: each is finite. *)
Definition op_in_range (self : t) (op : Op) : bool :=
  match op with
  | UpdatePrices _ _ => true
  | ExecuteTrade _ side quantity price _ _ =>
      match computed_amounts self side quantity price with
      | Some amounts => forallb PyFloat.is_finite amounts
      | None => false
      end
  end.

(** No amount overflows along the run of [ops] from [self]. *)
Fixpoint no_overflow (self : t) (ops : list Op) : bool :=
  match ops with
  | [] => true
  | op :: ops => op_in_range self op && no_overflow (apply_op self op) ops
  end.

(** The quantity and the price of a trade are not negative. *)
Definition nonneg_op (op : Op) : Prop :=
  match op with
  | UpdatePrices _ _ => True
  | ExecuteTrade _ _ quantity price _ _ =>
      0 <= quantity /\ PyFloat.nonneg price
  end.

(** Cash is a non-negative number and no held quantity is negative. *)
Definition solvent (self : t) : Prop :=
  PyFloat.nonneg (cash self) /\
  forall s q, positions self !! s = Some q -> 0 <= q.
End FloatPortfolio.

(** ** Scenarios used below *)

(** The round trip of the specification: capital 100000, no slippage and
    no commission, buy 100 at 100, then sell 100 at 110. *)
Definition round_trip_buy : BacktestPortfolio.t * option Trade.t :=
  BacktestPortfolio.execute_trade (BacktestPortfolio.init 100000 0 0)
    "TEST" "BUY" 100 100 1 "".

Definition round_trip_sell : BacktestPortfolio.t * option Trade.t :=
  BacktestPortfolio.execute_trade (fst round_trip_buy)
    "TEST" "SELL" 100 110 2 "".

Definition sold_trade : Trade.t :=
  {| Trade.symbol := "TEST"; Trade.entry_date := 2;
     Trade.exit_date := Some 2;
     Trade.entry_price := (110 * (1 - 0))%Q;
     Trade.exit_price := Some (110 * (1 - 0))%Q;
     Trade.quantity := 100; Trade.side := "SELL"; Trade.pnl := None;
     Trade.commission := (inject_Z 100 * (110 * (1 - 0)) * 0)%Q;
     Trade.reason := "" |}.

(** A portfolio in which a BUY of quantity 0 left the entry [TEST -> 0]. *)
Definition zero_entry_portfolio : BacktestPortfolio.t :=
  fst (BacktestPortfolio.execute_trade
         (BacktestPortfolio.init 1000 0.001 0.0005) "TEST" "BUY" 0 100 1 "").

(** A portfolio in which a BUY of quantity -5 left the entry [TEST -> -5]. *)
Definition short_portfolio : BacktestPortfolio.t :=
  fst (BacktestPortfolio.execute_trade
         (BacktestPortfolio.init 1000 0.001 0.0005) "TEST" "BUY" (-5) 100 1 "").

(** Operations with a negative quantity. *)
Definition negative_buy_ops : list PortfolioOp :=
  [ ExecuteTrade "TEST" "BUY" (-5) 100 1 "" ].

Definition negative_sell_ops : list PortfolioOp :=
  [ ExecuteTrade "TEST" "SELL" (-5) 1000 1 "" ].

(** The exact portfolio and its trades, read on binary64 amounts. *)
Definition portfolio_to_float (self : BacktestPortfolio.t)
    : FloatPortfolio.t :=
  {| FloatPortfolio.cash := Finite (BacktestPortfolio.cash self);
     FloatPortfolio.commission := Finite (BacktestPortfolio.commission self);
     FloatPortfolio.slippage := Finite (BacktestPortfolio.slippage self);
     FloatPortfolio.positions := BacktestPortfolio.positions self |}.

Definition trade_to_float (t : Trade.t) : FloatTrade.t :=
  {| FloatTrade.symbol := Trade.symbol t;
     FloatTrade.entry_date := Trade.entry_date t;
     FloatTrade.exit_date := Trade.exit_date t;
     FloatTrade.entry_price := Finite (Trade.entry_price t);
     FloatTrade.exit_price := Finite <$> Trade.exit_price t;
     FloatTrade.quantity := Trade.quantity t;
     FloatTrade.side := Trade.side t;
     FloatTrade.pnl := Finite <$> Trade.pnl t;
     FloatTrade.commission := Finite (Trade.commission t);
     FloatTrade.reason := Trade.reason t |}.

(** A short, well-formed day of operations on binary64 amounts. *)
Definition float_sample_ops : list FloatPortfolio.Op :=
  [ FloatPortfolio.UpdatePrices 1 {[ "TEST" := Finite 100 ]};
    FloatPortfolio.ExecuteTrade "TEST" "BUY" 100 (Finite 100) 1 "";
    FloatPortfolio.UpdatePrices 2 {[ "TEST" := Finite 110 ]};
    FloatPortfolio.ExecuteTrade "TEST" "SELL" 100 (Finite 110) 2 "" ].

(** A BUY of 10 at price 0, then a SELL of 10 at 1e308: the trade value
    of the SELL overflows. *)
Definition overflowing_sell_ops : list FloatPortfolio.Op :=
  [ FloatPortfolio.ExecuteTrade "TEST" "BUY" 10 (Finite 0) 1 "";
    FloatPortfolio.ExecuteTrade "TEST" "SELL" 10
      (Finite (inject_Z (10 ^ 308))) 2 "" ].

(** A portfolio whose slippage rate is -1: a SELL at 1e308 is priced at
    twice that, which overflows. *)
Definition negative_slippage_portfolio : FloatPortfolio.t :=
  FloatPortfolio.init (Finite 1000) (Finite 0.001) (Finite (-1)).

(** [n] rows at the constant close [c], on the days [d0], [d0 + 1], ... *)
Definition constant_frame (n : nat) (d0 : datetime) (c : Q) : DataFrame :=
  map (fun k => (d0 + Z.of_nat k, c)) (seq 0 n).

(** Twenty days at 100, then a close of 110 on day 21: the first day on
    which the momentum rule can fire, and it emits a BUY. *)
Definition momentum_config : BacktestConfig.t :=
  {| BacktestConfig.name := "momentum";
     BacktestConfig.description := "";
     BacktestConfig.symbols := ["TEST"];
     BacktestConfig.start_date := "2024-01-01";
     BacktestConfig.end_date := "2024-02-01";
     BacktestConfig.initial_capital := 100000;
     BacktestConfig.trading_config := [];
     BacktestConfig.risk_config := [];
     BacktestConfig.benchmark := "SPY";
     BacktestConfig.commission := 0.001;
     BacktestConfig.slippage := 0.0005 |}.

Definition momentum_data : Data :=
  [("TEST", (constant_frame 20 1 100 ++ [(21, 110%Q)])%list)].

(** One trading day, on which no signal can fire; what [pandas] computes
    on the resulting one-point equity curve (the standard deviation of a
    single return is [nan]). *)
Definition one_day_data : Data := [("TEST", [(1, 100%Q)])].

Definition one_day_result : BacktestResult.t :=
  let run := simulate momentum_config one_day_data [] [] in
  {| BacktestResult.id := "backtest_1700000000";
     BacktestResult.config := momentum_config;
     BacktestResult.status := RUNNING;
     BacktestResult.metrics := None;
     BacktestResult.trades := loop_trades run;
     BacktestResult.equity_curve := loop_equity_curve run;
     BacktestResult.created_at := 1700000000;
     BacktestResult.started_at := Some 1700000001;
     BacktestResult.completed_at := None;
     BacktestResult.error_message := None |}.

Definition one_point_equity_stats (equity : list Q) (initial_capital : Q)
    : option (pyfloat * pyfloat * pyfloat * pyfloat * pyfloat) :=
  Some (Finite 0, Finite 0, NaN, Finite 0, Finite 0).

Definition no_benchmark_return (benchmark_data : DataFrame) : option pyfloat :=
  None.

Definition finite_sub (a b : pyfloat) : pyfloat :=
  match a, b with
  | Finite x, Finite y => Finite (x - y)
  | _, _ => NaN
  end.

(** A run record holding the two trades of the round trip. *)
Definition round_trip_result : BacktestResult.t :=
  {| BacktestResult.id := "backtest_1700000000";
     BacktestResult.config := momentum_config;
     BacktestResult.status := RUNNING;
     BacktestResult.metrics := None;
     BacktestResult.trades :=
       omap snd [round_trip_buy; round_trip_sell];
     BacktestResult.equity_curve :=
       [ equity_point 1 (fst round_trip_buy);
         equity_point 2 (fst round_trip_sell) ];
     BacktestResult.created_at := 1700000000;
     BacktestResult.started_at := Some 1700000001;
     BacktestResult.completed_at := None;
     BacktestResult.error_message := None |}.

Definition flat_equity_stats (equity : list Q) (initial_capital : Q)
    : option (pyfloat * pyfloat * pyfloat * pyfloat * pyfloat) :=
  Some (Finite 0, Finite 0, Finite 0, Finite 0, Finite 0).

(** Equality of metric values, up to the representation of rationals. *)
Definition pyfloat_eq (a b : pyfloat) : Prop :=
  match a, b with
  | Finite x, Finite y => (x == y)%Q
  | PosInf, PosInf | NegInf, NegInf | NaN, NaN => True
  | _, _ => False
  end.

(** A provider that has no data for any symbol, and one that answers
    [one_day_data]. *)
Definition fetch_nothing (symbol : string) : option DataFrame := None.

Definition fetch_one_day (symbol : string) : option DataFrame :=
  Some [(1, 100%Q)].

(** ** Reading a trade record back

    The cash a trade moved and the quantity it added to a symbol, as the
    fields of the returned record tell them. *)
Definition cash_flow (t : Trade.t) : Q :=
  if decide (Trade.side t = "BUY")
  then (- (inject_Z (Trade.quantity t) * Trade.entry_price t
           + Trade.commission t))%Q
  else (inject_Z (Trade.quantity t) * Trade.entry_price t
        - Trade.commission t)%Q.

Definition signed_quantity (symbol : string) (t : Trade.t) : Z :=
  if decide (Trade.symbol t = symbol)
  then (if decide (Trade.side t = "BUY")
        then Trade.quantity t else - Trade.quantity t)
  else 0.

Definition Zsum (l : list Z) : Z := fold_left Z.add l 0.

(** A trade as the daily loop makes them: 100 units of a symbol of
    [data], priced at the close of its entry date moved by the slippage,
    open for a BUY and closed on its entry date for a SELL. *)
Definition loop_trade (slippage : Q) (data : Data) (t : Trade.t) : Prop :=
  Trade.quantity t = 100 /\
  Trade.pnl t = None /\
  exists symbol_data c,
    (Trade.symbol t, symbol_data) ∈ data /\
    Frame.loc_close symbol_data (Trade.entry_date t) = Some c /\
    ((Trade.side t = "BUY" /\ Trade.exit_date t = None /\
      Trade.entry_price t = (c * (1 + slippage))%Q)
     \/ (Trade.side t = "SELL" /\
         Trade.exit_date t = Some (Trade.entry_date t) /\
         Trade.entry_price t = (c * (1 - slippage))%Q)).

(** Three closed trades with a realised result, as a strategy that
    filled [pnl] would hand them to the statistics: +100, -50 and 0. *)
Definition scored_trade (pnl : Q) : Trade.t :=
  {| Trade.symbol := "TEST"; Trade.entry_date := 1;
     Trade.exit_date := Some 2; Trade.entry_price := 100;
     Trade.exit_price := Some 110%Q; Trade.quantity := 10;
     Trade.side := "SELL"; Trade.pnl := Some pnl; Trade.commission := 0;
     Trade.reason := "" |}.

Definition scored_trades : list Trade.t :=
  [scored_trade 100; scored_trade (-50); scored_trade 0].

(** ** DataProvider (lines 95-138), with its cache

    The registry above takes the provider's answers as a function
    [fetch]; this is the provider itself.  What [yfinance] answers is an
    input: it raises, or it returns rows, and a row is its index date
    together with its close, or [None] when one of its columns is NaN.
    Within one call of [get_multiple_symbols] the answer depends on the
    symbol only. *)
Module DataProvider.
Inductive Download :=
| Raises
| Returned (rows : list (datetime * option Q)).

(** [f"{symbol}_{start_date}_{end_date}"] *)
Definition cache_key (symbol start_date end_date : string) : string :=
  symbol +:+ "_" +:+ start_date +:+ "_" +:+ end_date.

(** [data.dropna()] *)
Definition dropna (rows : list (datetime * option Q)) : DataFrame :=
  omap (fun row => pair (fst row) <$> snd row) rows.

(** [get_historical_data]: the new cache and the returned frame. *)
Definition get_historical_data (cache : gmap string DataFrame)
    (symbol start_date end_date : string) (download : Download)
    : gmap string DataFrame * option DataFrame :=
  let cache_key := cache_key symbol start_date end_date in
  match cache !! cache_key with
  | Some data => (cache, Some data)
  | None =>
      match download with
      | Raises => (cache, None)
      | Returned rows =>
          if negb (nonempty rows) then (cache, None)
          else
            let data := dropna rows in
            (<[cache_key := data]> cache, Some data)
      end
  end.

(** [get_multiple_symbols], the cache threaded through the requests. *)
Definition get_multiple_symbols (cache : gmap string DataFrame)
    (symbols : list string) (start_date end_date : string)
    (download : string -> Download) : gmap string DataFrame * Data :=
  fold_left (fun st symbol =>
               let '(cache, data) := st in
               let '(cache', symbol_data) :=
                 get_historical_data cache symbol start_date end_date
                   (download symbol) in
               match symbol_data with
               | Some symbol_data => (cache', dict_set data symbol symbol_data)
               | None => (cache', data)
               end)
            symbols (cache, []).

(** The answers of a provider whose cache is [cache], as a function. *)
Definition fetch (cache : gmap string DataFrame) (start_date end_date : string)
    (download : string -> Download) (symbol : string) : option DataFrame :=
  snd (get_historical_data cache symbol start_date end_date (download symbol)).
End DataProvider.

(** ** Consistency of the registry

    Every address held by a map or by a worker points to a record of the
    heap that carries the identifier it is filed under; a record of the
    completed map has its metrics and completion time, a final status,
    and is not also filed in the active map. *)
Definition registry_consistent (self : BacktestEngine.t) : Prop :=
  (forall id a,
      BacktestEngine.active_backtests self !! id = Some a ->
      exists r, BacktestEngine.heap self !! a = Some r /\
                BacktestResult.id r = id) /\
  (forall id a,
      BacktestEngine.completed_backtests self !! id = Some a ->
      exists r, BacktestEngine.heap self !! a = Some r /\
                BacktestResult.id r = id /\
                is_Some (BacktestResult.metrics r) /\
                is_Some (BacktestResult.completed_at r) /\
                (BacktestResult.status r = COMPLETED \/
                 BacktestResult.status r = FAILED) /\
                BacktestEngine.active_backtests self !! id <> Some a) /\
  (forall h id a,
      BacktestEngine.threads self !! h = Some (BacktestEngine.Entered id a) ->
      exists r, BacktestEngine.heap self !! a = Some r /\
                BacktestResult.id r = id).

(** The registry during and after one run over [one_day_data]: created,
    started and entered by its worker, then finished. *)
Definition one_day_created : BacktestEngine.t :=
  fst (BacktestEngine.create_backtest BacktestEngine.init 1700000000
         momentum_config).

Definition one_day_entered : BacktestEngine.t :=
  BacktestEngine.thread_enter
    (fst (BacktestEngine.start_backtest one_day_created
            "backtest_1700000000"))
    0 1700000001.

Definition one_day_engine : BacktestEngine.t :=
  BacktestEngine.thread_finish one_point_equity_stats no_benchmark_return
    finite_sub one_day_entered 0 fetch_one_day 1700000002.

(** Rows that all have a NaN, a provider that answers the frame left of
    them, and the registry once a worker has entered a run on it. *)
Definition nan_rows : list (datetime * option Q) := [(1, None); (2, None)].

Definition fetch_nan_rows (symbol : string) : option DataFrame :=
  DataProvider.fetch ∅ "2024-01-01" "2024-02-01"
    (fun _ => DataProvider.Returned nan_rows) symbol.

(** ** The entry of a worker, statement by statement

    [_run_backtest] holds no lock: between the lookup of line 196 and
    the writes of lines 200-201 the registry and the other workers can
    move.  Here the two are separate steps.  A worker that has bound its
    record ([Entered]) writes RUNNING at any later moment before it
    finishes; the relation does not record whether it has, so it lets a
    worker skip or repeat the write, which only adds states.  The rest
    of the run (lines 203-293) is the step [thread_finish]. *)
Module Worker.
Section WithPandas.
Import BacktestEngine.

Variable pandas_equity_stats :
  list Q -> Q -> option (pyfloat * pyfloat * pyfloat * pyfloat * pyfloat).
Variable pandas_benchmark_return : DataFrame -> option pyfloat.
Variable numpy_sub : pyfloat -> pyfloat -> pyfloat.

(** Lines 196-197, run by thread [h]: [result] is bound.  A missing key
    is a [KeyError] outside the [try]: the thread ends. *)
Definition thread_bind (self : BacktestEngine.t) (h : nat)
    : BacktestEngine.t :=
  match threads self !! h with
  | Some (Spawned backtest_id) =>
      match active_backtests self !! backtest_id with
      | None =>
          {| heap := heap self;
             active_backtests := active_backtests self;
             completed_backtests := completed_backtests self;
             executor_threads := executor_threads self;
             threads := <[h := Finished]> (threads self) |}
      | Some addr =>
          {| heap := heap self;
             active_backtests := active_backtests self;
             completed_backtests := completed_backtests self;
             executor_threads := executor_threads self;
             threads := <[h := Entered backtest_id addr]> (threads self) |}
      end
  | _ => self
  end.

(** Lines 200-201, run by thread [h] on the record it has bound. *)
Definition thread_mark_running (self : BacktestEngine.t) (h : nat)
    (now : datetime) : BacktestEngine.t :=
  match threads self !! h with
  | Some (Entered backtest_id addr) =>
      {| heap :=
           alter (fun result =>
             {| BacktestResult.id := BacktestResult.id result;
                BacktestResult.config := BacktestResult.config result;
                BacktestResult.status := RUNNING;
                BacktestResult.metrics := BacktestResult.metrics result;
                BacktestResult.trades := BacktestResult.trades result;
                BacktestResult.equity_curve :=
                  BacktestResult.equity_curve result;
                BacktestResult.created_at := BacktestResult.created_at result;
                BacktestResult.started_at := Some now;
                BacktestResult.completed_at :=
                  BacktestResult.completed_at result;
                BacktestResult.error_message :=
                  BacktestResult.error_message result |})
             addr (heap self);
         active_backtests := active_backtests self;
         completed_backtests := completed_backtests self;
         executor_threads := executor_threads self;
         threads := threads self |}
  | _ => self
  end.

Inductive step : BacktestEngine.t -> BacktestEngine.t -> Prop :=
| step_create self now config :
    step self (fst (create_backtest self now config))
| step_start self backtest_id :
    step self (fst (start_backtest self backtest_id))
| step_bind self h :
    step self (thread_bind self h)
| step_mark_running self h now :
    step self (thread_mark_running self h now)
| step_finish self h fetch now :
    step self (thread_finish pandas_equity_stats pandas_benchmark_return
                 numpy_sub self h fetch now).

Inductive reachable : BacktestEngine.t -> Prop :=
| reachable_init : reachable BacktestEngine.init
| reachable_step self self' :
    reachable self -> step self self' -> reachable self'.

End WithPandas.
End Worker.

(** A status a worker has written: never PENDING, never CANCELLED. *)
Definition written_by_worker (status : BacktestStatus) : Prop :=
  status = RUNNING \/ status = COMPLETED \/ status = FAILED.

(** Every address held by a map or by a worker points to a record of the
    heap that carries the identifier it is filed under; a record of the
    completed map has its metrics and completion time, and a status
    written by a worker. *)
Definition registry_linked (self : BacktestEngine.t) : Prop :=
  (forall id a,
      BacktestEngine.active_backtests self !! id = Some a ->
      exists r, BacktestEngine.heap self !! a = Some r /\
                BacktestResult.id r = id) /\
  (forall id a,
      BacktestEngine.completed_backtests self !! id = Some a ->
      exists r, BacktestEngine.heap self !! a = Some r /\
                BacktestResult.id r = id /\
                is_Some (BacktestResult.metrics r) /\
                is_Some (BacktestResult.completed_at r) /\
                written_by_worker (BacktestResult.status r)) /\
  (forall h id a,
      BacktestEngine.threads self !! h = Some (BacktestEngine.Entered id a) ->
      exists r, BacktestEngine.heap self !! a = Some r /\
                BacktestResult.id r = id).

(** Two workers started for one run, over [one_day_data]: both bind the
    record, the first marks it RUNNING and completes it, and the second
    then writes its RUNNING. *)
Definition two_workers_bound : BacktestEngine.t :=
  let started :=
    fst (BacktestEngine.start_backtest
           (fst (BacktestEngine.start_backtest one_day_created
                   "backtest_1700000000"))
           "backtest_1700000000") in
  Worker.thread_bind (Worker.thread_bind started 0) 1.

Definition first_worker_done : BacktestEngine.t :=
  BacktestEngine.thread_finish one_point_equity_stats no_benchmark_return
    finite_sub
    (Worker.thread_mark_running two_workers_bound 0 1700000001)
    0 fetch_one_day 1700000002.

Definition late_running_engine : BacktestEngine.t :=
  Worker.thread_mark_running first_worker_done 1 1700000003.

(** * Properties of the simulated portfolio *)
Section PortfolioFacts.
Import BacktestPortfolio.

Implicit Types (self : BacktestPortfolio.t) (symbol side reason : string)
  (quantity : Z) (price : Q) (date : datetime).

(** Every trade [execute_trade] builds leaves [pnl] at its default. *)
Lemma execute_trade_pnl_None self symbol side quantity price date reason
    self' trade :
  execute_trade self symbol side quantity price date reason
    = (self', Some trade) ->
  Trade.pnl trade = None.
Proof.
  unfold execute_trade. intros H.
  repeat case_decide; repeat case_match; simplify_eq; reflexivity.
Qed.

(** The rates of a portfolio never change. *)
Lemma apply_op_rates self op :
  commission (apply_op self op) = commission self /\
  slippage (apply_op self op) = slippage self.
Proof.
  destruct op; simpl; [split; reflexivity|].
  unfold execute_trade.
  repeat case_decide; repeat case_match; simpl; split; reflexivity.
Qed.

(** [update_prices] re-establishes the valuation identity. *)
Lemma update_prices_total_value self date prices :
  total_value (update_prices self date prices)
  = (cash (update_prices self date prices)
     + positions_value (update_prices self date prices))%Q.
Proof. reflexivity. Qed.

(** The three ways [execute_trade] refuses a trade. *)
Lemma buy_insufficient_cash_rejected self symbol quantity price date reason :
  (cash self <
     inject_Z quantity * (price * (1 + slippage self))
     + inject_Z quantity * (price * (1 + slippage self))
       * commission self)%Q ->
  execute_trade self symbol "BUY" quantity price date reason = (self, None).
Proof.
  intros Hcash. unfold execute_trade, execution_price.
  rewrite !decide_True by reflexivity.
  destruct (Qle_bool _ _) eqn:Hle; [|reflexivity].
  apply Qle_bool_iff in Hle. exfalso.
  apply (Qlt_not_le _ _ Hcash). exact Hle.
Qed.

Lemma sell_oversell_rejected self symbol quantity price date reason :
  position_of (positions self) symbol < quantity ->
  execute_trade self symbol "SELL" quantity price date reason = (self, None).
Proof.
  intros Hheld. unfold execute_trade.
  rewrite decide_False by discriminate.
  rewrite decide_True by reflexivity.
  destruct (Z.leb_spec quantity (position_of (positions self) symbol));
    [lia | reflexivity].
Qed.

Lemma unknown_side_rejected self symbol side quantity price date reason :
  side <> "BUY" -> side <> "SELL" ->
  execute_trade self symbol side quantity price date reason = (self, None).
Proof.
  intros Hb Hs. unfold execute_trade.
  rewrite !decide_False by assumption. reflexivity.
Qed.

(** C5. A call to [execute_trade] that violates a constraint -- a BUY
    whose cash is below trade value plus commission, a SELL of more than
    the held quantity, or a side that is neither BUY nor SELL -- returns
    no trade and the portfolio it was given: cash, positions, current
    prices, total value and positions value are all unchanged. *)
Theorem execute_trade_rejected_unchanged
    self symbol side quantity price date reason :
  (side = "BUY" /\
   (cash self <
      inject_Z quantity * (price * (1 + slippage self))
      + inject_Z quantity * (price * (1 + slippage self))
        * commission self)%Q)
  \/ (side = "SELL" /\ position_of (positions self) symbol < quantity)
  \/ (side <> "BUY" /\ side <> "SELL") ->
  execute_trade self symbol side quantity price date reason = (self, None).
Proof.
  intros [[-> Hcash] | [[-> Hheld] | [Hb Hs]]].
  - by apply buy_insufficient_cash_rejected.
  - by apply sell_oversell_rejected.
  - by apply unknown_side_rejected.
Qed.

Lemma execute_trade_rejected_unchanged_witness :
  execute_trade (init 100 0.001 0.0005) "TEST" "BUY" 10 50 1 "Signal"
  = (init 100 0.001 0.0005, None).
Proof.
  apply execute_trade_rejected_unchanged.
  left. split; [reflexivity | reflexivity].
Defined.

(** C8. An accepted trade is priced at [price * (1 + slippage)] for a BUY
    and [price * (1 - slippage)] for a SELL; its commission is
    [quantity * execution_price * commission_rate]; a BUY debits cash by
    trade value plus commission; a SELL credits cash by trade value minus
    commission, removes the position entry when it reaches zero, and
    returns a closed trade whose entry date is its exit date. *)
Theorem execute_trade_accepted
    self symbol side quantity price date reason self' trade :
  execute_trade self symbol side quantity price date reason
    = (self', Some trade) ->
  let held := position_of (positions self) symbol in
  (side = "BUY" /\
   let execution_price := (price * (1 + slippage self))%Q in
   let trade_value := (inject_Z quantity * execution_price)%Q in
   let commission_cost := (trade_value * commission self)%Q in
   Trade.entry_price trade = execution_price /\
   Trade.commission trade = commission_cost /\
   cash self' = (cash self - (trade_value + commission_cost))%Q /\
   positions self' = <[symbol := held + quantity]> (positions self) /\
   Trade.exit_date trade = None)
  \/
  (side = "SELL" /\
   let execution_price := (price * (1 - slippage self))%Q in
   let trade_value := (inject_Z quantity * execution_price)%Q in
   let commission_cost := (trade_value * commission self)%Q in
   Trade.entry_price trade = execution_price /\
   Trade.exit_price trade = Some execution_price /\
   Trade.commission trade = commission_cost /\
   cash self' = (cash self + (trade_value - commission_cost))%Q /\
   (held - quantity = 0 -> positions self' = delete symbol (positions self)) /\
   (held - quantity <> 0 ->
      positions self' = <[symbol := held - quantity]> (positions self)) /\
   Trade.entry_date trade = date /\
   Trade.exit_date trade = Some (Trade.entry_date trade)).
Proof.
  intros H held. unfold execute_trade, execution_price in H.
  destruct (decide (side = "BUY")) as [->|Hb].
  - left. split; [reflexivity|].
    destruct (Qle_bool _ _); [|discriminate].
    injection H as <- <-. simpl. repeat split; reflexivity.
  - destruct (decide (side = "SELL")) as [->|Hs]; [|discriminate].
    right. split; [reflexivity|].
    destruct (_ <=? _)%Z; [|discriminate].
    injection H as <- <-. simpl.
    fold held. repeat split; try reflexivity.
    + intros Hz. rewrite Hz. simpl. apply delete_insert_eq.
    + intros Hnz. destruct (Z.eqb_spec (held - quantity) 0); [lia|].
      reflexivity.
Qed.

Lemma execute_trade_accepted_witness :
  execute_trade (fst round_trip_buy) "TEST" "SELL" 100 110 2 ""
    = (fst round_trip_sell, Some sold_trade)
  /\ cash (fst round_trip_sell)
     = (cash (fst round_trip_buy)
        + (inject_Z 100 * (110 * (1 - 0))
           - inject_Z 100 * (110 * (1 - 0)) * 0))%Q
  /\ Trade.exit_date sold_trade = Some (Trade.entry_date sold_trade).
Proof.
  split; [reflexivity|].
  destruct (execute_trade_accepted (fst round_trip_buy) "TEST" "SELL" 100
              110 2 "" (fst round_trip_sell) sold_trade eq_refl)
    as [[Hside _] | [_ (_ & _ & _ & Hcash & _ & _ & _ & Hdate)]];
    [discriminate Hside | exact (conj Hcash Hdate)].
Defined.

Lemma sell_proceeds_nonneg quantity price s c :
  0 <= quantity -> (0 <= price)%Q -> (s <= 1)%Q -> (c <= 1)%Q ->
  (0 <= inject_Z quantity * (price * (1 - s))
        - inject_Z quantity * (price * (1 - s)) * c)%Q.
Proof.
  intros Hq Hp Hs Hc.
  assert (Hq' : (0 <= inject_Z quantity)%Q)
    by (change 0%Q with (inject_Z 0); by rewrite <- Zle_Qle).
  assert (Hv : (0 <= inject_Z quantity * (price * (1 - s)))%Q).
  { apply Qmult_le_0_compat; [assumption|].
    apply Qmult_le_0_compat; [assumption | lra]. }
  assert (E : (inject_Z quantity * (price * (1 - s))
               - inject_Z quantity * (price * (1 - s)) * c
               == inject_Z quantity * (price * (1 - s)) * (1 - c))%Q)
    by ring.
  rewrite E.
  apply Qmult_le_0_compat; [assumption | lra].
Qed.

(** C2 (what the code does). In the round trip of the specification --
    capital 100000, no slippage, no commission, buy 100 at 100, sell 100
    at 110 -- both calls are accepted, cash ends at 101000 and the SELL
    returns a closed trade, but its [pnl] is [None], not 1000. *)
Theorem round_trip_sell_pnl_unset :
  exists p1 bought p2 sold,
    round_trip_buy = (p1, Some bought) /\
    round_trip_sell = (p2, Some sold) /\
    (cash p1 == 90000)%Q /\ (cash p2 == 101000)%Q /\
    Trade.exit_date sold = Some 2 /\
    Trade.pnl sold = None.
Proof.
  unfold round_trip_sell, round_trip_buy.
  eexists _, _, _, _.
  split; [reflexivity|]. split; [reflexivity|].
  split_and!; reflexivity.
Qed.

End PortfolioFacts.

(** * The portfolio on binary64 amounts *)
Section FloatFacts.
Import FloatPortfolio.

Implicit Types (self : FloatPortfolio.t) (symbol side reason : string)
  (quantity : Z) (price : pyfloat) (date : datetime).

Lemma round_finite q r : PyFloat.round q = Finite r -> r = q.
Proof. unfold PyFloat.round. repeat case_match; congruence. Qed.

Lemma round_in_range q :
  (Qabs q < PyFloat.overflow_threshold)%Q -> PyFloat.round q = Finite q.
Proof.
  intros H. apply Qabs_Qlt_condition in H as [Hlo Hhi].
  unfold PyFloat.round.
  destruct (Qle_bool PyFloat.overflow_threshold q) eqn:E1.
  { apply Qle_bool_iff in E1. lra. }
  destruct (Qle_bool q (- PyFloat.overflow_threshold)) eqn:E2.
  { apply Qle_bool_iff in E2. lra. }
  reflexivity.
Qed.

Lemma scale_inf_not_finite inf x r :
  inf = PosInf \/ inf = NegInf -> PyFloat.scale_inf inf x <> Finite r.
Proof.
  intros [-> | ->]; unfold PyFloat.scale_inf; repeat case_match; discriminate.
Qed.

Lemma add_finite a b r :
  PyFloat.add a b = Finite r ->
  exists x y, a = Finite x /\ b = Finite y /\ r = (x + y)%Q.
Proof.
  destruct a as [x| | |], b as [y| | |]; simpl; try discriminate.
  intros H%round_finite. by exists x, y.
Qed.

Lemma sub_finite a b r :
  PyFloat.sub a b = Finite r ->
  exists x y, a = Finite x /\ b = Finite y /\ r = (x - y)%Q.
Proof.
  unfold PyFloat.sub. intros (x & y' & -> & Hb & ->)%add_finite.
  destruct b as [y| | |]; simpl in Hb; try discriminate.
  injection Hb as <-. by exists x, y.
Qed.

Lemma mul_finite a b r :
  PyFloat.mul a b = Finite r ->
  exists x y, a = Finite x /\ b = Finite y /\ r = (x * y)%Q.
Proof.
  destruct a as [x| | |], b as [y| | |]; simpl; try discriminate;
    try (intros H; exfalso; revert H; apply scale_inf_not_finite; tauto).
  intros H%round_finite. by exists x, y.
Qed.

Lemma of_int_Some z a :
  PyFloat.of_int z = Some a -> a = Finite (inject_Z z).
Proof. unfold PyFloat.of_int. case_match; congruence. Qed.

Lemma is_finite_Finite a :
  PyFloat.is_finite a = true -> exists q, a = Finite q.
Proof. destruct a; try discriminate. by eexists. Qed.

(** The rates of a portfolio never change. *)
Lemma float_apply_op_rates self op :
  commission (apply_op self op) = commission self /\
  slippage (apply_op self op) = slippage self.
Proof.
  destruct op; simpl; [split; reflexivity|].
  unfold execute_trade.
  repeat case_match; simpl; split; reflexivity.
Qed.

(** The two guards of [execute_trade]. *)
Lemma float_buy_unaffordable_rejected
    self symbol quantity price date reason :
  (forall q,
      PyFloat.of_int quantity = Some q ->
      let trade_value :=
        PyFloat.mul q (PyFloat.mul price
                         (PyFloat.add (Finite 1) (slippage self))) in
      PyFloat.ge (cash self)
        (PyFloat.add trade_value (PyFloat.mul trade_value (commission self)))
      = false) ->
  execute_trade self symbol "BUY" quantity price date reason = (self, None).
Proof.
  intros H. unfold execute_trade, execution_price.
  rewrite !decide_True by reflexivity.
  destruct (PyFloat.of_int quantity) as [q|]; [|reflexivity].
  specialize (H q eq_refl). cbv zeta in H. by rewrite H.
Qed.

Lemma float_sell_oversell_rejected self symbol quantity price date reason :
  BacktestPortfolio.position_of (positions self) symbol < quantity ->
  execute_trade self symbol "SELL" quantity price date reason = (self, None).
Proof.
  intros Hheld. unfold execute_trade.
  destruct (PyFloat.of_int quantity) as [q|]; [|reflexivity].
  rewrite decide_False by discriminate.
  rewrite decide_True by reflexivity.
  destruct (Z.leb_spec quantity
              (BacktestPortfolio.position_of (positions self) symbol));
    [lia | reflexivity].
Qed.

Lemma float_solvent_position_of self symbol :
  solvent self -> 0 <= BacktestPortfolio.position_of (positions self) symbol.
Proof.
  intros [_ Hpos]. unfold BacktestPortfolio.position_of.
  destruct (positions self !! symbol) as [q|] eqn:Hq; simpl; [eauto | lia].
Qed.

Lemma float_apply_op_solvent self op :
  PyFloat.at_most_one (commission self) ->
  PyFloat.at_most_one (slippage self) ->
  nonneg_op op -> op_in_range self op = true ->
  solvent self -> solvent (apply_op self op).
Proof.
  intros (cm & Hcm & Hcm1) (s & Hs & Hs1) Hop Hrange Hsolv.
  destruct op as [date prices | symbol side quantity price date reason];
    simpl; [exact Hsolv|].
  destruct Hop as [Hq (p & -> & Hp)].
  pose proof (float_solvent_position_of self symbol Hsolv) as Hheld.
  pose proof Hsolv as [(c & Hc & Hc0) Hpos].
  simpl in Hrange. unfold computed_amounts in Hrange.
  unfold execute_trade.
  destruct (PyFloat.of_int quantity) as [q|] eqn:Hint; [|discriminate].
  apply of_int_Some in Hint as ->.
  cbn -[PyFloat.mul PyFloat.add PyFloat.sub PyFloat.ge execution_price]
    in Hrange.
  apply andb_prop in Hrange as [Hep Hrange].
  apply andb_prop in Hrange as [Htv Hrange].
  apply andb_prop in Hrange as [Hcc Hrange].
  apply is_finite_Finite in Htv as [v Hv], Hcc as [k Hk].
  rewrite Hv, Hk in *. clear Hep.
  apply mul_finite in Hk as (v' & cm' & [= <-] & Hcm' & ->).
  assert (cm' = cm) as -> by congruence.
  apply mul_finite in Hv as (qz & e & [= <-] & He & ->).
  unfold execution_price in He.
  destruct (decide (side = "BUY")) as [->|Hb].
  - cbn -[PyFloat.mul PyFloat.add PyFloat.sub PyFloat.ge] in Hrange.
    apply andb_prop in Hrange as [Htot Hrange].
    apply andb_prop in Hrange as [Hnew _].
    apply is_finite_Finite in Htot as [t Ht], Hnew as [r Hr].
    rewrite Ht, Hr in *.
    destruct (PyFloat.ge (cash self) (Finite t)) eqn:Hge; [|exact Hsolv].
    rewrite Hc in Hge, Hr. simpl in Hge. apply Qle_bool_iff in Hge.
    apply sub_finite in Hr as (c' & t' & [= <-] & [= <-] & ->).
    split; simpl.
    + exists (c - t)%Q. split; [reflexivity | lra].
    + intros s' q'. rewrite lookup_insert. case_decide; [|by apply Hpos].
      intros [= <-]. lia.
  - destruct (decide (side = "SELL")) as [->|Hsell]; [|exact Hsolv].
    cbn -[PyFloat.mul PyFloat.add PyFloat.sub PyFloat.ge] in Hrange.
    apply andb_prop in Hrange as [Hnet Hrange].
    apply andb_prop in Hrange as [Hnew _].
    apply is_finite_Finite in Hnet as [n Hn], Hnew as [r Hr].
    rewrite Hn, Hr in *.
    destruct (Z.leb_spec quantity
                (BacktestPortfolio.position_of (positions self) symbol));
      [|exact Hsolv].
    rewrite Hc in Hr.
    apply add_finite in Hr as (c' & n' & [= <-] & [= <-] & ->).
    apply sub_finite in Hn as (v' & k' & [= <-] & [= <-] & ->).
    apply mul_finite in He as (p' & w & [= <-] & Hw & ->).
    rewrite Hs in Hw.
    apply sub_finite in Hw as (one & s' & [= <-] & [= <-] & ->).
    split; simpl.
    + eexists. split; [reflexivity|].
      pose proof (sell_proceeds_nonneg quantity p s cm Hq Hp Hs1 Hcm1).
      lra.
    + intros s' q'. destruct (_ =? _)%Z.
      * destruct (decide (s' = symbol)) as [->|Hne].
        -- rewrite lookup_delete_eq. discriminate.
        -- rewrite lookup_delete_ne, lookup_insert_ne by congruence.
           by apply Hpos.
      * rewrite lookup_insert. case_decide; [|by apply Hpos].
        intros [= <-]. lia.
Qed.

Lemma float_run_ops_rates self ops :
  commission (run_ops self ops) = commission self /\
  slippage (run_ops self ops) = slippage self.
Proof.
  revert self. induction ops as [|op ops IH]; intros self; [by split|].
  simpl. destruct (IH (apply_op self op)) as [-> ->].
  apply float_apply_op_rates.
Qed.

Lemma float_run_ops_solvent self ops :
  PyFloat.at_most_one (commission self) ->
  PyFloat.at_most_one (slippage self) ->
  Forall nonneg_op ops -> no_overflow self ops = true ->
  solvent self -> solvent (run_ops self ops).
Proof.
  revert self.
  induction ops as [|op ops IH]; intros self Hc Hs Hops Hrange Hsolv;
    [exact Hsolv|].
  inversion Hops as [|? ? Hop Hops']; subst. simpl in *.
  apply andb_prop in Hrange as [Hop_range Hrange].
  destruct (float_apply_op_rates self op) as [Hc' Hs'].
  apply IH; [by rewrite Hc' | by rewrite Hs' | assumption | assumption |].
  by apply float_apply_op_solvent.
Qed.

(** Where no amount overflows, [execute_trade] on binary64 amounts is
    [execute_trade] on exact amounts. *)
Lemma float_execute_trade_exact
    (self : BacktestPortfolio.t) symbol side quantity (price : Q) date reason :
  op_in_range (portfolio_to_float self)
    (ExecuteTrade symbol side quantity (Finite price) date reason) = true ->
  execute_trade (portfolio_to_float self) symbol side quantity (Finite price)
    date reason
  = (portfolio_to_float
       (fst (BacktestPortfolio.execute_trade self symbol side quantity price
               date reason)),
     trade_to_float <$>
       snd (BacktestPortfolio.execute_trade self symbol side quantity price
              date reason)).
Proof.
  intros Hrange. simpl in Hrange. unfold computed_amounts in Hrange.
  unfold execute_trade, BacktestPortfolio.execute_trade.
  destruct (PyFloat.of_int quantity) as [q|] eqn:Hint; [|discriminate].
  apply of_int_Some in Hint as ->.
  unfold execution_price in *.
  cbn -[PyFloat.mul PyFloat.add PyFloat.sub PyFloat.ge] in Hrange.
  cbn [portfolio_to_float cash commission slippage positions].
  apply andb_prop in Hrange as [_ Hrange].
  apply andb_prop in Hrange as [Htv Hrange].
  apply andb_prop in Hrange as [Hcc Hrange].
  apply is_finite_Finite in Htv as [v Hv], Hcc as [k Hk].
  rewrite Hv, Hk in *.
  apply mul_finite in Hk as (v' & cm' & [= <-] & [= <-] & ->).
  apply mul_finite in Hv as (qz & e & [= <-] & He & ->).
  rewrite He.
  unfold BacktestPortfolio.execution_price.
  destruct (decide (side = "BUY")) as [->|Hb].
  - cbn -[PyFloat.mul PyFloat.add PyFloat.sub PyFloat.ge] in Hrange.
    apply andb_prop in Hrange as [Htot Hrange].
    apply andb_prop in Hrange as [Hnew _].
    apply is_finite_Finite in Htot as [t Ht], Hnew as [r Hr].
    rewrite Ht, Hr in *.
    apply add_finite in Ht as (v' & k' & [= <-] & [= <-] & ->).
    apply sub_finite in Hr as (c' & t' & [= <-] & [= <-] & ->).
    apply mul_finite in He as (p' & w & [= <-] & Hw & ->).
    apply add_finite in Hw as (one & s' & [= <-] & [= <-] & ->).
    simpl. destruct (Qle_bool _ _); reflexivity.
  - destruct (decide (side = "SELL")) as [->|Hsell]; [|reflexivity].
    cbn -[PyFloat.mul PyFloat.add PyFloat.sub PyFloat.ge] in Hrange.
    apply andb_prop in Hrange as [Hnet Hrange].
    apply andb_prop in Hrange as [Hnew _].
    apply is_finite_Finite in Hnet as [n Hn], Hnew as [r Hr].
    rewrite Hn, Hr in *.
    apply add_finite in Hr as (c' & n' & [= <-] & [= <-] & ->).
    apply sub_finite in Hn as (v' & k' & [= <-] & [= <-] & ->).
    apply mul_finite in He as (p' & w & [= <-] & Hw & ->).
    apply sub_finite in Hw as (one & s' & [= <-] & [= <-] & ->).
    simpl. destruct (_ <=? _)%Z; reflexivity.
Qed.

(** C6 (amended).  On binary64 amounts, after every sequence of
    [update_prices] and [execute_trade] operations a BUY is rejected
    whenever [cash >= trade_value + commission] is false, and a SELL of
    more than the held quantity is rejected.  When, in addition, the
    initial capital is a non-negative number, the commission and
    slippage rates are numbers at most 1, every trade of the sequence
    has a non-negative quantity and price, and no amount computed along
    the sequence overflows, cash is a non-negative number and no held
    quantity is negative. *)
Theorem float_guards_and_solvency
    (initial_capital commission_rate slippage_rate : pyfloat)
    (ops : list Op) :
  let self := run_ops (init initial_capital commission_rate slippage_rate)
                      ops in
  (forall symbol quantity price date reason,
      (forall q,
          PyFloat.of_int quantity = Some q ->
          let trade_value :=
            PyFloat.mul q (PyFloat.mul price
                             (PyFloat.add (Finite 1) (slippage self))) in
          PyFloat.ge (cash self)
            (PyFloat.add trade_value
               (PyFloat.mul trade_value (commission self)))
          = false) ->
      execute_trade self symbol "BUY" quantity price date reason
      = (self, None)) /\
  (forall symbol quantity price date reason,
      BacktestPortfolio.position_of (positions self) symbol < quantity ->
      execute_trade self symbol "SELL" quantity price date reason
      = (self, None)) /\
  (PyFloat.nonneg initial_capital ->
   PyFloat.at_most_one commission_rate ->
   PyFloat.at_most_one slippage_rate ->
   Forall nonneg_op ops ->
   no_overflow (init initial_capital commission_rate slippage_rate) ops
   = true ->
   (exists c, cash self = Finite c /\ (0 <= c)%Q) /\
   forall s q, positions self !! s = Some q -> 0 <= q).
Proof.
  intros self. split_and!.
  - intros. by apply float_buy_unaffordable_rejected.
  - intros. by apply float_sell_oversell_rejected.
  - intros Hcap Hc Hs Hops Hrange.
    apply float_run_ops_solvent; try assumption.
    split; [exact Hcap|]. intros s q Hq. simpl in Hq.
    rewrite lookup_empty in Hq. discriminate.
Qed.

Lemma float_guards_and_solvency_witness :
  let self := run_ops (init (Finite 100000) (Finite 0.001) (Finite 0.0005))
                      float_sample_ops in
  (exists c, cash self = Finite c /\ (0 <= c)%Q) /\
  forall s q, positions self !! s = Some q -> 0 <= q.
Proof.
  destruct (float_guards_and_solvency (Finite 100000) (Finite 0.001)
              (Finite 0.0005) float_sample_ops) as (_ & _ & H).
  apply H.
  - eexists. split; [reflexivity|]. unfold Qle. simpl. lia.
  - eexists. split; [reflexivity|]. unfold Qle. simpl. lia.
  - eexists. split; [reflexivity|]. unfold Qle. simpl. lia.
  - unfold float_sample_ops.
    repeat (apply Forall_cons; split;
            [simpl; try exact I;
             try (split; [lia|]; eexists; split; [reflexivity|];
                  unfold Qle; simpl; lia) |]).
    apply Forall_nil_2.
  - vm_compute. reflexivity.
Defined.



End FloatFacts.

(** C6, as stated, fails on operations the portfolio accepts: a BUY of
    quantity -5 leaves a held quantity of -5; a SELL of quantity -5
    (accepted, since 0 >= -5) drives cash below zero; and after a BUY of
    10 at price 0, the SELL of 10 at 1e308 has a trade value that
    overflows to infinity, whose commission is infinite too, so that
    cash becomes NaN, for which [cash >= 0] is false. *)
Lemma unchecked_trades_break_solvency :
  BacktestPortfolio.positions
    (run_ops (BacktestPortfolio.init 1000 0.001 0.0005)
       negative_buy_ops) !! "TEST"
    = Some (-5)
  /\ (BacktestPortfolio.cash
        (run_ops (BacktestPortfolio.init 1000 0.001 0.0005)
           negative_sell_ops) < 0)%Q
  /\ FloatPortfolio.cash
       (FloatPortfolio.run_ops
          (FloatPortfolio.init (Finite 1000) (Finite 0.001) (Finite 0.0005))
          overflowing_sell_ops) = NaN
  /\ PyFloat.ge NaN (Finite 0) = false.
Proof. split_and!; vm_compute; reflexivity. Qed.


(** * Properties of the daily loop *)
Section LoopFacts.

(** A day on which no trade is executed records a consistent point. *)
Lemma simulate_day_no_signal config data st i current_date :
  _simulate_trading_signals config current_date data i = [] ->
  let pt := List.last (loop_equity_curve
                         (simulate_day config data st i current_date))
                      (equity_point current_date (loop_portfolio st)) in
  EquityPoint.equity pt
  = (EquityPoint.cash pt + EquityPoint.positions_value pt)%Q.
Proof.
  intros Hsig. unfold simulate_day. rewrite Hsig. simpl.
  rewrite last_last. reflexivity.
Qed.

(** C1 (what the code does). On the 21-day series [momentum_data] the
    loop buys 100 units on day 21, after [update_prices] has valued the
    portfolio; the point appended for that day records the equity
    computed before the trade (100000) next to the cash left after it
    (88983.4945) and a positions value of 0, so the recorded equity is
    not the recorded cash plus the recorded positions value. *)
Theorem equity_point_stale_after_trade :
  let run := simulate momentum_config momentum_data [] [] in
  exists pt,
    last (loop_equity_curve run) = Some pt /\
    length (loop_trades run) = 1%nat /\
    EquityPoint.date pt = 21 /\
    (EquityPoint.equity pt == 100000)%Q /\
    (EquityPoint.cash pt == 88983.4945)%Q /\
    (EquityPoint.positions_value pt == 0)%Q /\
    ~ (EquityPoint.equity pt
       == EquityPoint.cash pt + EquityPoint.positions_value pt)%Q.
Proof.
  eexists. split; [vm_compute; reflexivity|].
  split_and!; try (vm_compute; reflexivity).
  vm_compute. discriminate.
Qed.

End LoopFacts.

(** * Properties of the metrics *)
Section MetricsFacts.
Import BacktestEngine.

Variable pandas_equity_stats :
  list Q -> Q -> option (pyfloat * pyfloat * pyfloat * pyfloat * pyfloat).
Variable pandas_benchmark_return : DataFrame -> option pyfloat.
Variable numpy_sub : pyfloat -> pyfloat -> pyfloat.

Local Abbreviation calculate_try :=
  (_calculate_metrics_try pandas_equity_stats pandas_benchmark_return
     numpy_sub).
Local Abbreviation calculate :=
  (_calculate_metrics pandas_equity_stats pandas_benchmark_return
     numpy_sub).

Lemma filter_winning_unset (l : list Trade.t) :
  Forall (fun t => Trade.pnl t = None) l ->
  filter (fun t => is_winning t = true) l = [].
Proof.
  induction 1 as [|t l Ht _ IH]; [reflexivity|].
  rewrite filter_cons_False; [exact IH|].
  unfold is_winning. rewrite Ht. discriminate.
Qed.

Lemma filter_losing_unset (l : list Trade.t) :
  Forall (fun t => Trade.pnl t = None) l ->
  filter (fun t => is_losing t = true) l = [].
Proof.
  induction 1 as [|t l Ht _ IH]; [reflexivity|].
  rewrite filter_cons_False; [exact IH|].
  unfold is_losing. rewrite Ht. discriminate.
Qed.

Lemma filter_completed_open (l : list Trade.t) :
  Forall (fun t => Trade.exit_date t = None) l ->
  filter (fun t => is_completed t = true) l = [].
Proof.
  induction 1 as [|t l Ht _ IH]; [reflexivity|].
  rewrite filter_cons_False; [exact IH|].
  unfold is_completed. rewrite Ht. discriminate.
Qed.

(** [0 / len(l)] does not raise on a non-empty list, and is zero. *)
Lemma py_truediv_zero_len {A} (l : list A) :
  nonempty l = true ->
  exists w, py_truediv (Qlen (@nil A)) (Qlen l) = Some w /\ (w == 0)%Q.
Proof.
  destruct l as [|x l]; [discriminate|]. intros _.
  unfold py_truediv.
  destruct (Qeq_bool (Qlen (x :: l)) 0) eqn:E.
  - apply Qeq_bool_iff in E. unfold Qlen, Qeq in E. simpl in E. lia.
  - eexists. split; [reflexivity|]. unfold Qlen. simpl.
    unfold Qdiv. apply Qmult_0_l.
Qed.

(** The statistics of a list of trades none of which has a [pnl]. *)
Lemma trade_statistics_unset (trades : list Trade.t) :
  Forall (fun t => Trade.pnl t = None) trades ->
  exists w,
    (w == 0)%Q /\
    trade_statistics trades
    = Some {| TradeStats.win_rate := Finite w;
              TradeStats.profit_factor := PosInf;
              TradeStats.total_trades :=
                length (filter (fun t => is_completed t = true) trades);
              TradeStats.winning_trades := 0;
              TradeStats.losing_trades := 0;
              TradeStats.avg_win := Finite 0;
              TradeStats.avg_loss := Finite 0;
              TradeStats.largest_win := Finite 0;
              TradeStats.largest_loss := Finite 0 |}.
Proof.
  intros Hunset. unfold trade_statistics.
  assert (Hc : Forall (fun t => Trade.pnl t = None)
                 (filter (fun t => is_completed t = true) trades)).
  { apply Forall_forall. intros t Ht.
    apply list_elem_of_filter in Ht as [_ Ht].
    revert t Ht. by apply Forall_forall. }
  rewrite (filter_winning_unset _ Hc), (filter_losing_unset _ Hc).
  destruct (nonempty (filter _ trades)) eqn:Hne.
  - destruct (py_truediv_zero_len _ Hne) as (w & -> & Hw).
    exists w. split; [exact Hw | reflexivity].
  - exists 0%Q. split; reflexivity.
Qed.

Lemma trade_statistics_no_closed (trades : list Trade.t) :
  Forall (fun t => Trade.exit_date t = None) trades ->
  trade_statistics trades
  = Some {| TradeStats.win_rate := Finite 0;
            TradeStats.profit_factor := PosInf;
            TradeStats.total_trades := 0;
            TradeStats.winning_trades := 0;
            TradeStats.losing_trades := 0;
            TradeStats.avg_win := Finite 0;
            TradeStats.avg_loss := Finite 0;
            TradeStats.largest_win := Finite 0;
            TradeStats.largest_loss := Finite 0 |}.
Proof.
  intros Hopen. unfold trade_statistics.
  rewrite (filter_completed_open _ Hopen). reflexivity.
Qed.

(** The try body succeeds only with the statistics of the trade list. *)
Lemma calculate_try_stats result config data m :
  calculate_try result config data = Some m ->
  exists stats,
    trade_statistics (BacktestResult.trades result) = Some stats /\
    BacktestMetrics.win_rate m = TradeStats.win_rate stats /\
    BacktestMetrics.profit_factor m = TradeStats.profit_factor stats /\
    BacktestMetrics.total_trades m = TradeStats.total_trades stats /\
    BacktestMetrics.winning_trades m = TradeStats.winning_trades stats /\
    BacktestMetrics.losing_trades m = TradeStats.losing_trades stats /\
    BacktestMetrics.avg_win m = TradeStats.avg_win stats /\
    BacktestMetrics.avg_loss m = TradeStats.avg_loss stats /\
    BacktestMetrics.largest_win m = TradeStats.largest_win stats /\
    BacktestMetrics.largest_loss m = TradeStats.largest_loss stats.
Proof.
  unfold _calculate_metrics_try. intros H.
  destruct (negb _); [discriminate|].
  destruct (pandas_equity_stats _ _) as [[[[[tr ar] vol] sr] mdd]|];
    [|discriminate].
  simpl in H.
  destruct (trade_statistics _) as [stats|]; [|discriminate].
  simpl in H. exists stats. split; [reflexivity|].
  destruct (dict_get _ _) as [bd|]; simpl in H.
  - destruct (pandas_benchmark_return bd); [|discriminate].
    simpl in H. injection H as <-. simpl. by split_and!.
  - injection H as <-. simpl. by split_and!.
Qed.

Lemma made_by_execute_trade_pnl (t : Trade.t) :
  made_by_execute_trade t -> Trade.pnl t = None.
Proof.
  intros (self & symbol & side & quantity & price & date & reason & self' & H).
  exact (execute_trade_pnl_None _ _ _ _ _ _ _ _ _ H).
Qed.

(** C3 (amended). For a run whose trade list holds no closed trade, the
    trade statistics raise no division error and the metrics have
    [win_rate = 0]; [profit_factor] is [+inf] when the computation
    succeeds, and 0 only in the all-zero record returned when it
    raises. *)
Theorem no_closed_trades_metrics result config data :
  Forall (fun t => Trade.exit_date t = None) (BacktestResult.trades result) ->
  is_Some (trade_statistics (BacktestResult.trades result)) /\
  BacktestMetrics.win_rate (calculate result config data) = Finite 0 /\
  (is_Some (calculate_try result config data) ->
   BacktestMetrics.profit_factor (calculate result config data) = PosInf) /\
  (calculate_try result config data = None ->
   BacktestMetrics.profit_factor (calculate result config data) = Finite 0).
Proof.
  intros Hopen.
  pose proof (trade_statistics_no_closed _ Hopen) as Hstats.
  split; [rewrite Hstats; by eexists|].
  unfold _calculate_metrics.
  destruct (calculate_try result config data) as [m|] eqn:Htry; simpl.
  - destruct (calculate_try_stats _ _ _ _ Htry)
      as (stats & Hs & Hw & Hp & _).
    rewrite Hstats in Hs. injection Hs as <-.
    rewrite Hw, Hp. simpl. split; [reflexivity|].
    split; [reflexivity | discriminate].
  - split; [reflexivity|]. split; [intros [? [=]] | reflexivity].
Qed.

(** C9. On the non-exception path of the metrics, whatever the number
    of trades, no trade returned by [execute_trade] counts as winning or
    losing: the counts, the win rate, the average and largest win and
    loss are 0 and the profit factor is [+inf]. *)
Theorem metrics_never_classify_trades result config data m :
  Forall made_by_execute_trade (BacktestResult.trades result) ->
  calculate_try result config data = Some m ->
  BacktestMetrics.winning_trades m = 0%nat /\
  BacktestMetrics.losing_trades m = 0%nat /\
  pyfloat_eq (BacktestMetrics.win_rate m) (Finite 0) /\
  BacktestMetrics.avg_win m = Finite 0 /\
  BacktestMetrics.avg_loss m = Finite 0 /\
  BacktestMetrics.largest_win m = Finite 0 /\
  BacktestMetrics.largest_loss m = Finite 0 /\
  BacktestMetrics.profit_factor m = PosInf.
Proof.
  intros Hmade Htry.
  assert (Hunset : Forall (fun t => Trade.pnl t = None)
                     (BacktestResult.trades result)).
  { eapply Forall_impl; [exact Hmade|]. apply made_by_execute_trade_pnl. }
  destruct (trade_statistics_unset _ Hunset) as (w & Hw & Hstats).
  destruct (calculate_try_stats _ _ _ _ Htry)
    as (stats & Hs & E1 & E2 & _ & E4 & E5 & E6 & E7 & E8 & E9).
  rewrite Hstats in Hs. injection Hs as <-.
  rewrite E1, E2, E4, E5, E6, E7, E8, E9. simpl.
  by split_and!.
Qed.

End MetricsFacts.

Lemma no_closed_trades_metrics_witness :
  Forall (fun t => Trade.exit_date t = None)
         (BacktestResult.trades one_day_result)
  /\ BacktestMetrics.win_rate
       (BacktestEngine._calculate_metrics one_point_equity_stats
          no_benchmark_return finite_sub one_day_result momentum_config
          one_day_data) = Finite 0.
Proof.
  assert (H : Forall (fun t => Trade.exit_date t = None)
                (BacktestResult.trades one_day_result))
    by apply Forall_nil_2.
  split; [exact H|].
  exact (proj1 (proj2 (no_closed_trades_metrics one_point_equity_stats
                         no_benchmark_return finite_sub one_day_result
                         momentum_config one_day_data H))).
Defined.

(** C3, as stated, fails: the run over one trading day has no trade at
    all, its metrics are computed without an exception, and its profit
    factor is [+inf], not 0. *)
Lemma no_closed_trades_profit_factor_not_zero :
  BacktestResult.trades one_day_result = [] /\
  BacktestMetrics.profit_factor
    (BacktestEngine._calculate_metrics one_point_equity_stats
       no_benchmark_return finite_sub one_day_result momentum_config
       one_day_data) <> Finite 0.
Proof. split; [reflexivity|]. vm_compute. discriminate. Qed.

Lemma round_trip_trades_made :
  Forall made_by_execute_trade (BacktestResult.trades round_trip_result).
Proof.
  apply Forall_cons. split.
  - exists (BacktestPortfolio.init 100000 0 0), "TEST", "BUY", 100, 100%Q, 1, "".
    eexists. reflexivity.
  - apply Forall_cons. split; [|apply Forall_nil_2].
    exists (fst round_trip_buy), "TEST", "SELL", 100, 110%Q, 2, "".
    eexists. reflexivity.
Defined.

Lemma metrics_never_classify_trades_witness :
  exists m,
    BacktestEngine._calculate_metrics_try flat_equity_stats
      no_benchmark_return finite_sub round_trip_result momentum_config [] 
    = Some m /\
    BacktestMetrics.total_trades m = 1%nat /\
    BacktestMetrics.winning_trades m = 0%nat /\
    BacktestMetrics.profit_factor m = PosInf.
Proof.
  eexists. split; [vm_compute; reflexivity|].
  split; [reflexivity|].
  match goal with
  | |- BacktestMetrics.winning_trades ?m = _ /\ _ =>
      destruct (metrics_never_classify_trades flat_equity_stats
                  no_benchmark_return finite_sub round_trip_result
                  momentum_config [] m round_trip_trades_made)
        as (Hw & _ & _ & _ & _ & _ & _ & Hp);
      [vm_compute; reflexivity | exact (conj Hw Hp)]
  end.
Defined.

(** * Properties of the run registry *)
Section EngineFacts.
Import BacktestEngine.

Variable pandas_equity_stats :
  list Q -> Q -> option (pyfloat * pyfloat * pyfloat * pyfloat * pyfloat).
Variable pandas_benchmark_return : DataFrame -> option pyfloat.
Variable numpy_sub : pyfloat -> pyfloat -> pyfloat.

Local Abbreviation finish :=
  (thread_finish pandas_equity_stats pandas_benchmark_return numpy_sub).
Local Abbreviation engine_step :=
  (step pandas_equity_stats pandas_benchmark_return numpy_sub).
Local Abbreviation engine_reachable :=
  (reachable pandas_equity_stats pandas_benchmark_return numpy_sub).

(** [start_backtest] refuses, and changes nothing, unless the identifier
    is in the active map with a record whose status is PENDING. *)
Lemma start_backtest_refuses (self : BacktestEngine.t) backtest_id :
  (forall result,
      deref self (active_backtests self) backtest_id = Some result ->
      BacktestResult.status result <> PENDING) ->
  start_backtest self backtest_id = (self, false).
Proof.
  unfold start_backtest, deref. intros H.
  destruct (active_backtests self !! backtest_id) as [addr|]; simpl in *;
    [|reflexivity].
  destruct (heap self !! addr) as [result|]; [|reflexivity].
  rewrite decide_True by (by apply H). reflexivity.
Qed.

Lemma start_backtest_accepts (self : BacktestEngine.t) backtest_id result :
  deref self (active_backtests self) backtest_id = Some result ->
  BacktestResult.status result = PENDING ->
  snd (start_backtest self backtest_id) = true /\
  heap (fst (start_backtest self backtest_id)) = heap self.
Proof.
  unfold start_backtest, deref. intros H Hst.
  destruct (active_backtests self !! backtest_id) as [addr|]; simpl in *;
    [|discriminate].
  rewrite H. rewrite decide_False by (intros Hne; by apply Hne).
  by split.
Qed.

Lemma execute_signals_made current_date st signals :
  Forall made_by_execute_trade (snd st) ->
  Forall made_by_execute_trade
    (snd (execute_signals current_date st signals)).
Proof.
  unfold execute_signals. revert st.
  induction signals as [|signal signals IH]; intros [portfolio trades] H;
    [exact H|].
  simpl. apply IH.
  destruct (BacktestPortfolio.execute_trade _ _ _ _ _ _ _)
    as [portfolio' [t|]] eqn:E; simpl in *; [|exact H].
  apply Forall_app. split; [exact H|].
  apply Forall_cons. split; [|apply Forall_nil_2].
  by repeat eexists.
Qed.

Lemma simulate_from_made config data i dates st :
  Forall made_by_execute_trade (loop_trades st) ->
  Forall made_by_execute_trade
    (loop_trades (simulate_from config data i dates st)).
Proof.
  revert i st. induction dates as [|d dates IH]; intros i st H; [exact H|].
  simpl. apply IH. unfold simulate_day.
  pose proof (execute_signals_made d
                (BacktestPortfolio.update_prices (loop_portfolio st) d
                   (current_prices_at data d), loop_trades st)
                (_simulate_trading_signals config d data i) H) as Hm.
  destruct (execute_signals _ _ _) as [portfolio2 trades2]. exact Hm.
Qed.

Lemma step_trades_made self self' :
  engine_step self self' -> trades_made self -> trades_made self'.
Proof.
  unfold trades_made. intros Hstep H. destruct Hstep; simpl.
  - apply Forall_app. split; [exact H|].
    apply Forall_cons. split; [apply Forall_nil_2 | apply Forall_nil_2].
  - unfold start_backtest. repeat case_match; simpl; exact H.
  - unfold thread_enter. repeat case_match; simpl; try exact H.
    apply Forall_alter; [exact H|]. intros result _. simpl.
    intros Hr. exact Hr.
  - unfold thread_finish.
    destruct (threads self !! h) as [[| backtest_id addr |]|]; try exact H.
    destruct (heap self !! addr) as [result|] eqn:Hres; [|exact H].
    assert (Hr : Forall made_by_execute_trade (BacktestResult.trades result)).
    { eapply Forall_lookup_1 in H; [exact H | exact Hres]. }
    destruct (negb _); simpl.
    + apply Forall_insert; [exact H | exact Hr].
    + pose proof (simulate_from_made (BacktestResult.config result)
                    (get_multiple_symbols fetch
                       (BacktestConfig.symbols (BacktestResult.config result)))
                    0 (trading_dates
                         (get_multiple_symbols fetch
                            (BacktestConfig.symbols
                               (BacktestResult.config result))))
                    {| loop_portfolio :=
                         BacktestPortfolio.init
                           (BacktestConfig.initial_capital
                              (BacktestResult.config result))
                           (BacktestConfig.commission
                              (BacktestResult.config result))
                           (BacktestConfig.slippage
                              (BacktestResult.config result));
                       loop_trades := BacktestResult.trades result;
                       loop_equity_curve :=
                         BacktestResult.equity_curve result |} Hr) as Hsim.
      destruct (active_backtests self !! backtest_id); simpl;
        apply Forall_insert; try exact H; exact Hsim.
Qed.

Lemma reachable_trades_made self :
  engine_reachable self -> trades_made self.
Proof.
  induction 1 as [|self self' _ IH Hstep]; [apply Forall_nil_2|].
  exact (step_trades_made _ _ Hstep IH).
Qed.

(** What [thread_finish] does to the registry, by outcome. *)
Lemma finish_without_data self h backtest_id addr result fetch now :
  threads self !! h = Some (Entered backtest_id addr) ->
  heap self !! addr = Some result ->
  get_multiple_symbols fetch
    (BacktestConfig.symbols (BacktestResult.config result)) = [] ->
  let self' := finish self h fetch now in
  active_backtests self' = active_backtests self /\
  completed_backtests self' = completed_backtests self /\
  BacktestResult.status <$> heap self' !! addr = Some FAILED.
Proof.
  intros Hth Hres Hdata. unfold thread_finish.
  rewrite Hth, Hres, Hdata. simpl. split_and!; try reflexivity.
  rewrite list_lookup_insert_eq; [reflexivity|].
  by eapply lookup_lt_Some.
Qed.

Lemma finish_with_data self h backtest_id addr result fetch now :
  threads self !! h = Some (Entered backtest_id addr) ->
  heap self !! addr = Some result ->
  get_multiple_symbols fetch
    (BacktestConfig.symbols (BacktestResult.config result)) <> [] ->
  is_Some (active_backtests self !! backtest_id) ->
  let self' := finish self h fetch now in
  active_backtests self' !! backtest_id = None /\
  BacktestResult.status <$> get_backtest_results self' backtest_id
  = Some COMPLETED.
Proof.
  intros Hth Hres Hdata [a Ha]. unfold thread_finish.
  rewrite Hth, Hres, Ha.
  destruct (get_multiple_symbols _ _) as [|entry data]; [done|].
  simpl. split; [apply lookup_delete_eq|].
  unfold get_backtest_results, deref. simpl.
  rewrite lookup_insert_eq. simpl.
  rewrite list_lookup_insert_eq; [reflexivity|].
  by eapply lookup_lt_Some.
Qed.

(** C4 (what the code does). A run for which the provider has no data
    is started, becomes RUNNING and ends FAILED; it is then still in the
    active map, absent from the completed map, and
    [get_backtest_results] returns nothing for it. *)
Theorem failed_run_stays_active :
  let id := "backtest_1700000000" in
  let e1 := fst (create_backtest init 1700000000 momentum_config) in
  let e2 := fst (start_backtest e1 id) in
  let e3 := thread_enter e2 0 1700000001 in
  let e4 := finish e3 0 fetch_nothing 1700000002 in
  snd (create_backtest init 1700000000 momentum_config) = id /\
  snd (start_backtest e1 id) = true /\
  get_backtest_status e3 id = Some RUNNING /\
  get_backtest_status e4 id = Some FAILED /\
  active_backtests e4 !! id = Some 0%nat /\
  completed_backtests e4 !! id = None /\
  get_backtest_results e4 id = None.
Proof. cbv zeta. split_and!; vm_compute; reflexivity. Qed.

(** C7 (what the code does). [start_backtest] is called twice while the
    record is still PENDING, and both calls succeed, each starting a
    worker.  (a) Without data, the first worker ends the run FAILED and
    the second worker then sets it RUNNING.  (b) With data, the first
    worker ends the run COMPLETED and moves it; the second worker also
    reaches line 278, where the deletion raises, and the run, now in the
    completed map, becomes FAILED. *)
Theorem second_worker_overwrites_terminal_status :
  let id := "backtest_1700000000" in
  let e1 := fst (create_backtest init 1700000000 momentum_config) in
  let e2 := fst (start_backtest e1 id) in
  let e3 := fst (start_backtest e2 id) in
  snd (start_backtest e1 id) = true /\
  snd (start_backtest e2 id) = true /\
  (let a1 := thread_enter e3 0 1700000001 in
   let a2 := finish a1 0 fetch_nothing 1700000002 in
   let a3 := thread_enter a2 1 1700000003 in
   get_backtest_status a2 id = Some FAILED /\
   get_backtest_status a3 id = Some RUNNING) /\
  (let b1 := thread_enter e3 0 1700000001 in
   let b2 := thread_enter b1 1 1700000001 in
   let b3 := finish b2 0 fetch_one_day 1700000002 in
   let b4 := finish b3 1 fetch_one_day 1700000003 in
   get_backtest_status b3 id = Some COMPLETED /\
   BacktestResult.status <$> get_backtest_results b3 id = Some COMPLETED /\
   get_backtest_status b4 id = Some FAILED /\
   BacktestResult.status <$> get_backtest_results b4 id = Some FAILED /\
   (get_backtest_results b4 id ≫= BacktestResult.error_message)
   = Some "'backtest_1700000000'").
Proof. cbv zeta. split_and!; vm_compute; reflexivity. Qed.

End EngineFacts.

(** * Further properties of the simulated portfolio *)
Section PortfolioAccounting.
Import BacktestPortfolio.

Implicit Types (self : BacktestPortfolio.t) (symbol side reason : string)
  (quantity : Z) (price : Q) (date : datetime).

Lemma fold_left_Qplus_acc (l : list Q) (a : Q) :
  (fold_left Qplus l a == a + Qsum l)%Q.
Proof.
  unfold Qsum. revert a. induction l as [|x l IH]; intros a; simpl.
  - ring.
  - rewrite (IH (a + x)%Q), (IH (0 + x)%Q). ring.
Qed.

Lemma Qsum_cons (x : Q) (l : list Q) : (Qsum (x :: l) == x + Qsum l)%Q.
Proof.
  unfold Qsum at 1. simpl. rewrite fold_left_Qplus_acc. ring.
Qed.

Lemma fold_left_Zadd_acc (l : list Z) (a : Z) :
  fold_left Z.add l a = a + Zsum l.
Proof.
  unfold Zsum. revert a. induction l as [|x l IH]; intros a; simpl; [lia|].
  rewrite (IH (a + x)), (IH (0 + x)). lia.
Qed.

Lemma Zsum_cons (x : Z) (l : list Z) : Zsum (x :: l) = x + Zsum l.
Proof. unfold Zsum at 1. simpl. rewrite fold_left_Zadd_acc. lia. Qed.

(** What one call does to cash and to the held quantities, read from the
    record it returns. *)
Lemma execute_trade_flow self symbol side quantity price date reason
    self' trade :
  execute_trade self symbol side quantity price date reason
    = (self', Some trade) ->
  (cash self' == cash self + cash_flow trade)%Q /\
  forall s, position_of (positions self') s
            = position_of (positions self) s + signed_quantity s trade.
Proof.
  unfold execute_trade, cash_flow, signed_quantity, position_of. intros H.
  destruct (decide (side = "BUY")) as [->|Hb].
  - destruct (Qle_bool _ _); [|discriminate].
    injection H as <- <-. simpl. split; [ring|].
    intros s. rewrite lookup_insert.
    destruct (decide (symbol = s)) as [->|Hne]; simpl; [reflexivity | lia].
  - destruct (decide (side = "SELL")) as [->|Hs]; [|discriminate].
    destruct (_ <=? _)%Z; [|discriminate].
    injection H as <- <-. simpl. split; [ring|].
    intros s. destruct (Z.eqb_spec (default 0 (positions self !! symbol)
                                    - quantity) 0) as [Hz|Hnz].
    + destruct (decide (symbol = s)) as [->|Hne].
      * rewrite lookup_delete_eq. simpl. lia.
      * rewrite lookup_delete_ne, lookup_insert_ne by assumption. lia.
    + rewrite lookup_insert.
      destruct (decide (symbol = s)) as [->|Hne]; simpl; lia.
Qed.

Lemma execute_trade_refused self symbol side quantity price date reason
    self' :
  execute_trade self symbol side quantity price date reason = (self', None) ->
  self' = self.
Proof.
  unfold execute_trade. intros H.
  repeat case_decide; repeat case_match; simplify_eq; reflexivity.
Qed.

(** The trades appended while the signals of one day are executed account
    for the change of cash and of every held quantity. *)
Lemma execute_signals_accounting current_date self
    (trades : list Trade.t) (signals : list Signal.t) :
  exists new,
    snd (execute_signals current_date (self, trades) signals)
      = (trades ++ new)%list /\
    (length new <= length signals)%nat /\
    (cash (fst (execute_signals current_date (self, trades) signals))
     == cash self + Qsum (map cash_flow new))%Q /\
    forall s,
      position_of
        (positions (fst (execute_signals current_date (self, trades) signals)))
        s
      = position_of (positions self) s + Zsum (map (signed_quantity s) new).
Proof.
  unfold execute_signals. revert self trades.
  induction signals as [|signal signals IH]; intros self trades.
  - exists []. simpl. rewrite app_nil_r. split_and!; try reflexivity.
    + unfold Qsum. simpl. ring.
    + intros s. unfold Zsum. simpl. lia.
  - simpl.
    destruct (execute_trade self _ _ _ _ _ _) as [self1 [t|]] eqn:E.
    + destruct (execute_trade_flow _ _ _ _ _ _ _ _ _ E) as [Hc Hp].
      destruct (IH self1 (trades ++ [t])%list) as (new & Ht & Hl & Hcash & Hpos).
      exists (t :: new). split_and!.
      * rewrite Ht, <- app_assoc. reflexivity.
      * simpl. lia.
      * rewrite Hcash, Hc. simpl. rewrite Qsum_cons. ring.
      * intros s. rewrite Hpos, Hp. simpl. rewrite Zsum_cons. lia.
    + apply execute_trade_refused in E. subst self1.
      destruct (IH self trades) as (new & Ht & Hl & Hcash & Hpos).
      exists new. split_and!; try assumption. simpl. lia.
Qed.

Lemma Qsum_app (l k : list Q) : (Qsum (l ++ k) == Qsum l + Qsum k)%Q.
Proof.
  induction l as [|x l IH]; simpl.
  - unfold Qsum at 2. simpl. ring.
  - rewrite !Qsum_cons, IH. ring.
Qed.

Lemma Zsum_app (l k : list Z) : Zsum (l ++ k) = Zsum l + Zsum k.
Proof.
  induction l as [|x l IH]; simpl; [reflexivity|].
  rewrite !Zsum_cons, IH. lia.
Qed.

Lemma simulate_from_accounting config (data : Data) i dates st :
  exists new,
    loop_trades (simulate_from config data i dates st)
    = (loop_trades st ++ new)%list /\
    (cash (loop_portfolio (simulate_from config data i dates st))
     == cash (loop_portfolio st) + Qsum (map cash_flow new))%Q /\
    forall s,
      position_of
        (positions (loop_portfolio (simulate_from config data i dates st))) s
      = position_of (positions (loop_portfolio st)) s
        + Zsum (map (signed_quantity s) new).
Proof.
  revert i st. induction dates as [|d dates IH]; intros i st; simpl.
  - exists []. rewrite app_nil_r. split_and!; [done| |].
    + unfold Qsum. simpl. ring.
    + intros s. unfold Zsum. simpl. lia.
  - destruct (execute_signals_accounting d
                (update_prices (loop_portfolio st) d (current_prices_at data d))
                (loop_trades st) (_simulate_trading_signals config d data i))
      as (new1 & Ht1 & _ & Hc1 & Hp1).
    assert (Hday :
      loop_trades (simulate_day config data st i d)
      = (loop_trades st ++ new1)%list /\
      (cash (loop_portfolio (simulate_day config data st i d))
       == cash (loop_portfolio st) + Qsum (map cash_flow new1))%Q /\
      forall s,
        position_of (positions (loop_portfolio (simulate_day config data st i d)))
          s
        = position_of (positions (loop_portfolio st)) s
          + Zsum (map (signed_quantity s) new1)).
    { unfold simulate_day. destruct (execute_signals _ _ _) as [p2 t2].
      simpl in *. by split_and!. }
    destruct Hday as (Ht & Hc & Hp).
    destruct (IH (S i) (simulate_day config data st i d))
      as (new & Hnew & Hcash & Hpos).
    exists (new1 ++ new)%list. split_and!.
    + by rewrite Hnew, Ht, <- app_assoc.
    + rewrite Hcash, Hc, map_app, Qsum_app. ring.
    + intros s. rewrite Hpos, Hp, map_app, Zsum_app. lia.
Qed.

(** X1. Cash and position accounting of a run.  The trades a run appends
    account exactly for its portfolio: the final cash is the initial
    capital plus the sum of their cash flows (minus cost and commission
    for a BUY, plus proceeds net of commission for a SELL), and the held
    quantity of every symbol is the sum of their signed quantities. *)
Theorem simulate_accounting config (data : Data) (trades : list Trade.t)
    (equity_curve : list EquityPoint.t) :
  let run := simulate config data trades equity_curve in
  exists new,
    loop_trades run = (trades ++ new)%list /\
    (cash (loop_portfolio run)
     == BacktestConfig.initial_capital config + Qsum (map cash_flow new))%Q /\
    forall s,
      position_of (positions (loop_portfolio run)) s
      = Zsum (map (signed_quantity s) new).
Proof.
  cbv zeta. unfold simulate.
  match goal with
  | |- context [simulate_from ?c ?d ?i ?ds ?st] =>
      destruct (simulate_from_accounting c d i ds st)
        as (new & Hnew & Hcash & Hpos)
  end.
  exists new. split_and!; [exact Hnew | exact Hcash |].
  intros s. rewrite Hpos. simpl. unfold position_of at 1.
  rewrite lookup_empty. simpl. lia.
Qed.



(** X3. What [execute_trade] never touches.  Whether the trade is
    accepted or not, the call leaves the price table, the recorded total
    value and positions value, the rates and the initial capital as they
    were, and changes the position entry of no other symbol. *)
Theorem execute_trade_frame self symbol side quantity price date reason :
  let self' :=
    fst (execute_trade self symbol side quantity price date reason) in
  current_prices self' = current_prices self /\
  total_value self' = total_value self /\
  positions_value self' = positions_value self /\
  commission self' = commission self /\
  slippage self' = slippage self /\
  initial_capital self' = initial_capital self /\
  forall s, s <> symbol -> positions self' !! s = positions self !! s.
Proof.
  unfold execute_trade.
  destruct (decide (side = "BUY")) as [->|Hb].
  - destruct (Qle_bool _ _); simpl; split_and!; try reflexivity.
    intros s Hne. by rewrite lookup_insert_ne.
  - destruct (decide (side = "SELL")) as [->|Hs]; [|by split_and!].
    destruct (_ <=? _)%Z; [|by split_and!].
    simpl. split_and!; try reflexivity.
    intros s Hne. destruct (_ =? _)%Z.
    + by rewrite lookup_delete_ne, lookup_insert_ne.
    + by rewrite lookup_insert_ne.
Qed.

Lemma Qplus_swap (y a b : Q) : (y + b + a == y + a + b)%Q.
Proof. ring. Qed.

(** The valuation of the symbols that have a price. *)
Lemma value_of_positions_unheld (held : gmap string Z) (prices : gmap string Q) :
  (forall s p, prices !! s = Some p -> position_of held s = 0) ->
  (value_of_positions held prices == 0)%Q.
Proof.
  unfold value_of_positions.
  apply (map_fold_weak_ind
           (fun r m => (forall s p, m !! s = Some p -> position_of held s = 0)
                       -> (r == 0)%Q)).
  - intros _. reflexivity.
  - intros i x m r Hi IH H.
    rewrite (H i x) by apply lookup_insert_eq.
    rewrite IH; [change (inject_Z 0) with 0%Q; ring|].
    intros s p Hs. apply (H s p).
    rewrite lookup_insert_ne; [exact Hs|]. intros ->. congruence.
Qed.

Lemma value_of_positions_nonneg (held : gmap string Z) (prices : gmap string Q) :
  (forall s p, prices !! s = Some p ->
               0 <= position_of held s /\ (0 <= p)%Q) ->
  (0 <= value_of_positions held prices)%Q.
Proof.
  unfold value_of_positions.
  apply (map_fold_weak_ind
           (fun r m => (forall s p, m !! s = Some p ->
                                    0 <= position_of held s /\ (0 <= p)%Q)
                       -> (0 <= r)%Q)).
  - intros _. apply Qle_refl.
  - intros i x m r Hi IH H.
    destruct (H i x) as [Hq Hx]; [apply lookup_insert_eq|].
    assert (Hr : (0 <= r)%Q).
    { apply IH. intros s p Hs. apply (H s p).
      rewrite lookup_insert_ne; [exact Hs|]. intros ->. congruence. }
    assert (Hq' : (0 <= inject_Z (position_of held i))%Q)
      by (change 0%Q with (inject_Z 0); by rewrite <- Zle_Qle).
    pose proof (Qmult_le_0_compat _ _ Hq' Hx). lra.
Qed.

Lemma value_of_positions_split (held : gmap string Z) (prices : gmap string Q)
    (s : string) (p : Q) :
  prices !! s = Some p ->
  (value_of_positions held prices
   == value_of_positions held (delete s prices)
      + inject_Z (position_of held s) * p)%Q.
Proof.
  intros Hs. unfold value_of_positions.
  exact (map_fold_delete Qeq
           (fun symbol price acc =>
              (acc + inject_Z (position_of held symbol) * price)%Q)
           0%Q s p prices
           (fun j z a b Hab => Qplus_comp _ _ Hab _ _ (Qeq_refl _))
           (fun j1 j2 z1 z2 y _ _ _ =>
              Qplus_swap y (inject_Z (position_of held j1) * z1)
                (inject_Z (position_of held j2) * z2))
           Hs).
Qed.

(** X4. Valuation by [update_prices].  After the call the recorded total
    value is the cash plus the recorded positions value, and the latter
    counts each held symbol at its latest known price: a portfolio holding
    a single symbol is valued at its quantity times that price, and at 0
    as long as no price is known for it. *)
Theorem update_prices_single_holding self date (prices : gmap string Q)
    symbol :
  (forall s, s <> symbol -> position_of (positions self) s = 0) ->
  let self' := update_prices self date prices in
  total_value self' = (cash self' + positions_value self')%Q /\
  cash self' = cash self /\ positions self' = positions self /\
  (positions_value self'
   == inject_Z (position_of (positions self) symbol)
      * default 0%Q ((prices ∪ current_prices self) !! symbol))%Q.
Proof.
  intros Hother. simpl. split_and!; try reflexivity.
  destruct ((prices ∪ current_prices self) !! symbol) as [p|] eqn:Hp; simpl.
  - rewrite (value_of_positions_split _ _ _ _ Hp).
    rewrite value_of_positions_unheld; [ring|].
    intros s q Hs. apply Hother. intros ->.
    rewrite lookup_delete_eq in Hs. discriminate.
  - rewrite value_of_positions_unheld; [ring|].
    intros s q Hs. apply Hother. intros ->. congruence.
Qed.

Lemma update_prices_single_holding_witness :
  let self' :=
    update_prices (fst round_trip_buy) 2 {[ "TEST" := 110%Q ]} in
  total_value self' = (cash self' + positions_value self')%Q /\
  cash self' = cash (fst round_trip_buy) /\
  positions self' = positions (fst round_trip_buy) /\
  (positions_value self'
   == inject_Z (position_of (positions (fst round_trip_buy)) "TEST")
      * default 0%Q (({[ "TEST" := 110%Q ]}
                      ∪ current_prices (fst round_trip_buy)) !! "TEST"))%Q.
Proof.
  apply (update_prices_single_holding (fst round_trip_buy) 2
           {[ "TEST" := 110%Q ]} "TEST").
  intros s Hne. unfold position_of.
  change (positions (fst round_trip_buy))
    with (<[ "TEST" := 100 ]> (∅ : gmap string Z)).
  rewrite lookup_insert_ne by congruence. reflexivity.
Defined.

(** X5. A portfolio without short positions is never valued below its
    cash: when every held quantity and every known price is non-negative,
    [update_prices] records a non-negative positions value and a total
    value of at least the cash. *)
Theorem update_prices_value_nonneg self date (prices : gmap string Q) :
  (forall s q, positions self !! s = Some q -> 0 <= q) ->
  (forall s p, (prices ∪ current_prices self) !! s = Some p -> (0 <= p)%Q) ->
  let self' := update_prices self date prices in
  (0 <= positions_value self')%Q /\ (cash self' <= total_value self')%Q.
Proof.
  intros Hheld Hprices. simpl.
  assert (H : (0 <= value_of_positions (positions self)
                      (prices ∪ current_prices self))%Q).
  { apply value_of_positions_nonneg. intros s p Hs. split; [|by eapply Hprices].
    unfold position_of.
    destruct (positions self !! s) as [q|] eqn:Hq; simpl; [eauto | lia]. }
  split; [exact H | lra].
Qed.

Lemma update_prices_value_nonneg_witness :
  let self' :=
    update_prices (fst round_trip_buy) 2 {[ "TEST" := 110%Q ]} in
  (0 <= positions_value self')%Q /\ (cash self' <= total_value self')%Q.
Proof.
  apply (update_prices_value_nonneg (fst round_trip_buy) 2
           {[ "TEST" := 110%Q ]}).
  - change (positions (fst round_trip_buy))
      with (<[ "TEST" := 100 ]> (∅ : gmap string Z)).
    intros s q. rewrite lookup_insert. case_decide.
    + intros [= <-]. lia.
    + rewrite lookup_empty. discriminate.
  - change (current_prices (fst round_trip_buy)) with (∅ : gmap string Q).
    rewrite (right_id_L ∅ (∪)). intros s p.
    rewrite lookup_singleton. case_decide; [|discriminate].
    intros [= <-]. unfold Qle. simpl. lia.
Defined.

End PortfolioAccounting.

(** * Properties of the momentum rule *)
Section SignalFacts.

Lemma get_loc_lookup (df : DataFrame) (d : datetime) (k : nat) :
  Frame.get_loc df d = Some k ->
  exists c, df !! k = Some (d, c) /\ Frame.loc_close df d = Some c.
Proof.
  revert k. induction df as [|[d' c'] df IH]; intros k; simpl; [discriminate|].
  destruct (Z.eqb_spec d' d) as [->|Hne].
  - intros [= <-]. exists c'. by split.
  - destruct (Frame.get_loc df d) as [k'|]; simpl; [|discriminate].
    intros [= <-]. destruct (IH k' eq_refl) as (c & Hk & Hc).
    exists c. by split.
Qed.

Lemma last_lookup_default {A} (l : list A) (k : nat) (x d : A) :
  l !! k = Some x -> length l = S k -> List.last l d = x.
Proof.
  revert k. induction l as [|y l IH]; intros k; [discriminate|].
  destruct k as [|k]; simpl.
  - intros [= ->] Hlen. destruct l; [reflexivity | discriminate].
  - intros Hk Hlen. destruct l as [|z l]; [discriminate|].
    apply (IH k); [exact Hk | simpl in *; lia].
Qed.

(** The close the rule compares with the average is the close of the
    current date. *)
Lemma recent_current_price (df : DataFrame) (d : datetime) (k : nat) (c : Q) :
  df !! k = Some (d, c) -> (20 <= k)%nat ->
  List.last (Frame.close (Frame.iloc df (k - 19) (k + 1))) 0%Q = c.
Proof.
  intros Hk Hge. unfold Frame.close, Frame.iloc.
  replace (k + 1 - (k - 19))%nat with 20%nat by lia.
  apply (last_lookup_default _ 19).
  - rewrite list_lookup_fmap, lookup_take_lt by lia.
    rewrite lookup_drop.
    replace (k - 19 + 19)%nat with k by lia.
    exact (f_equal (fmap snd) Hk).
  - rewrite length_fmap, length_take, length_drop.
    apply lookup_lt_Some in Hk. lia.
Qed.

Lemma symbol_signals_shape current_date symbol symbol_data signal :
  signal ∈ symbol_signals current_date (symbol, symbol_data) ->
  Signal.symbol signal = symbol /\
  Signal.quantity signal = 100 /\
  (Signal.side signal = "BUY" \/ Signal.side signal = "SELL") /\
  exists end_idx,
    Frame.get_loc symbol_data current_date = Some end_idx /\
    (20 <= end_idx)%nat /\
    Frame.loc_close symbol_data current_date = Some (Signal.price signal).
Proof.
  unfold symbol_signals.
  destruct (negb _); [by intros ?%elem_of_nil|].
  destruct (Frame.get_loc symbol_data current_date) as [end_idx|] eqn:Hloc;
    [|by intros ?%elem_of_nil].
  destruct (Nat.ltb_spec end_idx 20) as [|Hge]; [by intros ?%elem_of_nil|].
  destruct (get_loc_lookup _ _ _ Hloc) as (c & Hk & Hc).
  rewrite (recent_current_price _ _ _ _ Hk Hge).
  destruct (Qlt_bool _ _).
  - intros ->%list_elem_of_singleton. simpl. split_and!; auto.
    exists end_idx. by split_and!.
  - destruct (Qlt_bool _ _); [|by intros ?%elem_of_nil].
    intros ->%list_elem_of_singleton. simpl. split_and!; auto.
    exists end_idx. by split_and!.
Qed.

(** X6. Shape of the signals.  A signal is emitted only from the 21st
    trading day on (index 20), only for a symbol of [data] that has a row
    at the current date with at least 20 rows before it; it asks for 100
    units, its side is BUY or SELL, and its price is the close of that
    symbol at the current date. *)
Theorem signals_shape config current_date (data : Data) day_index signal :
  signal ∈ _simulate_trading_signals config current_date data day_index ->
  (20 <= day_index)%nat /\
  Signal.quantity signal = 100 /\
  (Signal.side signal = "BUY" \/ Signal.side signal = "SELL") /\
  exists symbol_data end_idx,
    (Signal.symbol signal, symbol_data) ∈ data /\
    Frame.get_loc symbol_data current_date = Some end_idx /\
    (20 <= end_idx)%nat /\
    Frame.loc_close symbol_data current_date = Some (Signal.price signal).
Proof.
  unfold _simulate_trading_signals.
  destruct (Nat.ltb_spec day_index 20) as [|Hge]; [by intros ?%elem_of_nil|].
  intros Hin. apply list_elem_of_In, in_flat_map in Hin
    as ([symbol symbol_data] & Hentry & Hin).
  apply list_elem_of_In in Hentry, Hin.
  destruct (symbol_signals_shape _ _ _ _ Hin)
    as (Hsym & Hq & Hside & end_idx & Hloc & Hidx & Hc).
  split_and!; try assumption.
  exists symbol_data, end_idx. rewrite Hsym. by split_and!.
Qed.

Lemma signals_shape_witness :
  exists signal,
    signal ∈ _simulate_trading_signals momentum_config 21 momentum_data 20 /\
    Signal.quantity signal = 100 /\ Signal.side signal = "BUY" /\
    Signal.price signal = 110%Q.
Proof.
  eexists. split; [vm_compute; apply list_elem_of_here|].
  match goal with
  | |- Signal.quantity ?sg = _ /\ _ =>
      destruct (signals_shape momentum_config 21 momentum_data 20 sg)
        as (_ & Hq & _);
      [vm_compute; apply list_elem_of_here | split; [exact Hq | by split]]
  end.
Defined.

Lemma Qsum_constant (l : list Q) (c : Q) :
  Forall (fun x => (x == c)%Q) l -> (Qsum l == Qlen l * c)%Q.
Proof.
  induction 1 as [|x l Hx _ IH].
  - unfold Qsum, Qlen. simpl. ring.
  - cbv beta in Hx. rewrite Qsum_cons, IH. unfold Qlen. simpl length.
    rewrite Hx.
    rewrite Nat2Z.inj_succ, <- Z.add_1_r, inject_Z_plus. ring.
Qed.

Lemma Qmean_constant (l : list Q) (c : Q) :
  Forall (fun x => (x == c)%Q) l -> l <> [] -> (Qmean l == c)%Q.
Proof.
  intros Hl Hne. unfold Qmean. rewrite (Qsum_constant l c Hl).
  unfold Qlen. field.
  destruct l as [|x l]; [done|].
  intros H. unfold Qeq in H. simpl in H. lia.
Qed.

Lemma last_constant (l : list Q) (c : Q) :
  Forall (fun x => (x == c)%Q) l -> l <> [] -> (List.last l 0 == c)%Q.
Proof.
  induction 1 as [|x l Hx Hl IH]; [done|]. intros _.
  destruct l as [|y l]; [exact Hx|].
  change (List.last (x :: y :: l) 0%Q) with (List.last (y :: l) 0%Q).
  by apply IH.
Qed.



End SignalFacts.

(** * The trading calendar and the equity curve *)
Section CalendarFacts.

Lemma insert_date_elem (d d' : datetime) (l : list datetime) :
  d' ∈ insert_date d l <-> d' = d \/ d' ∈ l.
Proof.
  induction l as [|x l IH]; simpl.
  - rewrite list_elem_of_singleton. split; [by left | by intros [|?%elem_of_nil]].
  - destruct (Z.ltb_spec d x) as [|Hge].
    + by rewrite (elem_of_cons (x :: l)).
    + destruct (Z.eqb_spec d x) as [->|Hne].
      * rewrite elem_of_cons. tauto.
      * rewrite !elem_of_cons, IH. tauto.
Qed.

Lemma insert_date_sorted (d : datetime) (l : list datetime) :
  StronglySorted Z.lt l -> StronglySorted Z.lt (insert_date d l).
Proof.
  induction 1 as [|x l Hl IH Hx]; simpl.
  - repeat constructor.
  - destruct (Z.ltb_spec d x) as [Hlt|Hge].
    + constructor; [by constructor|].
      constructor; [exact Hlt|].
      eapply Forall_impl; [exact Hx|]. intros y Hy. simpl in Hy. lia.
    + destruct (Z.eqb_spec d x) as [->|Hne]; [by constructor|].
      constructor; [exact IH|].
      apply Forall_forall. intros y Hy.
      apply insert_date_elem in Hy as [->|Hy]; [lia|].
      revert y Hy. by apply Forall_forall.
Qed.

Lemma fold_insert_dates (rows : DataFrame) (acc : list datetime) :
  (StronglySorted Z.lt acc ->
   StronglySorted Z.lt
     (fold_left (fun acc' row => insert_date (fst row) acc') rows acc)) /\
  forall d,
    d ∈ fold_left (fun acc' row => insert_date (fst row) acc') rows acc
    <-> d ∈ acc \/ exists c, (d, c) ∈ rows.
Proof.
  revert acc. induction rows as [|[d0 c0] rows IH]; intros acc; simpl.
  - split; [done|]. intros d. split; [by left|].
    intros [?|[c ?%elem_of_nil]]; done.
  - destruct (IH (insert_date d0 acc)) as [IHs IHe]. split.
    + intros Hs. by apply IHs, insert_date_sorted.
    + intros d. rewrite IHe, insert_date_elem. split.
      * intros [[->|?]|[c Hc]]; [right; exists c0; apply list_elem_of_here
                                | by left
                                | right; exists c; by apply list_elem_of_further].
      * intros [?|[c Hc]]; [by left; right|].
        apply elem_of_cons in Hc as [[= -> ->]|Hc]; [by left; left|].
        right. by exists c.
Qed.

Lemma fold_frames_dates (data : Data) (acc : list datetime) :
  (StronglySorted Z.lt acc ->
   StronglySorted Z.lt
     (fold_left (fun acc entry =>
                   fold_left (fun acc' row => insert_date (fst row) acc')
                             (snd entry) acc)
                data acc)) /\
  forall d,
    d ∈ fold_left (fun acc entry =>
                     fold_left (fun acc' row => insert_date (fst row) acc')
                               (snd entry) acc)
                  data acc
    <-> d ∈ acc \/ exists symbol symbol_data c,
                     (symbol, symbol_data) ∈ data /\ (d, c) ∈ symbol_data.
Proof.
  revert acc. induction data as [|[symbol0 df0] data IH]; intros acc; simpl.
  - split; [done|]. intros d. split; [by left|].
    intros [?|(? & ? & ? & ?%elem_of_nil & _)]; done.
  - destruct (fold_insert_dates df0 acc) as [Hs0 He0].
    destruct (IH (fold_left (fun acc' row => insert_date (fst row) acc')
                            df0 acc)) as [IHs IHe].
    split; [intros Hs; by apply IHs, Hs0|].
    intros d. rewrite IHe, He0. split.
    + intros [[?|[c Hc]]|(symbol & df & c & Hin & Hc)].
      * by left.
      * right. exists symbol0, df0, c. split; [apply list_elem_of_here | done].
      * right. exists symbol, df, c. split; [by apply list_elem_of_further | done].
    + intros [?|(symbol & df & c & Hin & Hc)]; [by left; left|].
      apply elem_of_cons in Hin as [[= -> ->]|Hin].
      * left. right. by exists c.
      * right. by exists symbol, df, c.
Qed.

Lemma trading_dates_sorted (data : Data) :
  StronglySorted Z.lt (trading_dates data).
Proof.
  unfold trading_dates. apply (proj1 (fold_frames_dates data [])). constructor.
Qed.

(** X8. The trading calendar.  The dates the loop walks through are
    strictly increasing, hence without duplicate, and they are exactly
    the dates that index a row of some frame of [data]. *)
Theorem trading_dates_calendar (data : Data) :
  StronglySorted Z.lt (trading_dates data) /\
  forall d,
    d ∈ trading_dates data
    <-> exists symbol symbol_data c,
          (symbol, symbol_data) ∈ data /\ (d, c) ∈ symbol_data.
Proof.
  split; [apply trading_dates_sorted|].
  unfold trading_dates. destruct (fold_frames_dates data []) as [_ He].
  intros d. rewrite He. split; [|by right].
  intros [?%elem_of_nil|?]; done.
Qed.

Lemma simulate_from_curve config data i dates st :
  exists new,
    loop_equity_curve (simulate_from config data i dates st)
    = (loop_equity_curve st ++ new)%list /\
    map EquityPoint.date new = dates.
Proof.
  revert i st. induction dates as [|d dates IH]; intros i st; simpl.
  - exists []. by rewrite app_nil_r.
  - destruct (IH (S i) (simulate_day config data st i d)) as (new & Hc & Hd).
    assert (Hday : loop_equity_curve (simulate_day config data st i d)
                   = (loop_equity_curve st
                      ++ [equity_point d
                            (loop_portfolio (simulate_day config data st i d))])%list).
    { unfold simulate_day. by destruct (execute_signals _ _ _). }
    exists (equity_point d (loop_portfolio (simulate_day config data st i d))
            :: new).
    split.
    + rewrite Hc, Hday, <- app_assoc. reflexivity.
    + simpl. by rewrite Hd.
Qed.

(** X9. One equity point per trading date.  The loop keeps the points
    already recorded and appends exactly one point for each date of the
    calendar, in calendar order, so the appended dates are strictly
    increasing. *)
Theorem equity_curve_dates config (data : Data) (trades : list Trade.t)
    (equity_curve : list EquityPoint.t) :
  exists new,
    loop_equity_curve (simulate config data trades equity_curve)
    = (equity_curve ++ new)%list /\
    map EquityPoint.date new = trading_dates data /\
    StronglySorted Z.lt (map EquityPoint.date new).
Proof.
  unfold simulate.
  match goal with
  | |- context [simulate_from ?c ?d ?i ?ds ?st] =>
      destruct (simulate_from_curve c d i ds st) as (new & Hc & Hd)
  end.
  exists new. simpl in Hc. split_and!; [exact Hc | exact Hd |].
  rewrite Hd. apply trading_dates_sorted.
Qed.

(** A portfolio that has not traded yet. *)
Lemma update_prices_untraded (self : BacktestPortfolio.t) date prices :
  BacktestPortfolio.positions self = ∅ ->
  let self' := BacktestPortfolio.update_prices self date prices in
  BacktestPortfolio.positions self' = ∅ /\
  BacktestPortfolio.cash self' = BacktestPortfolio.cash self /\
  (BacktestPortfolio.positions_value self' == 0)%Q /\
  BacktestPortfolio.total_value self'
  = (BacktestPortfolio.cash self'
     + BacktestPortfolio.positions_value self')%Q.
Proof.
  intros Hempty. simpl. split_and!; try done.
  apply value_of_positions_unheld. intros s p _.
  unfold BacktestPortfolio.position_of. by rewrite Hempty, lookup_empty.
Qed.

Lemma simulate_from_short config data i dates st :
  (i + length dates <= 20)%nat ->
  BacktestPortfolio.positions (loop_portfolio st) = ∅ ->
  let run := simulate_from config data i dates st in
  loop_trades run = loop_trades st /\
  BacktestPortfolio.positions (loop_portfolio run) = ∅ /\
  BacktestPortfolio.cash (loop_portfolio run)
  = BacktestPortfolio.cash (loop_portfolio st) /\
  exists new,
    loop_equity_curve run = (loop_equity_curve st ++ new)%list /\
    Forall (fun pt =>
              EquityPoint.cash pt = BacktestPortfolio.cash (loop_portfolio st)
              /\ (EquityPoint.positions_value pt == 0)%Q
              /\ EquityPoint.equity pt
                 = (EquityPoint.cash pt + EquityPoint.positions_value pt)%Q)
           new.
Proof.
  revert i st. induction dates as [|d dates IH]; intros i st Hlen Hempty; simpl.
  - split_and!; try done. exists []. by rewrite app_nil_r.
  - simpl in Hlen.
    assert (Hsig : _simulate_trading_signals config d data i = []).
    { unfold _simulate_trading_signals.
      destruct (Nat.ltb_spec i 20); [reflexivity | lia]. }
    pose proof (update_prices_untraded (loop_portfolio st) d
                  (current_prices_at data d) Hempty) as Hup.
    cbv zeta in Hup. destruct Hup as (Hp & Hc & Hv & Ht).
    assert (Hday : simulate_day config data st i d
                   = {| loop_portfolio :=
                          BacktestPortfolio.update_prices (loop_portfolio st) d
                            (current_prices_at data d);
                        loop_trades := loop_trades st;
                        loop_equity_curve :=
                          (loop_equity_curve st
                           ++ [equity_point d
                                 (BacktestPortfolio.update_prices
                                    (loop_portfolio st) d
                                    (current_prices_at data d))])%list |}).
    { unfold simulate_day. rewrite Hsig. reflexivity. }
    pose proof (IH (S i) (simulate_day config data st i d)) as IH'.
    cbv zeta in IH'.
    destruct IH' as (Htr & Hpos & Hcash & new & Hcurve & Hnew);
      [lia | by rewrite Hday |].
    rewrite Hday in Htr, Hpos, Hcash, Hcurve, Hnew.
    simpl in Htr, Hcash, Hcurve, Hnew.
    rewrite Hday.
    split; [exact Htr|]. split; [exact Hpos|]. split; [exact Hcash|].
    exists (equity_point d
              (BacktestPortfolio.update_prices (loop_portfolio st) d
                 (current_prices_at data d)) :: new).
    split; [by rewrite Hcurve, <- app_assoc|].
    apply Forall_cons. split; [by split_and!|exact Hnew].
Qed.

(** X10. A run too short to trade.  When the calendar has at most 20
    dates the rule never fires: the loop appends no trade, and every
    point it appends records the initial capital as cash, a zero
    positions value and an equity equal to their sum. *)
Theorem short_run_no_trade config (data : Data) (trades : list Trade.t)
    (equity_curve : list EquityPoint.t) :
  (length (trading_dates data) <= 20)%nat ->
  let run := simulate config data trades equity_curve in
  loop_trades run = trades /\
  exists new,
    loop_equity_curve run = (equity_curve ++ new)%list /\
    Forall (fun pt =>
              EquityPoint.cash pt = BacktestConfig.initial_capital config
              /\ (EquityPoint.positions_value pt == 0)%Q
              /\ EquityPoint.equity pt
                 = (EquityPoint.cash pt + EquityPoint.positions_value pt)%Q)
           new.
Proof.
  intros Hlen. unfold simulate.
  match goal with
  | |- context [simulate_from ?c ?d ?i ?ds ?st] =>
      pose proof (simulate_from_short c d i ds st) as H
  end.
  cbv zeta in H.
  destruct H as (Htr & _ & _ & new & Hc & Hn); [simpl; lia | reflexivity |].
  split; [exact Htr|]. exists new. by split.
Qed.

Lemma short_run_no_trade_witness :
  let run := simulate momentum_config one_day_data [] [] in
  loop_trades run = [] /\
  exists new,
    loop_equity_curve run = ([] ++ new)%list /\
    Forall (fun pt =>
              EquityPoint.cash pt
              = BacktestConfig.initial_capital momentum_config
              /\ (EquityPoint.positions_value pt == 0)%Q
              /\ EquityPoint.equity pt
                 = (EquityPoint.cash pt + EquityPoint.positions_value pt)%Q)
           new.
Proof.
  apply (short_run_no_trade momentum_config one_day_data [] []).
  simpl. lia.
Defined.

Lemma execute_trade_record (self : BacktestPortfolio.t) symbol side
    quantity price date reason self' t :
  BacktestPortfolio.execute_trade self symbol side quantity price date reason
    = (self', Some t) ->
  BacktestPortfolio.slippage self' = BacktestPortfolio.slippage self /\
  Trade.symbol t = symbol /\ Trade.quantity t = quantity /\
  Trade.entry_date t = date /\ Trade.pnl t = None /\
  ((side = "BUY" /\ Trade.side t = "BUY" /\ Trade.exit_date t = None /\
    Trade.entry_price t
    = (price * (1 + BacktestPortfolio.slippage self))%Q)
   \/ (side = "SELL" /\ Trade.side t = "SELL" /\
       Trade.exit_date t = Some date /\
       Trade.entry_price t
       = (price * (1 - BacktestPortfolio.slippage self))%Q)).
Proof.
  unfold BacktestPortfolio.execute_trade, BacktestPortfolio.execution_price.
  intros H. destruct (decide (side = "BUY")) as [->|Hb].
  - destruct (Qle_bool _ _); [|discriminate].
    injection H as <- <-. simpl. split_and!; try reflexivity.
    left. by split_and!.
  - destruct (decide (side = "SELL")) as [->|Hs]; [|discriminate].
    destruct (_ <=? _)%Z; [|discriminate].
    injection H as <- <-. simpl. split_and!; try reflexivity.
    right. by split_and!.
Qed.

Lemma execute_signals_shape current_date (data : Data) (sl : Q)
    (signals : list Signal.t) (self : BacktestPortfolio.t)
    (trades : list Trade.t) :
  BacktestPortfolio.slippage self = sl ->
  Forall (fun signal =>
            Signal.quantity signal = 100 /\
            (Signal.side signal = "BUY" \/ Signal.side signal = "SELL") /\
            exists symbol_data,
              (Signal.symbol signal, symbol_data) ∈ data /\
              Frame.loc_close symbol_data current_date
              = Some (Signal.price signal))
         signals ->
  BacktestPortfolio.slippage
    (fst (execute_signals current_date (self, trades) signals)) = sl /\
  exists new,
    snd (execute_signals current_date (self, trades) signals)
    = (trades ++ new)%list /\
    Forall (fun t => loop_trade sl data t /\
                     Trade.entry_date t = current_date) new.
Proof.
  unfold execute_signals. revert self trades.
  induction signals as [|signal signals IH]; intros self trades Hsl Hsig.
  - simpl. split; [exact Hsl|]. exists []. by rewrite app_nil_r.
  - apply Forall_cons in Hsig as [(Hq & Hside & df & Hin & Hc) Hsig]. simpl.
    destruct (BacktestPortfolio.execute_trade self _ _ _ _ _ _)
      as [self1 [t|]] eqn:E.
    + destruct (execute_trade_record _ _ _ _ _ _ _ _ _ E)
        as (Hsl1 & Hsym & Hqt & Hdate & Hpnl & Hshape).
      destruct (IH self1 (trades ++ [t])%list) as (Hsl' & new & Hnew & Hall);
        [congruence | exact Hsig |].
      split; [exact Hsl'|]. exists (t :: new).
      split; [by rewrite Hnew, <- app_assoc|].
      apply Forall_cons. split; [|exact Hall]. split; [|exact Hdate].
      unfold loop_trade. split; [congruence|]. split; [exact Hpnl|].
      exists df, (Signal.price signal). rewrite Hsym, Hdate.
      split; [exact Hin|]. split; [exact Hc|].
      rewrite <- Hsl.
      destruct Hshape as [(_ & ? & ? & ?)|(_ & ? & ? & ?)];
        [left | right]; by split_and!.
    + assert (self1 = self) as ->.
      { revert E. unfold BacktestPortfolio.execute_trade.
        repeat case_decide; repeat case_match; congruence. }
      by apply IH.
Qed.

Lemma simulate_from_shape config (data : Data) (sl : Q) i dates st :
  BacktestPortfolio.slippage (loop_portfolio st) = sl ->
  exists new,
    loop_trades (simulate_from config data i dates st)
    = (loop_trades st ++ new)%list /\
    Forall (fun t => loop_trade sl data t /\ Trade.entry_date t ∈ dates) new.
Proof.
  revert i st. induction dates as [|d dates IH]; intros i st Hsl; simpl.
  - exists []. by rewrite app_nil_r.
  - assert (Hsignals :
      Forall (fun signal =>
                Signal.quantity signal = 100 /\
                (Signal.side signal = "BUY" \/ Signal.side signal = "SELL") /\
                exists symbol_data,
                  (Signal.symbol signal, symbol_data) ∈ data /\
                  Frame.loc_close symbol_data d = Some (Signal.price signal))
             (_simulate_trading_signals config d data i)).
    { apply Forall_forall. intros signal Hin.
      unfold _simulate_trading_signals in Hin.
      destruct (i <? 20)%nat; [by apply elem_of_nil in Hin|].
      apply list_elem_of_In, in_flat_map in Hin
        as ([symbol symbol_data] & Hentry & Hin).
      apply list_elem_of_In in Hentry, Hin.
      destruct (symbol_signals_shape _ _ _ _ Hin)
        as (Hsym & Hq & Hside & end_idx & _ & _ & Hc).
      split_and!; try assumption. exists symbol_data. rewrite Hsym. by split. }
    destruct (execute_signals_shape d data sl
                (_simulate_trading_signals config d data i)
                (BacktestPortfolio.update_prices (loop_portfolio st) d
                   (current_prices_at data d))
                (loop_trades st) Hsl Hsignals) as (Hsl1 & new1 & Hnew1 & Hall1).
    assert (Hday : BacktestPortfolio.slippage
                     (loop_portfolio (simulate_day config data st i d)) = sl
                   /\ loop_trades (simulate_day config data st i d)
                      = (loop_trades st ++ new1)%list).
    { unfold simulate_day. destruct (execute_signals _ _ _). by split. }
    destruct Hday as [Hsl2 Htr2].
    destruct (IH (S i) (simulate_day config data st i d) Hsl2)
      as (new & Hnew & Hall).
    exists (new1 ++ new)%list. split.
    + by rewrite Hnew, Htr2, <- app_assoc.
    + apply Forall_app. split.
      * eapply Forall_impl; [exact Hall1|]. intros t [Ht Hd].
        split; [exact Ht|]. rewrite Hd. apply list_elem_of_here.
      * eapply Forall_impl; [exact Hall|]. intros t [Ht Hin].
        split; [exact Ht | by apply list_elem_of_further].
Qed.

Lemma simulate_trades_shape_aux config (data : Data) (trades : list Trade.t)
    (equity_curve : list EquityPoint.t) :
  (exists new,
      loop_trades (simulate config data trades equity_curve)
      = (trades ++ new)%list) /\
  (exists new,
      loop_equity_curve (simulate config data trades equity_curve)
      = (equity_curve ++ new)%list).
Proof.
  unfold simulate. split.
  - match goal with
    | |- context [simulate_from ?c ?d ?i ?ds ?st] =>
        destruct (simulate_from_shape c d (BacktestConfig.slippage config)
                    i ds st eq_refl) as (new & Hnew & _)
    end.
    by exists new.
  - match goal with
    | |- context [simulate_from ?c ?d ?i ?ds ?st] =>
        destruct (simulate_from_curve c d i ds st) as (new & Hc & _)
    end.
    by exists new.
Qed.

(** X11. Shape of the trades of a run.  The loop keeps the trades
    already recorded; every trade it appends is for 100 units of a symbol
    of [data], is dated on a trading date, is priced at that symbol's
    close of that date times [1 + slippage] (BUY, left open) or
    [1 - slippage] (SELL, closed on the same date), and has no [pnl]. *)
Theorem simulate_trades_shape config (data : Data) (trades : list Trade.t)
    (equity_curve : list EquityPoint.t) :
  exists new,
    loop_trades (simulate config data trades equity_curve)
    = (trades ++ new)%list /\
    Forall (fun t => loop_trade (BacktestConfig.slippage config) data t /\
                     Trade.entry_date t ∈ trading_dates data) new.
Proof.
  unfold simulate.
  match goal with
  | |- context [simulate_from ?c ?d ?i ?ds ?st] =>
      destruct (simulate_from_shape c d (BacktestConfig.slippage config)
                  i ds st eq_refl) as (new & Hnew & Hall)
  end.
  exists new. split; [exact Hnew | exact Hall].
Qed.

End CalendarFacts.

(** * Further properties of the trade statistics *)
Section StatisticsFacts.

Lemma Qlen_nonempty {A} (l : list A) :
  nonempty l = true -> Qeq_bool (Qlen l) 0 = false.
Proof.
  destruct l as [|x l]; [discriminate|]. intros _.
  destruct (Qeq_bool (Qlen (x :: l)) 0) eqn:E; [|reflexivity].
  apply Qeq_bool_iff in E. unfold Qlen, Qeq in E. simpl in E. lia.
Qed.

Lemma Qlen_le {A} (l k : list A) :
  (length l <= length k)%nat -> (Qlen l <= Qlen k)%Q.
Proof.
  intros H. unfold Qlen. rewrite <- Zle_Qle. lia.
Qed.

Lemma Qlen_pos {A} (l : list A) : nonempty l = true -> (0 < Qlen l)%Q.
Proof.
  destruct l as [|x l]; [discriminate|]. intros _.
  unfold Qlen, Qlt. simpl. lia.
Qed.

Lemma Qlt_bool_true (x y : Q) : Qlt_bool x y = true <-> (x < y)%Q.
Proof.
  unfold Qlt_bool. rewrite negb_true_iff. split.
  - intros H. apply Qnot_le_lt. intros Hle.
    apply Qle_bool_iff in Hle. congruence.
  - intros H. destruct (Qle_bool y x) eqn:E; [|reflexivity].
    apply Qle_bool_iff in E. exfalso. by apply (Qlt_not_le _ _ H).
Qed.

(** The bounds of a quotient of two counts. *)
Lemma count_ratio_bounds (a b : Q) :
  (0 <= a)%Q -> (a <= b)%Q -> (0 < b)%Q ->
  (0 <= a / b)%Q /\ (a / b <= 1)%Q.
Proof.
  intros Ha Hab Hb. split.
  - apply Qle_shift_div_l; [exact Hb|]. lra.
  - apply Qle_shift_div_r; [exact Hb|]. lra.
Qed.

(** X12. The trade statistics never raise.  Whatever the trades and
    their [pnl], both divisions are guarded: the statistics are computed,
    the win rate lies between 0 and 1, and the winning and losing trades
    are disjoint parts of the closed trades, which are part of the
    trades. *)
Theorem trade_statistics_total (trades : list Trade.t) :
  exists stats w,
    trade_statistics trades = Some stats /\
    TradeStats.win_rate stats = Finite w /\
    (0 <= w)%Q /\ (w <= 1)%Q /\
    (TradeStats.winning_trades stats + TradeStats.losing_trades stats
     <= TradeStats.total_trades stats)%nat /\
    (TradeStats.total_trades stats <= length trades)%nat.
Proof.
  unfold trade_statistics.
  set (completed := filter (fun t => is_completed t = true) trades).
  set (winning := filter (fun t => is_winning t = true) completed).
  set (losing := filter (fun t => is_losing t = true) completed).
  assert (Hw : (length winning <= length completed)%nat)
    by apply length_filter.
  assert (Hdisj : (length winning + length losing <= length completed)%nat).
  { unfold winning, losing. clear. induction completed as [|t l IH];
      [reflexivity|].
    destruct (decide (is_winning t = true)) as [Hwin|Hwin],
             (decide (is_losing t = true)) as [Hlos|Hlos].
    - exfalso. unfold is_winning, is_losing in Hwin, Hlos.
      destruct (Trade.pnl t) as [x|]; [|discriminate].
      apply andb_true_iff in Hwin as [_ Hwin], Hlos as [_ Hlos].
      apply Qlt_bool_true in Hwin, Hlos. lra.
    - rewrite filter_cons_True, filter_cons_False by assumption. simpl. lia.
    - rewrite filter_cons_False, filter_cons_True by assumption. simpl. lia.
    - rewrite !filter_cons_False by assumption. simpl. lia. }
  assert (Hwr : exists w,
             (if nonempty completed
              then py_truediv (Qlen winning) (Qlen completed)
              else Some 0%Q) = Some w /\ (0 <= w)%Q /\ (w <= 1)%Q).
  { destruct (nonempty completed) eqn:Hne.
    - unfold py_truediv. rewrite (Qlen_nonempty _ Hne).
      eexists. split; [reflexivity|].
      apply count_ratio_bounds;
        [apply (Qlen_le (@nil Trade.t)); simpl; lia
        | by apply Qlen_le | by apply Qlen_pos].
    - exists 0%Q. split; [reflexivity|]. split; lra. }
  destruct Hwr as (w & -> & Hw0 & Hw1). simpl.
  assert (Hpf : exists pf,
             (if Qlt_bool 0
                   (if nonempty losing then Qabs (Qsum (pnls losing)) else 0%Q)
              then Finite <$>
                     py_truediv
                       (if nonempty winning then Qsum (pnls winning) else 0%Q)
                       (if nonempty losing
                        then Qabs (Qsum (pnls losing)) else 0%Q)
              else Some PosInf) = Some pf).
  { destruct (Qlt_bool 0 _) eqn:Hlt; [|by eexists].
    apply Qlt_bool_true in Hlt. unfold py_truediv.
    destruct (Qeq_bool _ 0) eqn:E; [|by eexists].
    apply Qeq_bool_iff in E. rewrite E in Hlt. lra. }
  destruct Hpf as (pf & ->). simpl.
  eexists _, w. split; [reflexivity|]. simpl.
  split_and!; try done. apply length_filter.
Qed.

Lemma pnls_filter_losing (l : list Trade.t) :
  Forall (fun x => (x < 0)%Q) (pnls (filter (fun t => is_losing t = true) l))
  /\ length (pnls (filter (fun t => is_losing t = true) l))
     = length (filter (fun t => is_losing t = true) l).
Proof.
  induction l as [|t l [IH1 IH2]]; [by split|].
  destruct (decide (is_losing t = true)) as [Hlos|Hlos].
  - rewrite filter_cons_True by assumption.
    unfold is_losing in Hlos. unfold pnls. simpl.
    destruct (Trade.pnl t) as [x|]; [|discriminate]. simpl.
    apply andb_true_iff in Hlos as [_ Hlos]. apply Qlt_bool_true in Hlos.
    split; [by apply Forall_cons | by f_equal].
  - by rewrite filter_cons_False.
Qed.

Lemma pnls_filter_winning (l : list Trade.t) :
  Forall (fun x => (0 < x)%Q) (pnls (filter (fun t => is_winning t = true) l)).
Proof.
  induction l as [|t l IH]; [constructor|].
  destruct (decide (is_winning t = true)) as [Hwin|Hwin].
  - rewrite filter_cons_True by assumption.
    unfold is_winning in Hwin. unfold pnls. simpl.
    destruct (Trade.pnl t) as [x|]; [|discriminate]. simpl.
    apply andb_true_iff in Hwin as [_ Hwin]. apply Qlt_bool_true in Hwin.
    by apply Forall_cons.
  - by rewrite filter_cons_False.
Qed.

Lemma Qsum_negative (l : list Q) :
  Forall (fun x => (x < 0)%Q) l -> l <> [] -> (Qsum l < 0)%Q.
Proof.
  induction 1 as [|x l Hx Hl IH]; [done|]. intros _.
  rewrite Qsum_cons. destruct l as [|y l].
  - unfold Qsum. simpl. lra.
  - assert (Qsum (y :: l) < 0)%Q by (by apply IH). lra.
Qed.

Lemma Qsum_nonnegative (l : list Q) :
  Forall (fun x => (0 < x)%Q) l -> (0 <= Qsum l)%Q.
Proof.
  induction 1 as [|x l Hx Hl IH].
  - unfold Qsum. simpl. lra.
  - rewrite Qsum_cons. lra.
Qed.



End StatisticsFacts.

(** * The data dictionary *)
Section DataFacts.
Import BacktestEngine.

Lemma dict_get_set {V} (d : list (string * V)) (k k' : string) (v : V) :
  dict_get (dict_set d k v) k'
  = if decide (k = k') then Some v else dict_get d k'.
Proof.
  induction d as [|[k0 v0] d IH]; simpl.
  - reflexivity.
  - destruct (decide (k0 = k)) as [->|Hne]; simpl.
    + destruct (decide (k = k')); reflexivity.
    + destruct (decide (k0 = k')) as [->|Hne'].
      * destruct (decide (k = k')); [congruence | reflexivity].
      * exact IH.
Qed.

Lemma dict_set_keys {V} (d : list (string * V)) (k : string) (v : V) :
  NoDup (map fst d) -> NoDup (map fst (dict_set d k v)) /\
  forall k', k' ∈ map fst (dict_set d k v) <-> k' = k \/ k' ∈ map fst d.
Proof.
  induction d as [|[k0 v0] d IH]; simpl; intros Hnd.
  - split; [repeat constructor; by intros ?%elem_of_nil|].
    intros k'. rewrite list_elem_of_singleton. split; [by left|].
    intros [?|?%elem_of_nil]; done.
  - apply NoDup_cons in Hnd as [Hk0 Hnd].
    destruct (decide (k0 = k)) as [->|Hne]; simpl.
    + split; [by apply NoDup_cons|].
      intros k'. rewrite elem_of_cons. tauto.
    + destruct (IH Hnd) as [IH1 IH2]. split.
      * apply NoDup_cons. split; [|exact IH1].
        rewrite IH2. intros [?|?]; congruence.
      * intros k'. rewrite !elem_of_cons, IH2. tauto.
Qed.

Lemma get_multiple_symbols_fold (fetch : string -> option DataFrame)
    (symbols : list string) (acc : Data) :
  NoDup (map fst acc) ->
  let data :=
    fold_left (fun data symbol =>
                 match fetch symbol with
                 | Some symbol_data => dict_set data symbol symbol_data
                 | None => data
                 end)
              symbols acc in
  NoDup (map fst data) /\
  forall s,
    dict_get data s
    = if decide (s ∈ symbols)
      then match fetch s with Some df => Some df | None => dict_get acc s end
      else dict_get acc s.
Proof.
  revert acc. induction symbols as [|symbol symbols IH]; intros acc Hnd;
    cbv zeta; cbn [fold_left].
  - split; [exact Hnd|]. intros s.
    rewrite decide_False by (by intros ?%elem_of_nil). reflexivity.
  - specialize (IH (match fetch symbol with
                    | Some symbol_data => dict_set acc symbol symbol_data
                    | None => acc
                    end)).
    cbv zeta in IH.
    destruct (fetch symbol) as [df|] eqn:Hf.
    + destruct (dict_set_keys acc symbol df Hnd) as [Hnd' _].
      destruct (IH Hnd') as [IH1 IH2].
      split; [exact IH1|]. intros s. rewrite IH2, dict_get_set.
      destruct (decide (s ∈ symbols)) as [Hin|Hin],
               (decide (s ∈ symbol :: symbols)) as [Hin'|Hin'].
      * destruct (fetch s) eqn:Hs; [reflexivity|].
        destruct (decide (symbol = s)) as [->|]; [congruence | reflexivity].
      * exfalso. apply Hin'. by apply list_elem_of_further.
      * apply elem_of_cons in Hin' as [->|?]; [|done].
        rewrite Hf. destruct (decide (symbol = symbol)); [reflexivity | done].
      * destruct (decide (symbol = s)) as [->|]; [|reflexivity].
        exfalso. apply Hin', list_elem_of_here.
    + destruct (IH Hnd) as [IH1 IH2]. split; [exact IH1|].
      intros s. rewrite IH2.
      destruct (decide (s ∈ symbols)) as [Hin|Hin],
               (decide (s ∈ symbol :: symbols)) as [Hin'|Hin'].
      * reflexivity.
      * exfalso. apply Hin'. by apply list_elem_of_further.
      * apply elem_of_cons in Hin' as [->|?]; [|done]. by rewrite Hf.
      * reflexivity.
Qed.

(** X14. What [get_multiple_symbols] returns.  The dictionary has an
    entry for a symbol exactly when the symbol was requested and the
    provider had a frame for it, the entry is that frame, and no key
    occurs twice, even when a symbol is requested several times. *)
Theorem get_multiple_symbols_lookup (fetch : string -> option DataFrame)
    (symbols : list string) :
  NoDup (map fst (get_multiple_symbols fetch symbols)) /\
  forall s,
    dict_get (get_multiple_symbols fetch symbols) s
    = if decide (s ∈ symbols) then fetch s else None.
Proof.
  unfold get_multiple_symbols.
  pose proof (get_multiple_symbols_fold fetch symbols [] (NoDup_nil_2 (A:=string))) as H.
  cbv zeta in H. destruct H as [Hnd Hget]. split; [exact Hnd|].
  intros s. rewrite Hget. simpl.
  destruct (decide (s ∈ symbols)); [|reflexivity].
  by destruct (fetch s).
Qed.

End DataFacts.

(** * Properties of the data provider *)
Section ProviderFacts.
Import DataProvider.

Lemma string_length_app (s t : string) :
  String.length (s +:+ t) = (String.length s + String.length t)%nat.
Proof. induction s as [|a s IH]; simpl; [reflexivity | by rewrite IH]. Qed.

Lemma string_app_inv_tail (s1 s2 t : string) :
  s1 +:+ t = s2 +:+ t -> s1 = s2.
Proof.
  revert s2. induction s1 as [|a s1 IH]; intros [|b s2] H.
  - reflexivity.
  - apply (f_equal String.length) in H.
    rewrite !string_length_app in H. simpl in H. lia.
  - apply (f_equal String.length) in H.
    rewrite !string_length_app in H. simpl in H. lia.
  - change (String a (s1 +:+ t) = String b (s2 +:+ t)) in H.
    injection H as -> H. f_equal. by apply IH.
Qed.

Lemma cache_key_inj (symbol symbol' start_date end_date : string) :
  cache_key symbol start_date end_date = cache_key symbol' start_date end_date
  -> symbol = symbol'.
Proof. unfold cache_key. apply string_app_inv_tail. Qed.

(** X15. The provider memoises successes only.  Once a request has
    returned a frame, the same request returns the same frame whatever
    [yfinance] would now answer, and the cache no longer changes; a
    request that returned nothing leaves the cache as it was, so the
    next one asks [yfinance] again. *)
Theorem get_historical_data_memo (cache : gmap string DataFrame)
    (symbol start_date end_date : string) (download : Download) :
  let '(cache', answer) :=
    get_historical_data cache symbol start_date end_date download in
  match answer with
  | Some data =>
      forall download',
        get_historical_data cache' symbol start_date end_date download'
        = (cache', Some data)
  | None => cache' = cache
  end.
Proof.
  unfold get_historical_data.
  destruct (cache !! cache_key symbol start_date end_date) as [data|] eqn:Hhit.
  - intros download'. by rewrite Hhit.
  - destruct download as [|rows]; [reflexivity|].
    destruct (negb (nonempty rows)); [reflexivity|].
    intros download'. by rewrite lookup_insert_eq.
Qed.

(** Requests of other symbols do not disturb what a symbol is answered. *)
Lemma fetch_stable (cache : gmap string DataFrame)
    (start_date end_date : string) (download : string -> Download)
    (symbol : string) :
  forall s,
    fetch (fst (get_historical_data cache symbol start_date end_date
                  (download symbol)))
          start_date end_date download s
    = fetch cache start_date end_date download s.
Proof.
  intros s. unfold fetch, get_historical_data at 2.
  destruct (cache !! cache_key symbol start_date end_date) as [data|] eqn:Hhit;
    [reflexivity|].
  destruct (download symbol) as [|rows] eqn:Hd; [reflexivity|].
  destruct (negb (nonempty rows)) eqn:Hrows; [reflexivity|]. simpl.
  unfold get_historical_data.
  destruct (decide (s = symbol)) as [->|Hne].
  - rewrite lookup_insert_eq, Hhit, Hd, Hrows. reflexivity.
  - rewrite lookup_insert_ne
      by (intros Hk; apply cache_key_inj in Hk; congruence).
    destruct (cache !! cache_key s start_date end_date); [reflexivity|].
    destruct (download s) as [|rows']; [reflexivity|].
    by destruct (negb (nonempty rows')).
Qed.

Lemma provider_fold (start_date end_date : string)
    (download : string -> Download) (symbols : list string)
    (cache : gmap string DataFrame) (data : Data) :
  snd (fold_left
         (fun st symbol =>
            let '(cache, data) := st in
            let '(cache', symbol_data) :=
              get_historical_data cache symbol start_date end_date
                (download symbol) in
            match symbol_data with
            | Some symbol_data => (cache', dict_set data symbol symbol_data)
            | None => (cache', data)
            end)
         symbols (cache, data))
  = fold_left (fun data symbol =>
                 match fetch cache start_date end_date download symbol with
                 | Some symbol_data => dict_set data symbol symbol_data
                 | None => data
                 end)
              symbols data.
Proof.
  revert cache data. induction symbols as [|symbol symbols IH];
    intros cache data; [reflexivity|].
  cbn [fold_left].
  pose proof (fetch_stable cache start_date end_date download symbol) as Hst.
  unfold fetch at 2.
  destruct (get_historical_data cache symbol start_date end_date
              (download symbol)) as [cache' answer].
  simpl in Hst. simpl snd.
  assert (Hfold : forall d,
             fold_left (fun data symbol =>
                          match fetch cache' start_date end_date download symbol
                          with
                          | Some symbol_data => dict_set data symbol symbol_data
                          | None => data
                          end) symbols d
             = fold_left (fun data symbol =>
                            match fetch cache start_date end_date download symbol
                            with
                            | Some symbol_data =>
                                dict_set data symbol symbol_data
                            | None => data
                            end) symbols d).
  { intros d. revert d. clear IH. induction symbols as [|y symbols IHs];
      intros d; [reflexivity|].
    cbn [fold_left]. rewrite Hst. apply IHs. }
  destruct answer as [df|]; rewrite IH; apply Hfold.
Qed.

(** X16. The cached provider and the function of its answers agree.
    [get_multiple_symbols], with the cache threaded from one request to
    the next, builds the dictionary that the registry builds from the
    function giving, for each symbol, the provider's answer at the
    initial cache. *)
Theorem provider_get_multiple_symbols (cache : gmap string DataFrame)
    (symbols : list string) (start_date end_date : string)
    (download : string -> Download) :
  snd (DataProvider.get_multiple_symbols cache symbols start_date end_date
         download)
  = BacktestEngine.get_multiple_symbols
      (fetch cache start_date end_date download) symbols.
Proof. apply provider_fold. Qed.

End ProviderFacts.

(** * Consistency of the registry under every interleaving *)
Section RegistryFacts.
Import BacktestEngine.

Variable pandas_equity_stats :
  list Q -> Q -> option (pyfloat * pyfloat * pyfloat * pyfloat * pyfloat).
Variable pandas_benchmark_return : DataFrame -> option pyfloat.
Variable numpy_sub : pyfloat -> pyfloat -> pyfloat.

Local Abbreviation finish :=
  (thread_finish pandas_equity_stats pandas_benchmark_return numpy_sub).
Local Abbreviation engine_step :=
  (step pandas_equity_stats pandas_benchmark_return numpy_sub).
Local Abbreviation engine_reachable :=
  (reachable pandas_equity_stats pandas_benchmark_return numpy_sub).

Lemma create_consistent self now config :
  registry_consistent self ->
  registry_consistent (fst (create_backtest self now config)).
Proof.
  intros (Ha & Hc & Ht). unfold create_backtest. simpl.
  split_and!; simpl.
  - intros id a. rewrite lookup_insert. case_decide as Hid.
    + intros [= <-]. eexists. split.
      { rewrite lookup_app_r, Nat.sub_diag by lia. reflexivity. }
      exact Hid.
    + intros Hin. destruct (Ha id a Hin) as (r & Hr & Hidr).
      exists r. split; [|exact Hidr]. by apply lookup_app_l_Some.
  - intros id a Hin.
    destruct (Hc id a Hin) as (r & Hr & Hidr & Hm & Hca & Hst & Hna).
    exists r. split_and!; try assumption; [by apply lookup_app_l_Some|].
    rewrite lookup_insert. case_decide; [|exact Hna].
    intros [= <-]. apply lookup_lt_Some in Hr. lia.
  - intros h id a Hin. destruct (Ht h id a Hin) as (r & Hr & Hidr).
    exists r. split; [|exact Hidr]. by apply lookup_app_l_Some.
Qed.

Lemma start_consistent self backtest_id :
  registry_consistent self ->
  registry_consistent (fst (start_backtest self backtest_id)).
Proof.
  intros (Ha & Hc & Ht). unfold start_backtest.
  destruct (active_backtests self !! backtest_id) as [addr|];
    [|by split_and!].
  destruct (heap self !! addr) as [result|]; [|by split_and!].
  case_decide; [by split_and!|]. simpl.
  split_and!; simpl; [exact Ha | exact Hc |].
  intros h id a Hin. apply (Ht h id a).
  apply lookup_app_Some in Hin as [Hin|[_ Hin]]; [exact Hin|].
  destruct (h - length (threads self))%nat as [|n]; simpl in Hin;
    [discriminate|].
  by rewrite lookup_nil in Hin.
Qed.

Lemma heap_insert_lookup (heap : list BacktestResult.t) addr result result' :
  heap !! addr = Some result ->
  forall a r,
    heap !! a = Some r ->
    exists r', <[addr := result']> heap !! a = Some r' /\
               (a <> addr -> r' = r) /\ (a = addr -> r' = result' /\ r = result).
Proof.
  intros Hres a r Hr. destruct (decide (a = addr)) as [->|Hne].
  - exists result'. rewrite list_lookup_insert_eq by (by eapply lookup_lt_Some).
    split_and!; [done | done |]. intros _. split; congruence.
  - exists r. rewrite list_lookup_insert_ne by congruence. by split_and!.
Qed.

Lemma enter_consistent self h now :
  registry_consistent self -> registry_consistent (thread_enter self h now).
Proof.
  intros (Ha & Hc & Ht). unfold thread_enter.
  destruct (threads self !! h) as [[id0| |]|] eqn:Hth; try by split_and!.
  destruct (active_backtests self !! id0) as [addr|] eqn:Hact; simpl.
  - destruct (Ha id0 addr Hact) as (r0 & Hr0 & Hid0).
    split_and!; simpl.
    + intros id a Hin. destruct (Ha id a Hin) as (r & Hr & Hid).
      rewrite list_lookup_alter. case_decide as Heq.
      * subst a. rewrite Hr0. simpl. eexists. split; [reflexivity|].
        simpl. congruence.
      * by exists r.
    + intros id a Hin.
      destruct (Hc id a Hin) as (r & Hr & Hid & Hm & Hca & Hst & Hna).
      assert (a <> addr) as Hne.
      { intros ->. apply Hna. congruence. }
      exists r. rewrite list_lookup_alter_ne by congruence. by split_and!.
    + intros h' id a Hin.
      apply list_lookup_insert_Some in Hin as [(_ & [= <- <-] & _)|[_ Hin]].
      * rewrite list_lookup_alter_eq, Hr0. simpl. eexists.
        split; [reflexivity | exact Hid0].
      * destruct (Ht h' id a Hin) as (r & Hr & Hid).
        rewrite list_lookup_alter. case_decide as Heq.
        -- subst a. rewrite Hr0. simpl. eexists. split; [reflexivity|].
           simpl. congruence.
        -- by exists r.
  - split_and!; simpl; [exact Ha | exact Hc |].
    intros h' id a Hin.
    apply list_lookup_insert_Some in Hin as [(_ & [=] & _)|[_ Hin]].
    by apply (Ht h' id a).
Qed.

Lemma finish_consistent self h fetch now :
  registry_consistent self -> registry_consistent (finish self h fetch now).
Proof.
  intros (Ha & Hc & Ht). unfold thread_finish.
  destruct (threads self !! h) as [[| id0 addr |]|] eqn:Hth; try by split_and!.
  destruct (heap self !! addr) as [result|] eqn:Hres; [|by split_and!].
  destruct (Ht h id0 addr Hth) as (r0 & Hr0 & Hid0).
  assert (r0 = result) as -> by congruence.
  assert (Hthreads :
    forall h' id a,
      <[h := Finished]> (threads self) !! h' = Some (Entered id a) ->
      threads self !! h' = Some (Entered id a)).
  { intros h' id a Hin.
    by apply list_lookup_insert_Some in Hin as [(_ & [=] & _)|[_ Hin]]. }
  destruct (negb (nonempty _)).
  - (* no data: the record is marked FAILED where it is *)
    split_and!; simpl.
    + intros id a Hin. destruct (Ha id a Hin) as (r & Hr & Hid).
      destruct (heap_insert_lookup _ addr result
                  (fail_with result "Aucune donnée historique disponible" now)
                  Hres a r Hr) as (r' & Hr' & Hne & Heq).
      exists r'. split; [exact Hr'|].
      destruct (decide (a = addr)) as [->|Hd].
      * destruct (Heq eq_refl) as [-> ->]. simpl. exact Hid.
      * by rewrite (Hne Hd).
    + intros id a Hin.
      destruct (Hc id a Hin) as (r & Hr & Hid & Hm & Hca & Hst & Hna).
      destruct (heap_insert_lookup _ addr result
                  (fail_with result "Aucune donnée historique disponible" now)
                  Hres a r Hr) as (r' & Hr' & Hne & Heq).
      exists r'. split; [exact Hr'|].
      destruct (decide (a = addr)) as [->|Hd].
      * destruct (Heq eq_refl) as [-> ->]. simpl.
        split_and!; try done. by right.
      * rewrite (Hne Hd). by split_and!.
    + intros h' id a Hin%Hthreads.
      destruct (Ht h' id a Hin) as (r & Hr & Hid).
      destruct (heap_insert_lookup _ addr result
                  (fail_with result "Aucune donnée historique disponible" now)
                  Hres a r Hr) as (r' & Hr' & Hne & Heq).
      exists r'. split; [exact Hr'|].
      destruct (decide (a = addr)) as [->|Hd].
      * destruct (Heq eq_refl) as [-> ->]. simpl. exact Hid.
      * by rewrite (Hne Hd).
  - (* data: the record is completed and filed in the completed map *)
    destruct (active_backtests self !! id0) as [a0|] eqn:Hact.
    + match goal with
      | |- registry_consistent
             {| heap := <[addr := ?res]> (heap self);
                active_backtests := _; completed_backtests := _;
                executor_threads := _; threads := _ |} =>
          set (result' := res);
          assert (Hres' : BacktestResult.id result' = id0
                          /\ is_Some (BacktestResult.metrics result')
                          /\ is_Some (BacktestResult.completed_at result')
                          /\ (BacktestResult.status result' = COMPLETED \/
                              BacktestResult.status result' = FAILED))
            by (subst result'; simpl; split_and!; eauto)
      end.
      destruct Hres' as (Hid' & Hm' & Hc' & Hs').
      split_and!; simpl.
      * intros id a Hin. apply lookup_delete_Some in Hin as [Hne Hin].
        destruct (Ha id a Hin) as (r & Hr & Hid).
        destruct (heap_insert_lookup _ addr result result' Hres a r Hr)
          as (r' & Hr' & Hn & Heq).
        exists r'. split; [exact Hr'|].
        destruct (decide (a = addr)) as [->|Hd].
        -- destruct (Heq eq_refl) as [-> ->]. congruence.
        -- by rewrite (Hn Hd).
      * intros id a Hin. apply lookup_insert_Some in Hin as [[<- <-]|[Hne Hin]].
        -- exists result'.
           rewrite list_lookup_insert_eq by (by eapply lookup_lt_Some).
           split_and!; try done. by rewrite lookup_delete_eq.
        -- destruct (Hc id a Hin) as (r & Hr & Hid & Hm & Hca & Hst & Hna).
           assert (a <> addr) as Hd by (intros ->; congruence).
           exists r. rewrite list_lookup_insert_ne by congruence.
           split_and!; try done. by rewrite lookup_delete_ne.
      * intros h' id a Hin%Hthreads.
        destruct (Ht h' id a Hin) as (r & Hr & Hid).
        destruct (heap_insert_lookup _ addr result result' Hres a r Hr)
          as (r' & Hr' & Hn & Heq).
        exists r'. split; [exact Hr'|].
        destruct (decide (a = addr)) as [->|Hd].
        -- destruct (Heq eq_refl) as [-> ->]. congruence.
        -- by rewrite (Hn Hd).
    + match goal with
      | |- registry_consistent
             {| heap := <[addr := ?res]> (heap self);
                active_backtests := _; completed_backtests := _;
                executor_threads := _; threads := _ |} =>
          set (result' := res);
          assert (Hres' : BacktestResult.id result' = id0
                          /\ is_Some (BacktestResult.metrics result')
                          /\ is_Some (BacktestResult.completed_at result')
                          /\ (BacktestResult.status result' = COMPLETED \/
                              BacktestResult.status result' = FAILED))
            by (subst result'; simpl; split_and!; eauto)
      end.
      destruct Hres' as (Hid' & Hm' & Hc' & Hs').
      split_and!; simpl.
      * intros id a Hin.
        destruct (Ha id a Hin) as (r & Hr & Hid).
        destruct (heap_insert_lookup _ addr result result' Hres a r Hr)
          as (r' & Hr' & Hn & Heq).
        exists r'. split; [exact Hr'|].
        destruct (decide (a = addr)) as [->|Hd].
        -- destruct (Heq eq_refl) as [-> ->]. congruence.
        -- by rewrite (Hn Hd).
      * intros id a Hin. apply lookup_insert_Some in Hin as [[<- <-]|[Hne Hin]].
        -- exists result'.
           rewrite list_lookup_insert_eq by (by eapply lookup_lt_Some).
           split_and!; try done. by rewrite Hact.
        -- destruct (Hc id a Hin) as (r & Hr & Hid & Hm & Hca & Hst & Hna).
           assert (a <> addr) as Hd by (intros ->; congruence).
           exists r. rewrite list_lookup_insert_ne by congruence.
           by split_and!.
      * intros h' id a Hin%Hthreads.
        destruct (Ht h' id a Hin) as (r & Hr & Hid).
        destruct (heap_insert_lookup _ addr result result' Hres a r Hr)
          as (r' & Hr' & Hn & Heq).
        exists r'. split; [exact Hr'|].
        destruct (decide (a = addr)) as [->|Hd].
        -- destruct (Heq eq_refl) as [-> ->]. congruence.
        -- by rewrite (Hn Hd).
Qed.

Lemma reachable_consistent self :
  engine_reachable self -> registry_consistent self.
Proof.
  induction 1 as [|self self' _ IH Hstep].
  - split_and!; simpl; intros *; try rewrite lookup_empty; discriminate.
  - destruct Hstep.
    + by apply create_consistent.
    + by apply start_consistent.
    + by apply enter_consistent.
    + by apply finish_consistent.
Qed.


End RegistryFacts.

(** A completed run is reached through the registry's own steps. *)
Lemma one_day_engine_reachable :
  BacktestEngine.reachable one_point_equity_stats no_benchmark_return
    finite_sub one_day_engine.
Proof.
  unfold one_day_engine, one_day_entered, one_day_created.
  eapply BacktestEngine.reachable_step;
    [|apply BacktestEngine.step_finish].
  eapply BacktestEngine.reachable_step;
    [|apply BacktestEngine.step_enter].
  eapply BacktestEngine.reachable_step;
    [|apply BacktestEngine.step_start].
  eapply BacktestEngine.reachable_step;
    [|apply BacktestEngine.step_create].
  apply BacktestEngine.reachable_init.
Defined.


(** * The operations of the registry *)
Section RegistryOps.
Import BacktestEngine.

Variable pandas_equity_stats :
  list Q -> Q -> option (pyfloat * pyfloat * pyfloat * pyfloat * pyfloat).
Variable pandas_benchmark_return : DataFrame -> option pyfloat.
Variable numpy_sub : pyfloat -> pyfloat -> pyfloat.

Local Abbreviation finish :=
  (thread_finish pandas_equity_stats pandas_benchmark_return numpy_sub).
Local Abbreviation engine_reachable :=
  (reachable pandas_equity_stats pandas_benchmark_return numpy_sub).

(** X19. [create_backtest] files a fresh PENDING run.  The returned
    identifier is ["backtest_"] followed by the timestamp; under it the
    registry answers PENDING and holds a record with the given
    configuration, no trade, no equity point and no metrics; there are
    no results for it unless the identifier was already completed; the
    completed map is untouched and every run filed under another
    identifier is still there. *)
Theorem create_backtest_registers (self : BacktestEngine.t) (now : Z)
    (config : BacktestConfig.t) :
  let self' := fst (create_backtest self now config) in
  let backtest_id := snd (create_backtest self now config) in
  backtest_id = "backtest_" +:+ pretty now /\
  get_backtest_status self' backtest_id = Some PENDING /\
  (completed_backtests self !! backtest_id = None ->
   get_backtest_results self' backtest_id = None) /\
  (exists result,
      deref self' (active_backtests self') backtest_id = Some result /\
      BacktestResult.config result = config /\
      BacktestResult.trades result = [] /\
      BacktestResult.equity_curve result = [] /\
      BacktestResult.metrics result = None) /\
  completed_backtests self' = completed_backtests self /\
  forall id result,
    id <> backtest_id ->
    deref self (active_backtests self) id = Some result ->
    deref self' (active_backtests self') id = Some result.
Proof.
  unfold create_backtest, get_backtest_status, get_backtest_results, deref.
  simpl. rewrite lookup_insert_eq. simpl.
  rewrite lookup_app_r, Nat.sub_diag by lia. simpl.
  split_and!; try reflexivity.
  - by intros ->.
  - eexists. split; [reflexivity|]. by split_and!.
  - intros id result Hne Hr. rewrite lookup_insert_ne by congruence.
    destruct (active_backtests self !! id) as [a|]; [|discriminate].
    simpl in *. by apply lookup_app_l_Some.
Qed.

(** X21. When [start_backtest] starts a worker.  The call returns true
    exactly when the identifier is filed in the active map with a record
    whose status is PENDING.  When it returns false the registry is
    unchanged; when it returns true the records and both maps are
    unchanged, the status is still PENDING, and one worker, not yet
    running, has been added for the identifier. *)
Theorem start_backtest_cases (self : BacktestEngine.t) (backtest_id : string) :
  let self' := fst (start_backtest self backtest_id) in
  (snd (start_backtest self backtest_id) = true
   <-> exists result,
         deref self (active_backtests self) backtest_id = Some result /\
         BacktestResult.status result = PENDING) /\
  (snd (start_backtest self backtest_id) = false -> self' = self) /\
  (snd (start_backtest self backtest_id) = true ->
   heap self' = heap self /\
   active_backtests self' = active_backtests self /\
   completed_backtests self' = completed_backtests self /\
   threads self' = (threads self ++ [Spawned backtest_id])%list /\
   executor_threads self' !! backtest_id = Some (length (threads self))).
Proof.
  unfold start_backtest, deref.
  destruct (active_backtests self !! backtest_id) as [addr|]; simpl.
  2: { split_and!; [|done|done]. split; [done | by intros (? & [=] & _)]. }
  destruct (heap self !! addr) as [result|]; simpl.
  2: { split_and!; [|done|done]. split; [done | by intros (? & [=] & _)]. }
  case_decide as Hst; simpl.
  - split_and!; [|done|done]. split; [done|].
    intros (r & [= <-] & Hp). congruence.
  - split_and!; [|done|].
    + split; [|done]. intros _. exists result. split; [done|].
      by destruct (decide (BacktestResult.status result = PENDING)).
    + intros _. split_and!; try reflexivity. apply lookup_insert_eq.
Qed.

(** X22. A worker always ends its run.  When a worker that has entered
    its run finishes, whatever the data and whatever the other workers
    did meanwhile, the record has the status COMPLETED or FAILED and the
    completion time of that moment, the trades and equity points it had
    are kept in front of what the worker added, the worker is finished
    and the thread table has no entry left for the identifier.  A
    finished worker takes no further step. *)
Theorem thread_finish_ends_run (self : BacktestEngine.t) (h : nat)
    (backtest_id : string) (addr : nat) (result : BacktestResult.t)
    (fetch : string -> option DataFrame) (now : datetime) :
  threads self !! h = Some (Entered backtest_id addr) ->
  heap self !! addr = Some result ->
  let self' := finish self h fetch now in
  (exists result',
      heap self' !! addr = Some result' /\
      (BacktestResult.status result' = COMPLETED \/
       BacktestResult.status result' = FAILED) /\
      BacktestResult.completed_at result' = Some now /\
      BacktestResult.id result' = BacktestResult.id result /\
      BacktestResult.config result' = BacktestResult.config result /\
      (exists new, BacktestResult.trades result'
                   = (BacktestResult.trades result ++ new)%list) /\
      (exists new, BacktestResult.equity_curve result'
                   = (BacktestResult.equity_curve result ++ new)%list)) /\
  threads self' !! h = Some Finished /\
  executor_threads self' !! backtest_id = None /\
  (forall now', thread_enter self' h now' = self') /\
  (forall fetch' now', finish self' h fetch' now' = self').
Proof.
  intros Hth Hres. cbv zeta.
  assert (Hh : (h < length (threads self))%nat) by (by eapply lookup_lt_Some).
  assert (Ha : (addr < length (heap self))%nat) by (by eapply lookup_lt_Some).
  assert (Hfin : threads (finish self h fetch now) !! h = Some Finished).
  { unfold thread_finish. rewrite Hth, Hres.
    destruct (negb _); [|destruct (active_backtests self !! backtest_id)];
      simpl; by rewrite list_lookup_insert_eq. }
  split_and!.
  - unfold thread_finish. rewrite Hth, Hres.
    destruct (negb _).
    + simpl. rewrite list_lookup_insert_eq by assumption.
      eexists. split; [reflexivity|]. simpl. split_and!; try done.
      * by right.
      * exists []. by rewrite app_nil_r.
      * exists []. by rewrite app_nil_r.
    + destruct (simulate_trades_shape_aux (BacktestResult.config result)
                  (get_multiple_symbols fetch
                     (BacktestConfig.symbols (BacktestResult.config result)))
                  (BacktestResult.trades result)
                  (BacktestResult.equity_curve result))
        as ((newt & Hnewt) & (newe & Hnewe)).
      destruct (active_backtests self !! backtest_id); simpl;
        rewrite list_lookup_insert_eq by assumption;
        (eexists; split; [reflexivity|]); simpl;
        (split_and!; try done; [by (left + right) | by exists newt | by exists newe]).
  - exact Hfin.
  - unfold thread_finish. rewrite Hth, Hres.
    destruct (negb _); [|destruct (active_backtests self !! backtest_id)];
      simpl; apply lookup_delete_eq.
  - intros now'. unfold thread_enter at 1. by rewrite Hfin.
  - intros fetch' now'. unfold thread_finish at 1. by rewrite Hfin.
Qed.

End RegistryOps.

Lemma create_backtest_registers_witness :
  BacktestEngine.get_backtest_status one_day_created "backtest_1700000000"
  = Some PENDING /\
  BacktestEngine.get_backtest_results one_day_created "backtest_1700000000"
  = None.
Proof.
  destruct (create_backtest_registers BacktestEngine.init 1700000000
              momentum_config) as (_ & Hst & Hres & _).
  split; [exact Hst | apply Hres; reflexivity].
Defined.

Lemma start_backtest_cases_witness :
  snd (BacktestEngine.start_backtest one_day_created "backtest_1700000000")
  = true /\
  snd (BacktestEngine.start_backtest one_day_engine "backtest_1700000000")
  = false /\
  fst (BacktestEngine.start_backtest one_day_engine "backtest_1700000000")
  = one_day_engine.
Proof.
  destruct (start_backtest_cases one_day_created "backtest_1700000000")
    as (Htrue & _ & _).
  destruct (start_backtest_cases one_day_engine "backtest_1700000000")
    as (_ & Hfalse & _).
  split.
  - apply Htrue. eexists. split; [vm_compute; reflexivity | reflexivity].
  - assert (H : snd (BacktestEngine.start_backtest one_day_engine
                       "backtest_1700000000") = false)
      by (vm_compute; reflexivity).
    split; [exact H | exact (Hfalse H)].
Defined.

Lemma thread_finish_ends_run_witness :
  BacktestEngine.threads one_day_engine !! 0%nat
  = Some BacktestEngine.Finished /\
  BacktestEngine.executor_threads one_day_engine !! "backtest_1700000000"
  = None.
Proof.
  assert (H : exists result,
             BacktestEngine.heap one_day_entered !! 0%nat = Some result)
    by (eexists; vm_compute; reflexivity).
  destruct H as (result & Hres).
  destruct (thread_finish_ends_run one_point_equity_stats no_benchmark_return
              finite_sub one_day_entered 0 "backtest_1700000000" 0 result
              fetch_one_day 1700000002)
    as (_ & Hfin & Hex & _).
  - vm_compute. reflexivity.
  - exact Hres.
  - split; [exact Hfin | exact Hex].
Defined.

(** * Frames without rows *)
Section EmptyFrames.
Import BacktestEngine.

Variable pandas_equity_stats :
  list Q -> Q -> option (pyfloat * pyfloat * pyfloat * pyfloat * pyfloat).
Variable pandas_benchmark_return : DataFrame -> option pyfloat.
Variable numpy_sub : pyfloat -> pyfloat -> pyfloat.

Local Abbreviation finish :=
  (thread_finish pandas_equity_stats pandas_benchmark_return numpy_sub).

Lemma dropna_all_nan (rows : list (datetime * option Q)) :
  Forall (fun row => snd row = None) rows -> DataProvider.dropna rows = [].
Proof.
  unfold DataProvider.dropna.
  induction 1 as [|[d c] rows Hrow _ IH]; [reflexivity|].
  simpl in Hrow. subst c. simpl. exact IH.
Qed.

(** X23. Rows lost to NaN leave an empty frame, not a missing one.  The
    provider tests for an empty answer before it drops the rows that
    have a NaN: when [yfinance] returns rows that all have one, the
    request is answered with a frame without rows, which is cached,
    whereas an answer without rows is answered with nothing and not
    cached. *)
Theorem all_nan_download_is_empty_frame (cache : gmap string DataFrame)
    (symbol start_date end_date : string)
    (rows : list (datetime * option Q)) :
  cache !! DataProvider.cache_key symbol start_date end_date = None ->
  (rows <> [] -> Forall (fun row => snd row = None) rows ->
   DataProvider.get_historical_data cache symbol start_date end_date
     (DataProvider.Returned rows)
   = (<[DataProvider.cache_key symbol start_date end_date := []]> cache,
      Some [])) /\
  DataProvider.get_historical_data cache symbol start_date end_date
    (DataProvider.Returned [])
  = (cache, None).
Proof.
  intros Hmiss. unfold DataProvider.get_historical_data. rewrite Hmiss.
  split; [|reflexivity].
  intros Hne Hnan. destruct rows as [|row rows]; [done|].
  simpl negb. cbv iota. cbv zeta. by rewrite (dropna_all_nan _ Hnan).
Qed.

Lemma all_nan_download_is_empty_frame_witness :
  DataProvider.get_historical_data ∅ "TEST" "2024-01-01" "2024-02-01"
    (DataProvider.Returned nan_rows)
  = (<[DataProvider.cache_key "TEST" "2024-01-01" "2024-02-01" := []]> ∅,
     Some []).
Proof.
  apply (all_nan_download_is_empty_frame ∅ "TEST" "2024-01-01" "2024-02-01"
           nan_rows).
  - apply lookup_empty.
  - discriminate.
  - repeat constructor.
Defined.

Lemma trading_dates_empty_frames (data : Data) :
  Forall (fun entry => snd entry = []) data -> trading_dates data = [].
Proof.
  intros Hempty. unfold trading_dates.
  assert (H : forall acc : list datetime,
             fold_left (fun acc entry =>
                          fold_left
                            (fun acc' row => insert_date (fst row) acc')
                            (snd entry) acc)
                       data acc = acc).
  { induction Hempty as [|[symbol df] data Hdf _ IH]; intros acc;
      [reflexivity|].
    simpl in Hdf. subst df. simpl. apply IH. }
  apply H.
Qed.

(** X24. A run over frames without rows completes with all-zero
    metrics.  When the provider answers at least one symbol but every
    frame is empty, the worker of a fresh record runs no day: it records
    no trade and no equity point, the metrics fall back to the all-zero
    record, and the run is filed in the completed map, COMPLETED when it
    was still in the active map. *)
Theorem empty_frames_run_completes (self : BacktestEngine.t) (h : nat)
    (backtest_id : string) (addr : nat) (result : BacktestResult.t)
    (fetch : string -> option DataFrame) (now : datetime) :
  threads self !! h = Some (Entered backtest_id addr) ->
  heap self !! addr = Some result ->
  BacktestResult.equity_curve result = [] ->
  get_multiple_symbols fetch
    (BacktestConfig.symbols (BacktestResult.config result)) <> [] ->
  Forall (fun entry => snd entry = [])
         (get_multiple_symbols fetch
            (BacktestConfig.symbols (BacktestResult.config result))) ->
  let self' := finish self h fetch now in
  completed_backtests self' !! backtest_id = Some addr /\
  exists result',
    heap self' !! addr = Some result' /\
    BacktestResult.metrics result' = Some BacktestMetrics.zero /\
    BacktestResult.trades result' = BacktestResult.trades result /\
    BacktestResult.equity_curve result' = [] /\
    (is_Some (active_backtests self !! backtest_id) ->
     BacktestResult.status result' = COMPLETED).
Proof.
  intros Hth Hres Hcurve Hdata Hempty. cbv zeta.
  assert (Ha : (addr < length (heap self))%nat) by (by eapply lookup_lt_Some).
  unfold thread_finish. rewrite Hth, Hres.
  destruct (get_multiple_symbols fetch _) as [|entry data] eqn:Hd; [done|].
  simpl negb. cbv iota.
  unfold simulate. rewrite (trading_dates_empty_frames _ Hempty).
  cbn [simulate_from loop_trades loop_equity_curve].
  unfold _calculate_metrics, _calculate_metrics_try.
  cbn [BacktestResult.equity_curve]. rewrite Hcurve. simpl nonempty.
  cbn [negb default].
  destruct (active_backtests self !! backtest_id) as [a|]; simpl.
  - rewrite lookup_insert_eq. split; [reflexivity|].
    rewrite list_lookup_insert_eq by assumption.
    eexists. split; [reflexivity|]. simpl. by split_and!.
  - rewrite lookup_insert_eq. split; [reflexivity|].
    rewrite list_lookup_insert_eq by assumption.
    eexists. split; [reflexivity|]. simpl. by split_and!.
Qed.

End EmptyFrames.

(** * The life of a run with a single worker *)
Section Lifecycle.
Import BacktestEngine.

Variable pandas_equity_stats :
  list Q -> Q -> option (pyfloat * pyfloat * pyfloat * pyfloat * pyfloat).
Variable pandas_benchmark_return : DataFrame -> option pyfloat.
Variable numpy_sub : pyfloat -> pyfloat -> pyfloat.

Local Abbreviation finish :=
  (thread_finish pandas_equity_stats pandas_benchmark_return numpy_sub).

(** X25. The life of a run with a single worker.  A run filed PENDING
    in the active map is started once; it still answers PENDING until
    its worker enters, then RUNNING, and from then on [start_backtest]
    refuses it.  When the worker finishes without data the run answers
    FAILED and stays in the active map; with data it leaves the active
    map and answers COMPLETED, also through [get_backtest_results]. *)
Theorem single_worker_lifecycle (self : BacktestEngine.t)
    (backtest_id : string) (addr : nat) (result : BacktestResult.t)
    (fetch : string -> option DataFrame) (now1 now2 : datetime) :
  active_backtests self !! backtest_id = Some addr ->
  heap self !! addr = Some result ->
  BacktestResult.status result = PENDING ->
  let h := length (threads self) in
  let data :=
    get_multiple_symbols fetch
      (BacktestConfig.symbols (BacktestResult.config result)) in
  let e1 := fst (start_backtest self backtest_id) in
  let e2 := thread_enter e1 h now1 in
  let e3 := finish e2 h fetch now2 in
  snd (start_backtest self backtest_id) = true /\
  get_backtest_status e1 backtest_id = Some PENDING /\
  get_backtest_status e2 backtest_id = Some RUNNING /\
  snd (start_backtest e2 backtest_id) = false /\
  snd (start_backtest e3 backtest_id) = false /\
  (data = [] ->
   get_backtest_status e3 backtest_id = Some FAILED /\
   active_backtests e3 !! backtest_id = Some addr) /\
  (data <> [] ->
   active_backtests e3 !! backtest_id = None /\
   get_backtest_status e3 backtest_id = Some COMPLETED /\
   BacktestResult.status <$> get_backtest_results e3 backtest_id
   = Some COMPLETED).
Proof.
  intros Hact Hres Hst. cbv zeta.
  assert (Ha : (addr < length (heap self))%nat) by (by eapply lookup_lt_Some).
  assert (Hstart :
    start_backtest self backtest_id
    = ({| heap := heap self;
          active_backtests := active_backtests self;
          completed_backtests := completed_backtests self;
          executor_threads :=
            <[backtest_id := length (threads self)]> (executor_threads self);
          threads := (threads self ++ [Spawned backtest_id])%list |}, true)).
  { unfold start_backtest. rewrite Hact, Hres.
    rewrite decide_False by (intros Hne; by apply Hne). reflexivity. }
  rewrite Hstart. cbn [fst snd].
  set (e1 := {| heap := heap self;
                active_backtests := active_backtests self;
                completed_backtests := completed_backtests self;
                executor_threads :=
                  <[backtest_id := length (threads self)]>
                    (executor_threads self);
                threads := (threads self ++ [Spawned backtest_id])%list |}).
  assert (Hth1 : threads e1 !! length (threads self)
                 = Some (Spawned backtest_id)).
  { unfold e1. cbn [threads].
    rewrite lookup_app_r, Nat.sub_diag by lia. reflexivity. }
  set (running :=
         {| BacktestResult.id := BacktestResult.id result;
            BacktestResult.config := BacktestResult.config result;
            BacktestResult.status := RUNNING;
            BacktestResult.metrics := BacktestResult.metrics result;
            BacktestResult.trades := BacktestResult.trades result;
            BacktestResult.equity_curve := BacktestResult.equity_curve result;
            BacktestResult.created_at := BacktestResult.created_at result;
            BacktestResult.started_at := Some now1;
            BacktestResult.completed_at := BacktestResult.completed_at result;
            BacktestResult.error_message :=
              BacktestResult.error_message result |}).
  assert (He2 :
    heap (thread_enter e1 (length (threads self)) now1) !! addr = Some running
    /\ active_backtests (thread_enter e1 (length (threads self)) now1)
       = active_backtests self
    /\ completed_backtests (thread_enter e1 (length (threads self)) now1)
       = completed_backtests self
    /\ threads (thread_enter e1 (length (threads self)) now1)
         !! length (threads self)
       = Some (Entered backtest_id addr)).
  { unfold thread_enter. rewrite Hth1.
    change (active_backtests e1) with (active_backtests self).
    rewrite Hact. cbn [heap active_backtests completed_backtests threads].
    change (heap e1) with (heap self). change (threads e1)
      with (threads self ++ [Spawned backtest_id])%list.
    rewrite list_lookup_alter_eq, Hres.
    rewrite list_lookup_insert_eq by (rewrite length_app; simpl; lia).
    by split_and!. }
  set (e2 := thread_enter e1 (length (threads self)) now1) in *.
  destruct He2 as (Hheap2 & Hact2 & Hcomp2 & Hth2).
  assert (Ha2 : (addr < length (heap e2))%nat) by (by eapply lookup_lt_Some).
  assert (Hno2 : snd (start_backtest e2 backtest_id) = false).
  { unfold start_backtest. rewrite Hact2, Hact, Hheap2. reflexivity. }
  split; [reflexivity|].
  split.
  { unfold get_backtest_status, deref. cbn [active_backtests heap e1].
    rewrite Hact. simpl. rewrite Hres. simpl. by rewrite Hst. }
  split.
  { unfold get_backtest_status, deref. rewrite Hact2, Hact. simpl.
    by rewrite Hheap2. }
  split; [exact Hno2|].
  unfold thread_finish. rewrite Hth2, Hheap2. cbn [BacktestResult.config running].
  destruct (get_multiple_symbols fetch _) as [|entry data] eqn:Hdata.
  - simpl negb. cbv iota. cbn [fst snd].
    split_and!.
    + unfold start_backtest. cbn [active_backtests heap].
      rewrite Hact2, Hact. rewrite list_lookup_insert_eq by assumption.
      reflexivity.
    + intros _. split.
      * unfold get_backtest_status, deref. cbn [active_backtests heap].
        rewrite Hact2, Hact. simpl.
        rewrite list_lookup_insert_eq by assumption. reflexivity.
      * cbn [active_backtests]. by rewrite Hact2.
    + done.
  - simpl negb. cbv iota. rewrite Hact2, Hact. cbn [fst snd].
    split_and!.
    + unfold start_backtest. cbn [active_backtests].
      by rewrite lookup_delete_eq.
    + done.
    + intros _. cbn [active_backtests]. split; [apply lookup_delete_eq|].
      unfold get_backtest_status, get_backtest_results, deref.
      cbn [active_backtests completed_backtests heap].
      rewrite lookup_delete_eq, lookup_insert_eq. simpl.
      rewrite list_lookup_insert_eq by assumption. by split.
Qed.

End Lifecycle.

Lemma single_worker_lifecycle_witness :
  BacktestEngine.get_backtest_status one_day_entered "backtest_1700000000"
  = Some RUNNING /\
  BacktestEngine.get_backtest_status one_day_engine "backtest_1700000000"
  = Some COMPLETED /\
  snd (BacktestEngine.start_backtest one_day_engine "backtest_1700000000")
  = false.
Proof.
  assert (H : exists result,
             BacktestEngine.heap one_day_created !! 0%nat = Some result /\
             BacktestResult.status result = PENDING /\
             BacktestEngine.get_multiple_symbols fetch_one_day
               (BacktestConfig.symbols (BacktestResult.config result))
             = one_day_data).
  { eexists. split; [vm_compute; reflexivity|].
    split; vm_compute; reflexivity. }
  destruct H as (result & Hres & Hst & Hdata).
  pose proof (single_worker_lifecycle one_point_equity_stats
                no_benchmark_return finite_sub one_day_created
                "backtest_1700000000" 0 result fetch_one_day 1700000001
                1700000002) as Hlife.
  cbv zeta in Hlife.
  destruct Hlife as (_ & _ & Hrun & _ & Hno & _ & Hdone).
  - vm_compute. reflexivity.
  - exact Hres.
  - exact Hst.
  - split; [exact Hrun|]. split; [|exact Hno].
    apply Hdone. rewrite Hdata. discriminate.
Defined.

Lemma empty_frames_run_completes_witness :
  let self' :=
    BacktestEngine.thread_finish one_point_equity_stats no_benchmark_return
      finite_sub one_day_entered 0 fetch_nan_rows 1700000002 in
  BacktestEngine.completed_backtests self' !! "backtest_1700000000"
  = Some 0%nat /\
  exists result',
    BacktestEngine.heap self' !! 0%nat = Some result' /\
    BacktestResult.metrics result' = Some BacktestMetrics.zero /\
    BacktestResult.status result' = COMPLETED.
Proof.
  assert (H : exists result,
             BacktestEngine.heap one_day_entered !! 0%nat = Some result /\
             BacktestResult.equity_curve result = [] /\
             BacktestEngine.get_multiple_symbols fetch_nan_rows
               (BacktestConfig.symbols (BacktestResult.config result))
             = [("TEST", [])]).
  { eexists. split; [vm_compute; reflexivity|].
    split; vm_compute; reflexivity. }
  destruct H as (result & Hres & Hcurve & Hdata).
  pose proof (empty_frames_run_completes one_point_equity_stats
                no_benchmark_return finite_sub one_day_entered 0
                "backtest_1700000000" 0 result fetch_nan_rows 1700000002)
    as Hrun.
  cbv zeta in Hrun.
  destruct Hrun as (Hc & result' & Hr' & Hm & _ & _ & Hst).
  - vm_compute. reflexivity.
  - exact Hres.
  - exact Hcurve.
  - rewrite Hdata. discriminate.
  - rewrite Hdata. repeat constructor.
  - split; [exact Hc|]. exists result'. split; [exact Hr'|].
    split; [exact Hm|]. apply Hst. eexists. vm_compute. reflexivity.
Defined.

(** * The registry when the entry of a worker is not atomic *)
Section WorkerFacts.
Import BacktestEngine.

Variable pandas_equity_stats :
  list Q -> Q -> option (pyfloat * pyfloat * pyfloat * pyfloat * pyfloat).
Variable pandas_benchmark_return : DataFrame -> option pyfloat.
Variable numpy_sub : pyfloat -> pyfloat -> pyfloat.

Local Abbreviation finish :=
  (thread_finish pandas_equity_stats pandas_benchmark_return numpy_sub).
Local Abbreviation worker_reachable :=
  (Worker.reachable pandas_equity_stats pandas_benchmark_return numpy_sub).

(** [thread_enter] is the lookup followed at once by the write. *)
Lemma thread_enter_bind_mark_running self h now backtest_id :
  threads self !! h = Some (Spawned backtest_id) ->
  thread_enter self h now
  = Worker.thread_mark_running (Worker.thread_bind self h) h now.
Proof.
  intros Hth. unfold thread_enter, Worker.thread_bind. rewrite Hth.
  assert (Hh : (h < length (threads self))%nat) by (by eapply lookup_lt_Some).
  destruct (active_backtests self !! backtest_id) as [addr|];
    unfold Worker.thread_mark_running; simpl;
    rewrite list_lookup_insert_eq by assumption; reflexivity.
Qed.

Lemma create_linked self now config :
  registry_linked self ->
  registry_linked (fst (create_backtest self now config)).
Proof.
  intros (Ha & Hc & Ht). unfold create_backtest. simpl.
  split_and!; simpl.
  - intros id a. rewrite lookup_insert. case_decide as Hid.
    + intros [= <-]. eexists. split.
      { rewrite lookup_app_r, Nat.sub_diag by lia. reflexivity. }
      exact Hid.
    + intros Hin. destruct (Ha id a Hin) as (r & Hr & Hidr).
      exists r. split; [|exact Hidr]. by apply lookup_app_l_Some.
  - intros id a Hin.
    destruct (Hc id a Hin) as (r & Hr & Hidr & Hm & Hca & Hst).
    exists r. split_and!; try assumption. by apply lookup_app_l_Some.
  - intros h id a Hin. destruct (Ht h id a Hin) as (r & Hr & Hidr).
    exists r. split; [|exact Hidr]. by apply lookup_app_l_Some.
Qed.

Lemma start_linked self backtest_id :
  registry_linked self ->
  registry_linked (fst (start_backtest self backtest_id)).
Proof.
  intros (Ha & Hc & Ht). unfold start_backtest.
  destruct (active_backtests self !! backtest_id) as [addr|];
    [|by split_and!].
  destruct (heap self !! addr) as [result|]; [|by split_and!].
  case_decide; [by split_and!|]. simpl.
  split_and!; simpl; [exact Ha | exact Hc |].
  intros h id a Hin. apply (Ht h id a).
  apply lookup_app_Some in Hin as [Hin|[_ Hin]]; [exact Hin|].
  destruct (h - length (threads self))%nat as [|n]; simpl in Hin;
    [discriminate|].
  by rewrite lookup_nil in Hin.
Qed.

Lemma bind_linked self h :
  registry_linked self -> registry_linked (Worker.thread_bind self h).
Proof.
  intros (Ha & Hc & Ht). unfold Worker.thread_bind.
  destruct (threads self !! h) as [[id0| |]|] eqn:Hth; try by split_and!.
  destruct (active_backtests self !! id0) as [addr|] eqn:Hact; simpl.
  - split_and!; simpl; [exact Ha | exact Hc |].
    intros h' id a Hin.
    apply list_lookup_insert_Some in Hin as [(_ & [= <- <-] & _)|[_ Hin]].
    + by apply Ha.
    + by apply (Ht h' id a).
  - split_and!; simpl; [exact Ha | exact Hc |].
    intros h' id a Hin.
    apply list_lookup_insert_Some in Hin as [(_ & [=] & _)|[_ Hin]].
    by apply (Ht h' id a).
Qed.

Lemma mark_running_linked self h now :
  registry_linked self ->
  registry_linked (Worker.thread_mark_running self h now).
Proof.
  intros (Ha & Hc & Ht). unfold Worker.thread_mark_running.
  destruct (threads self !! h) as [[| id0 addr |]|] eqn:Hth; try by split_and!.
  split_and!; simpl.
  - intros id a Hin. destruct (Ha id a Hin) as (r & Hr & Hid).
    rewrite list_lookup_alter. case_decide as Heq.
    + subst a. rewrite Hr. simpl. eexists. split; [reflexivity | exact Hid].
    + by exists r.
  - intros id a Hin.
    destruct (Hc id a Hin) as (r & Hr & Hid & Hm & Hca & Hst).
    rewrite list_lookup_alter. case_decide as Heq.
    + subst a. rewrite Hr. simpl. eexists. split; [reflexivity|].
      simpl. split_and!; try assumption. by left.
    + exists r. by split_and!.
  - intros h' id a Hin. destruct (Ht h' id a Hin) as (r & Hr & Hid).
    rewrite list_lookup_alter. case_decide as Heq.
    + subst a. rewrite Hr. simpl. eexists. split; [reflexivity | exact Hid].
    + by exists r.
Qed.

Lemma finish_linked self h fetch now :
  registry_linked self -> registry_linked (finish self h fetch now).
Proof.
  intros (Ha & Hc & Ht). unfold thread_finish.
  destruct (threads self !! h) as [[| id0 addr |]|] eqn:Hth; try by split_and!.
  destruct (heap self !! addr) as [result|] eqn:Hres; [|by split_and!].
  destruct (Ht h id0 addr Hth) as (r0 & Hr0 & Hid0).
  assert (r0 = result) as -> by congruence.
  assert (Hthreads :
    forall h' id a,
      <[h := Finished]> (threads self) !! h' = Some (Entered id a) ->
      threads self !! h' = Some (Entered id a)).
  { intros h' id a Hin.
    by apply list_lookup_insert_Some in Hin as [(_ & [=] & _)|[_ Hin]]. }
  destruct (negb (nonempty _)).
  - (* no data: the record is marked FAILED where it is *)
    split_and!; simpl.
    + intros id a Hin. destruct (Ha id a Hin) as (r & Hr & Hid).
      destruct (heap_insert_lookup _ addr result
                  (fail_with result "Aucune donnée historique disponible" now)
                  Hres a r Hr) as (r' & Hr' & Hne & Heq).
      exists r'. split; [exact Hr'|].
      destruct (decide (a = addr)) as [->|Hd].
      * destruct (Heq eq_refl) as [-> ->]. simpl. exact Hid.
      * by rewrite (Hne Hd).
    + intros id a Hin.
      destruct (Hc id a Hin) as (r & Hr & Hid & Hm & Hca & Hst).
      destruct (heap_insert_lookup _ addr result
                  (fail_with result "Aucune donnée historique disponible" now)
                  Hres a r Hr) as (r' & Hr' & Hne & Heq).
      exists r'. split; [exact Hr'|].
      destruct (decide (a = addr)) as [->|Hd].
      * destruct (Heq eq_refl) as [-> ->]. simpl.
        split_and!; try done. by right; right.
      * rewrite (Hne Hd). by split_and!.
    + intros h' id a Hin%Hthreads.
      destruct (Ht h' id a Hin) as (r & Hr & Hid).
      destruct (heap_insert_lookup _ addr result
                  (fail_with result "Aucune donnée historique disponible" now)
                  Hres a r Hr) as (r' & Hr' & Hne & Heq).
      exists r'. split; [exact Hr'|].
      destruct (decide (a = addr)) as [->|Hd].
      * destruct (Heq eq_refl) as [-> ->]. simpl. exact Hid.
      * by rewrite (Hne Hd).
  - (* data: the record is completed and filed in the completed map *)
    destruct (active_backtests self !! id0) as [a0|] eqn:Hact.
    + match goal with
      | |- registry_linked
             {| heap := <[addr := ?res]> (heap self);
                active_backtests := _; completed_backtests := _;
                executor_threads := _; threads := _ |} =>
          set (result' := res);
          assert (Hres' : BacktestResult.id result' = id0
                          /\ is_Some (BacktestResult.metrics result')
                          /\ is_Some (BacktestResult.completed_at result')
                          /\ written_by_worker (BacktestResult.status result'))
            by (subst result'; simpl; split_and!; eauto;
                by right; left)
      end.
      destruct Hres' as (Hid' & Hm' & Hc' & Hs').
      split_and!; simpl.
      * intros id a Hin. apply lookup_delete_Some in Hin as [Hne Hin].
        destruct (Ha id a Hin) as (r & Hr & Hid).
        destruct (heap_insert_lookup _ addr result result' Hres a r Hr)
          as (r' & Hr' & Hn & Heq).
        exists r'. split; [exact Hr'|].
        destruct (decide (a = addr)) as [->|Hd].
        -- destruct (Heq eq_refl) as [-> ->]. congruence.
        -- by rewrite (Hn Hd).
      * intros id a Hin. apply lookup_insert_Some in Hin as [[<- <-]|[Hne Hin]].
        -- exists result'.
           rewrite list_lookup_insert_eq by (by eapply lookup_lt_Some).
           by split_and!.
        -- destruct (Hc id a Hin) as (r & Hr & Hid & Hm & Hca & Hst).
           assert (a <> addr) as Hd by (intros ->; congruence).
           exists r. rewrite list_lookup_insert_ne by congruence.
           by split_and!.
      * intros h' id a Hin%Hthreads.
        destruct (Ht h' id a Hin) as (r & Hr & Hid).
        destruct (heap_insert_lookup _ addr result result' Hres a r Hr)
          as (r' & Hr' & Hn & Heq).
        exists r'. split; [exact Hr'|].
        destruct (decide (a = addr)) as [->|Hd].
        -- destruct (Heq eq_refl) as [-> ->]. congruence.
        -- by rewrite (Hn Hd).
    + match goal with
      | |- registry_linked
             {| heap := <[addr := ?res]> (heap self);
                active_backtests := _; completed_backtests := _;
                executor_threads := _; threads := _ |} =>
          set (result' := res);
          assert (Hres' : BacktestResult.id result' = id0
                          /\ is_Some (BacktestResult.metrics result')
                          /\ is_Some (BacktestResult.completed_at result')
                          /\ written_by_worker (BacktestResult.status result'))
            by (subst result'; simpl; split_and!; eauto;
                by right; right)
      end.
      destruct Hres' as (Hid' & Hm' & Hc' & Hs').
      split_and!; simpl.
      * intros id a Hin.
        destruct (Ha id a Hin) as (r & Hr & Hid).
        destruct (heap_insert_lookup _ addr result result' Hres a r Hr)
          as (r' & Hr' & Hn & Heq).
        exists r'. split; [exact Hr'|].
        destruct (decide (a = addr)) as [->|Hd].
        -- destruct (Heq eq_refl) as [-> ->]. congruence.
        -- by rewrite (Hn Hd).
      * intros id a Hin. apply lookup_insert_Some in Hin as [[<- <-]|[Hne Hin]].
        -- exists result'.
           rewrite list_lookup_insert_eq by (by eapply lookup_lt_Some).
           by split_and!.
        -- destruct (Hc id a Hin) as (r & Hr & Hid & Hm & Hca & Hst).
           assert (a <> addr) as Hd by (intros ->; congruence).
           exists r. rewrite list_lookup_insert_ne by congruence.
           by split_and!.
      * intros h' id a Hin%Hthreads.
        destruct (Ht h' id a Hin) as (r & Hr & Hid).
        destruct (heap_insert_lookup _ addr result result' Hres a r Hr)
          as (r' & Hr' & Hn & Heq).
        exists r'. split; [exact Hr'|].
        destruct (decide (a = addr)) as [->|Hd].
        -- destruct (Heq eq_refl) as [-> ->]. congruence.
        -- by rewrite (Hn Hd).
Qed.

Lemma worker_reachable_linked self :
  worker_reachable self -> registry_linked self.
Proof.
  induction 1 as [|self self' _ IH Hstep].
  - split_and!; simpl; intros *; try rewrite lookup_empty; discriminate.
  - destruct Hstep.
    + by apply create_linked.
    + by apply start_linked.
    + by apply bind_linked.
    + by apply mark_running_linked.
    + by apply finish_linked.
Qed.

(** The states reached with an atomic entry are among those reached
    when the entry is two steps. *)
Lemma reachable_worker_reachable self :
  reachable pandas_equity_stats pandas_benchmark_return numpy_sub self ->
  worker_reachable self.
Proof.
  induction 1 as [|self self' _ IH Hstep]; [apply Worker.reachable_init|].
  destruct Hstep as [self now config | self backtest_id | self h now
                    | self h fetch now].
  - eapply Worker.reachable_step; [exact IH | apply Worker.step_create].
  - eapply Worker.reachable_step; [exact IH | apply Worker.step_start].
  - destruct (threads self !! h) as [[backtest_id| |]|] eqn:Hth.
    + rewrite (thread_enter_bind_mark_running _ _ _ _ Hth).
      eapply Worker.reachable_step; [|apply Worker.step_mark_running].
      eapply Worker.reachable_step; [exact IH | apply Worker.step_bind].
    + unfold thread_enter. by rewrite Hth.
    + unfold thread_enter. by rewrite Hth.
    + unfold thread_enter. by rewrite Hth.
  - eapply Worker.reachable_step; [exact IH | apply Worker.step_finish].
Qed.

(** X17. What [get_backtest_results] can return.  In every state the
    registry can reach, the lookup of line 196 and the writes of lines
    200-201 of a worker being separate steps, a record returned for an
    identifier carries that identifier, has its metrics and its
    completion time set, and its status is RUNNING, COMPLETED or
    FAILED. *)
Theorem served_results_have_metrics self backtest_id result :
  worker_reachable self ->
  get_backtest_results self backtest_id = Some result ->
  BacktestResult.id result = backtest_id /\
  is_Some (BacktestResult.metrics result) /\
  is_Some (BacktestResult.completed_at result) /\
  (BacktestResult.status result = RUNNING \/
   BacktestResult.status result = COMPLETED \/
   BacktestResult.status result = FAILED).
Proof.
  intros Hreach Hres. apply worker_reachable_linked in Hreach as (_ & Hc & _).
  unfold get_backtest_results, deref in Hres.
  destruct (completed_backtests self !! backtest_id) as [a|] eqn:Ha;
    [|discriminate].
  simpl in Hres. destruct (Hc _ _ Ha) as (r & Hr & Hid & Hm & Hca & Hst).
  assert (r = result) as -> by congruence. by split_and!.
Qed.

(** X20. Identifiers have the resolution of the clock.  Two calls of
    [create_backtest], on any two registries, return the same
    identifier exactly when their timestamps are equal.  When the
    identifier of a call is still filed in the active map of a
    reachable registry, the new record takes the place of the earlier
    one: the identifier answers PENDING, the earlier record is left as
    it was but is filed in the active map under no identifier any more,
    and the completed map is untouched. *)
Theorem create_backtest_reuses_id (self other : BacktestEngine.t)
    (now now' : Z) (config config' : BacktestConfig.t) :
  (snd (create_backtest self now config)
   = snd (create_backtest other now' config') <-> now = now') /\
  (worker_reachable self ->
   forall earlier,
     active_backtests self !! snd (create_backtest self now config)
     = Some earlier ->
     let self' := fst (create_backtest self now config) in
     get_backtest_status self' (snd (create_backtest self now config))
     = Some PENDING /\
     heap self' !! earlier = heap self !! earlier /\
     (forall id, active_backtests self' !! id <> Some earlier) /\
     completed_backtests self' = completed_backtests self).
Proof.
  split.
  - unfold create_backtest. simpl. split; [|by intros ->].
    intros H. apply (inj (String.append "backtest_")) in H.
    by apply (inj pretty) in H.
  - intros Hreach earlier Hin. cbv zeta.
    apply worker_reachable_linked in Hreach as (Ha & _ & _).
    destruct (Ha _ _ Hin) as (r & Hr & Hid).
    pose proof (lookup_lt_Some _ _ _ Hr) as Hlt.
    unfold create_backtest, get_backtest_status, deref in *. simpl in *.
    rewrite lookup_insert_eq. simpl.
    rewrite lookup_app_r, Nat.sub_diag by lia. simpl.
    split_and!; [reflexivity | by apply lookup_app_l | | reflexivity].
    intros id. rewrite lookup_insert. case_decide as Heq.
    + intros [= <-]. lia.
    + intros Hin'. destruct (Ha _ _ Hin') as (r' & Hr' & Hid').
      congruence.
Qed.

End WorkerFacts.

Lemma late_running_engine_reachable :
  Worker.reachable one_point_equity_stats no_benchmark_return finite_sub
    late_running_engine.
Proof.
  unfold late_running_engine, first_worker_done, two_workers_bound,
    one_day_created.
  eapply Worker.reachable_step; [|apply Worker.step_mark_running].
  eapply Worker.reachable_step; [|apply Worker.step_finish].
  eapply Worker.reachable_step; [|apply Worker.step_mark_running].
  eapply Worker.reachable_step; [|apply Worker.step_bind].
  eapply Worker.reachable_step; [|apply Worker.step_bind].
  eapply Worker.reachable_step; [|apply Worker.step_start].
  eapply Worker.reachable_step; [|apply Worker.step_start].
  eapply Worker.reachable_step; [|apply Worker.step_create].
  apply Worker.reachable_init.
Defined.

(** A served record whose status is RUNNING: the write of the second
    worker came after the first had completed and filed the record. *)
Lemma served_result_marked_running :
  BacktestResult.status <$>
    BacktestEngine.get_backtest_results first_worker_done
      "backtest_1700000000" = Some COMPLETED /\
  BacktestResult.status <$>
    BacktestEngine.get_backtest_results late_running_engine
      "backtest_1700000000" = Some RUNNING.
Proof. split; vm_compute; reflexivity. Qed.

Lemma served_results_have_metrics_witness :
  exists result,
    BacktestEngine.get_backtest_results late_running_engine
      "backtest_1700000000" = Some result /\
    BacktestResult.id result = "backtest_1700000000" /\
    is_Some (BacktestResult.metrics result) /\
    is_Some (BacktestResult.completed_at result).
Proof.
  eexists. split; [vm_compute; reflexivity|].
  match goal with
  | |- BacktestResult.id ?r = _ /\ _ =>
      destruct (served_results_have_metrics one_point_equity_stats
                  no_benchmark_return finite_sub late_running_engine
                  "backtest_1700000000" r late_running_engine_reachable)
        as (Hid & Hm & Hc & _);
      [vm_compute; reflexivity | exact (conj Hid (conj Hm Hc))]
  end.
Defined.

Lemma one_day_created_reachable :
  Worker.reachable one_point_equity_stats no_benchmark_return finite_sub
    one_day_created.
Proof.
  unfold one_day_created.
  eapply Worker.reachable_step; [|apply Worker.step_create].
  apply Worker.reachable_init.
Defined.

Lemma create_backtest_reuses_id_witness :
  let self' := fst (BacktestEngine.create_backtest one_day_created 1700000000
                      momentum_config) in
  BacktestEngine.get_backtest_status self' "backtest_1700000000"
  = Some PENDING /\
  BacktestEngine.heap self' !! 0%nat
  = BacktestEngine.heap one_day_created !! 0%nat /\
  (forall id, BacktestEngine.active_backtests self' !! id <> Some 0%nat) /\
  BacktestEngine.completed_backtests self'
  = BacktestEngine.completed_backtests one_day_created.
Proof.
  destruct (create_backtest_reuses_id one_point_equity_stats
              no_benchmark_return finite_sub one_day_created one_day_created
              1700000000 1700000000 momentum_config momentum_config)
    as [_ H].
  apply (H one_day_created_reachable 0%nat).
  vm_compute. reflexivity.
Defined.
